(** * Discord pearlbot: the link-request lifecycle of [main.js]

    A shallow embedding of the bot's single source file.  The three
    event handlers of [main.js] ([ClientReady], and the two branches of
    [InteractionCreate]) become functions on an explicit system state
    that holds the bot's two global collections ([pending], [accounts]),
    the two backing files and the part of the chat platform the
    handlers talk to (the channels and their messages).

    Conventions.
    - JavaScript strings are [string]; a character is a code unit below
      256 (a character of a literal beyond that range is written as its
      UTF-8 bytes).  Identifiers of users, roles, channels and messages
      are strings, as in discord.js.
    - A handler runs from its first statement to its last as one step:
      two handlers never interleave at an [await].
    - [Date.now()] and [Math.floor(Math.random()*10000)] are inputs of
      the event that reads them; numbers are integers.
    - An exception becomes the value its [catch] produces; a call of the
      platform that can fail returns an [option].  So does
      [createEmbedForReq], whose [EmbedBuilder] throws on a value beyond
      its limits; the ids of requests are the bot's own, short enough
      for the custom id of a button.
    - Log lines ([info], [warn], [errorLog]) are a write-only sink and
      are left out; so are the button styles, the emoji of the buttons
      and the time stamp of an embed (a reading of [Date.now()] is a
      valid time value). *)

From Stdlib Require Import ZArith Bool Ascii String DecimalString DecimalZ.
From stdpp Require Import base option list strings gmap fin_maps.

Local Open Scope Z_scope.
Local Open Scope string_scope.
Local Open Scope list_scope.
Local Set Warnings "-register-all".

(** ** JavaScript string primitives used by the handlers *)

Module JS.

(** [`${n}`] for an integer [n]: its decimal numeral. *)
Definition toString (n : Z) : string := NilZero.string_of_int (Z.to_int n).

(** [s.startsWith(p)] *)
Definition startsWith (s p : string) : bool := String.prefix p s.

(** [s.split(sep)] for a one-character separator: the segments between
    the occurrences of [sep]; the empty string splits into one empty
    segment. *)
Fixpoint split (sep : ascii) (s : string) : list string :=
  match s with
  | EmptyString => [EmptyString]
  | String c r =>
      if Ascii.eqb c sep then EmptyString :: split sep r
      else match split sep r with
           | h :: t => String c h :: t
           | [] => [String c EmptyString]
           end
  end.

(** White space and line terminators of ECMAScript among the code
    units below 256: TAB, LF, VT, FF, CR, SP and NBSP. *)
Definition isWhiteSpace (c : ascii) : bool :=
  let n := nat_of_ascii c in
  (Nat.eqb n 9 || Nat.eqb n 10 || Nat.eqb n 11 || Nat.eqb n 12
   || Nat.eqb n 13 || Nat.eqb n 32 || Nat.eqb n 160)%bool.

Fixpoint trimStart (s : string) : string :=
  match s with
  | EmptyString => EmptyString
  | String c r => if isWhiteSpace c then trimStart r else s
  end.

Fixpoint trimEnd (s : string) : string :=
  match s with
  | EmptyString => EmptyString
  | String c r =>
      match trimEnd r with
      | EmptyString => if isWhiteSpace c then EmptyString else String c EmptyString
      | r' => String c r'
      end
  end.

(** [s.trim()] *)
Definition trim (s : string) : string := trimEnd (trimStart s).

(** Truthiness of a string: every string but the empty one. *)
Definition truthy (s : string) : bool :=
  match s with EmptyString => false | _ => true end.

(** Truthiness of a value that is [null]/[undefined] or a string. *)
Definition truthy_opt (o : option string) : bool :=
  match o with Some s => truthy s | None => false end.

(** [a.includes(x)] on an array of strings (SameValueZero on strings is
    equality of the code-unit sequences: case-sensitive, exact). *)
Definition includes (x : string) (a : list string) : bool :=
  existsb (String.eqb x) a.

(** [a.find(p)]: the first element that satisfies [p], with its index. *)
Fixpoint findIndex {A} (p : A -> bool) (a : list A) : option nat :=
  match a with
  | [] => None
  | x :: r => if p x then Some 0%nat else option_map S (findIndex p r)
  end.

End JS.

(** ** Data model *)

(** [req.status]: the three strings the program ever stores. *)
Inductive Status := Pending | Approved | Rejected.

Definition status_string (st : Status) : string :=
  match st with
  | Pending => "pending"
  | Approved => "approved"
  | Rejected => "rejected"
  end.

Global Instance Status_eq_dec : EqDecision Status.
Proof. solve_decision. Defined.

(** A request object, as built by the [/link] handler.  [resolvedBy] and
    [resolvedAt] are absent until the request is resolved. *)
Record LinkRequest := mkReq {
  id : string;
  requesterId : string;
  requesterTag : string;
  targetId : string;
  targetTag : string;
  ign : string;
  status : Status;
  createdAt : Z;
  messageId : option string;
  resolvedBy : option string;
  resolvedAt : option Z
}.

(** An entry of [accounts]: [{ username, id, igns }] (the [id] property
    is [entry_id] here, the name [id] being taken by the request). *)
Record AccountEntry := mkEntry {
  username : string;
  entry_id : string;
  igns : list string
}.

(** [interaction.user] *)
Record User := mkUser {
  user_id : string;
  user_name : string;
  discriminator : string
}.

(** [interaction.member]: [roles_cache] is [member.roles.cache] (the ids
    of its roles) and [permissions] the bit field of
    [member.permissions]; either may be missing. *)
Record Member := mkMember {
  roles_cache : option (list string);
  permissions : option Z
}.

(** *** JSON values and the backing files *)

Inductive json :=
| JNull
| JBool (b : bool)
| JNumber (n : Z)
| JString (s : string)
| JArray (a : list json)
| JObject (o : list (string * json)).

(** Truthiness of a parsed JSON value: [null], [false], [0] and [""] are
    falsy, every array and object is truthy. *)
Definition json_truthy (v : json) : bool :=
  match v with
  | JNull => false
  | JBool b => b
  | JNumber n => negb (Z.eqb n 0)
  | JString s => JS.truthy s
  | JArray _ => true
  | JObject _ => true
  end.

Definition is_collection (v : json) : bool :=
  match v with JArray _ | JObject _ => true | _ => false end.

(** What a path holds, seen through [fs.existsSync], [fs.readFileSync]
    and [JSON.parse]. *)
Inductive file_state :=
| Absent                (* existsSync is false *)
| Unreadable            (* readFileSync throws *)
| EmptyFile             (* the content is the empty string *)
| Malformed             (* non-empty content on which JSON.parse throws *)
| Holds (v : json).     (* non-empty content that JSON.parse decodes to v *)

(** [readJson(filePath, defaultValue)]:
    [JSON.parse(content || 'null') || defaultValue] inside a [try] whose
    [catch] returns [defaultValue]. *)
Definition readJson (f : file_state) (defaultValue : json) : json :=
  match f with
  | Absent => defaultValue
  | Unreadable => defaultValue
  | EmptyFile => if json_truthy JNull then JNull else defaultValue
  | Malformed => defaultValue
  | Holds v => if json_truthy v then v else defaultValue
  end.

(** Lines 66-67: the two collections at start-up. *)
Definition load_pending (f : file_state) : json := readJson f (JArray []).
Definition load_accounts (f : file_state) : json := readJson f (JObject []).

Definition json_opt_string (o : option string) : json :=
  match o with Some s => JString s | None => JNull end.

(** [JSON.stringify] of a request: its own properties in creation order;
    properties never assigned are absent. *)
Definition req_to_json (r : LinkRequest) : json :=
  JObject
    ([("id", JString (id r));
      ("requesterId", JString (requesterId r));
      ("requesterTag", JString (requesterTag r));
      ("targetId", JString (targetId r));
      ("targetTag", JString (targetTag r));
      ("ign", JString (ign r));
      ("status", JString (status_string (status r)));
      ("createdAt", JNumber (createdAt r));
      ("messageId", json_opt_string (messageId r))]
     ++ match resolvedBy r with Some u => [("resolvedBy", JString u)] | None => [] end
     ++ match resolvedAt r with Some t => [("resolvedAt", JNumber t)] | None => [] end).

Definition pending_to_json (l : list LinkRequest) : json :=
  JArray (map req_to_json l).

Definition entry_to_json (e : AccountEntry) : json :=
  JObject [("username", JString (username e));
           ("id", JString (entry_id e));
           ("igns", JArray (map JString (igns e)))].

(** The accounts object; its properties are listed in the order of
    [map_to_list], the bot never observes their order. *)
Definition accounts_to_json (m : gmap string AccountEntry) : json :=
  JObject (map (fun kv => (fst kv, entry_to_json (snd kv))) (map_to_list m)).

(** *** The chat platform *)

Record Button := mkButton {
  btn_customId : string;
  btn_label : string;
  btn_disabled : bool
}.

Record Embed := mkEmbed {
  embed_title : string;
  embed_color : Z;
  embed_fields : list (string * string);
  embed_footer : string
}.

Record Message := mkMessage {
  msg_id : string;
  msg_embeds : list Embed;
  msg_components : list (list Button)
}.

(** A channel: whether it is text based, whether the bot may post in it
    ([send] throws otherwise), and its live messages. *)
Record Channel := mkChannel {
  isTextBased : bool;
  canSend : bool;
  messages : list Message
}.

(** *** Configuration and system state *)

Record Config := mkConfig {
  ADMIN_CHANNEL_ID : option string;
  ADMIN_ROLE_IDS : list string
}.

Record State := mkState {
  pending : list LinkRequest;               (* the array [pending] *)
  accounts : gmap string AccountEntry;      (* the object [accounts] *)
  PENDING_FILE : file_state;                (* pending.json *)
  ACCOUNTS_FILE : file_state;               (* accounts.json *)
  fs_writable : bool;                       (* writeFileSync succeeds *)
  channels : gmap string Channel;           (* channels the client can fetch *)
  snowflake : Z                             (* next message id the platform issues *)
}.

(** Field updates ([s.pending = ...], [req.messageId = ...], ...). *)
Definition with_pending (s : State) (l : list LinkRequest) : State :=
  mkState l (accounts s) (PENDING_FILE s) (ACCOUNTS_FILE s) (fs_writable s)
          (channels s) (snowflake s).

Definition with_accounts (s : State) (m : gmap string AccountEntry) : State :=
  mkState (pending s) m (PENDING_FILE s) (ACCOUNTS_FILE s) (fs_writable s)
          (channels s) (snowflake s).

Definition with_PENDING_FILE (s : State) (f : file_state) : State :=
  mkState (pending s) (accounts s) f (ACCOUNTS_FILE s) (fs_writable s)
          (channels s) (snowflake s).

Definition with_ACCOUNTS_FILE (s : State) (f : file_state) : State :=
  mkState (pending s) (accounts s) (PENDING_FILE s) f (fs_writable s)
          (channels s) (snowflake s).

Definition with_platform (s : State) (c : gmap string Channel) (n : Z) : State :=
  mkState (pending s) (accounts s) (PENDING_FILE s) (ACCOUNTS_FILE s)
          (fs_writable s) c n.

Definition with_messageId (r : LinkRequest) (m : option string) : LinkRequest :=
  mkReq (id r) (requesterId r) (requesterTag r) (targetId r) (targetTag r)
        (ign r) (status r) (createdAt r) m (resolvedBy r) (resolvedAt r).

(** [req.status = st; req.resolvedBy = by; req.resolvedAt = at] *)
Definition with_resolution (r : LinkRequest) (st : Status) (by_ : string) (at_ : Z)
  : LinkRequest :=
  mkReq (id r) (requesterId r) (requesterTag r) (targetId r) (targetTag r)
        (ign r) st (createdAt r) (messageId r) (Some by_) (Some at_).

Definition with_igns (e : AccountEntry) (l : list string) : AccountEntry :=
  mkEntry (username e) (entry_id e) l.

Definition with_messages (c : Channel) (l : list Message) : Channel :=
  mkChannel (isTextBased c) (canSend c) l.

(** ** Persistence: [writeJson] *)

(** [writeJson(PENDING_FILE, pending)]: a failed write is caught and
    leaves the file as it was. *)
Definition writeJson_pending (s : State) : State :=
  if fs_writable s
  then with_PENDING_FILE s (Holds (pending_to_json (pending s)))
  else s.

(** [writeJson(ACCOUNTS_FILE, accounts)] *)
Definition writeJson_accounts (s : State) : State :=
  if fs_writable s
  then with_ACCOUNTS_FILE s (Holds (accounts_to_json (accounts s)))
  else s.

(** ** Presentation *)

Definition colorMap (st : Status) : Z :=
  match st with
  | Pending => 16755200    (* 0xFFAA00 *)
  | Approved => 2271778    (* 0x22AA22 *)
  | Rejected => 13382451   (* 0xCC3333 *)
  end.

(** The values [createEmbedForReq(req, status)] hands to the
    [EmbedBuilder]. *)
Definition requesterValue (req : LinkRequest) : string :=
  requesterTag req +:+ " (<@" +:+ requesterId req +:+ ">)".

Definition targetValue (req : LinkRequest) : string :=
  targetTag req +:+ " (<@" +:+ targetId req +:+ ">)".

Definition ignValue (req : LinkRequest) : string := "`" +:+ ign req +:+ "`".

Definition footerText (req : LinkRequest) : string := "Request ID: " +:+ id req.

Definition embedFor (req : LinkRequest) (st : Status) : Embed :=
  let base :=
    [("Requester", requesterValue req);
     ("Target", targetValue req);
     ("IGN", ignValue req)] in
  let decision :=
    match st with
    | Approved =>
        if JS.truthy_opt (resolvedBy req)
        then [("Decision", "✅ Approved by <@" +:+ default "" (resolvedBy req) +:+ ">")]
        else []
    | Rejected =>
        if JS.truthy_opt (resolvedBy req)
        then [("Decision", "❌ Rejected by <@" +:+ default "" (resolvedBy req) +:+ ">")]
        else []
    | Pending => []
    end in
  mkEmbed "Link Request" (colorMap st) (base ++ decision) (footerText req).

(** The limits of discord.js's [EmbedBuilder] that these values can
    break: [addFields] throws unless a field value has 1 to 1024 code
    units, [setFooter] unless the footer text has 1 to 2048. *)
Definition fieldValueFits (units : nat) : bool :=
  (Nat.leb 1 units && Nat.leb units 1024)%bool.

Definition footerTextFits (units : nat) : bool :=
  (Nat.leb 1 units && Nat.leb units 2048)%bool.

(** The code units of a [Decision] value: the mark is one code unit of
    JavaScript (three bytes here), which makes 17 with the words around
    the resolver's id. *)
Definition decisionUnits (by_ : string) : nat := (17 + String.length by_)%nat.

(** None of the builder's checks throws. *)
Definition embedFits (req : LinkRequest) (st : Status) : bool :=
  (fieldValueFits (String.length (requesterValue req))
   && fieldValueFits (String.length (targetValue req))
   && fieldValueFits (String.length (ignValue req))
   && footerTextFits (String.length (footerText req))
   && match st with
      | Pending => true
      | _ =>
          if JS.truthy_opt (resolvedBy req)
          then fieldValueFits (decisionUnits (default "" (resolvedBy req)))
          else true
      end)%bool.

(** [createEmbedForReq(req, status)]: the embed, or [None] when the
    builder throws. *)
Definition createEmbedForReq (req : LinkRequest) (st : Status) : option Embed :=
  if embedFits req st then Some (embedFor req st) else None.

(** The action row: the two buttons tagged with the request id. *)
Definition buttonRow (reqId : string) (disabled : bool) : list Button :=
  [mkButton ("link_accept_" +:+ reqId) "Approve" disabled;
   mkButton ("link_reject_" +:+ reqId) "Reject" disabled].

(** [adminChannel.send({ embeds, components })]: throws ([None]) when
    the bot cannot post; otherwise the platform issues the next
    snowflake as the id of the new message. *)
Definition send (s : State) (cid : string) (embeds : list Embed)
    (components : list (list Button)) : option (State * string) :=
  match channels s !! cid with
  | None => None
  | Some ch =>
      if canSend ch then
        let sent := mkMessage (JS.toString (snowflake s)) embeds components in
        Some (with_platform s
                (<[cid := with_messages ch (messages ch ++ [sent])]> (channels s))
                (snowflake s + 1),
              msg_id sent)
      else None
  end.

(** [adminChannel.messages.fetch(id)]: the live message with that id and
    its position, nothing when there is none (the call throws). *)
Definition fetchMessage (ch : Channel) (mid : string) : option (nat * Message) :=
  match JS.findIndex (fun m => String.eqb (msg_id m) mid) (messages ch) with
  | Some i => option_map (pair i) (messages ch !! i)
  | None => None
  end.

(** [msg.edit({ embeds, components })] *)
Definition editMessage (s : State) (cid : string) (ch : Channel) (i : nat)
    (m : Message) (embeds : list Embed) (components : list (list Button)) : State :=
  with_platform s
    (<[cid := with_messages ch
                (<[i := mkMessage (msg_id m) embeds components]> (messages ch))]>
       (channels s))
    (snowflake s).

(** The [try] block after a decision: fetch the request's message in the
    admin channel, build the embed of the decision and, when the message
    is there, show the decision on it with both buttons disabled.  Every
    failure is caught, a throw of [createEmbedForReq] included. *)
Definition updateAdminMessage (cfg : Config) (s : State) (req : LinkRequest)
    (st : Status) : State :=
  match ADMIN_CHANNEL_ID cfg with
  | None => s
  | Some cid =>
      match channels s !! cid with
      | None => s
      | Some ch =>
          if isTextBased ch then
            match messageId req with
            | None => s
            | Some mid =>
                let msg := fetchMessage ch mid in
                match createEmbedForReq req st with
                | None => s
                | Some updatedEmbed =>
                    match msg with
                    | None => s
                    | Some (i, m) =>
                        editMessage s cid ch i m [updatedEmbed]
                                    [buttonRow (id req) true]
                    end
                end
            end
          else s
      end
  end.

(** ** Events and their outcomes *)

(** A slash command: its name, the invoking user and the two options of
    [/link] ([None] when the option was not given). *)
Record ChatInput := mkChatInput {
  commandName : string;
  ci_user : User;
  opt_ign : option string;
  opt_account : option User
}.

(** The readings a [/link] submission takes from its environment:
    [Date.now()] for the id, [Math.floor(Math.random()*10000)], and
    [Date.now()] for [createdAt]. *)
Record Readings := mkReadings {
  now_id : Z;
  random_part : Z;
  now_created : Z
}.

(** A button click: [member] is [interaction.member]; [guild_member] is
    what [interaction.guild.members.fetch] yields when the interaction
    has a guild ([None] without guild or when the fetch throws). *)
Record ButtonClick := mkClick {
  customId : string;
  bc_user : User;
  member : option Member;
  guild_member : option Member
}.

(** What the handler tells the invoker.  [reply_content] gives the text
    of the ephemeral reply. *)
Inductive Outcome :=
| Ignored                       (* returned without a reply *)
| Submitted
| AdminLogsNotConfigured
| AdminChannelNotFound
| NotFound
| AlreadyResolved (st : Status)
| Unauthorized
| ApprovedReply (tag ign_ : string)
| RejectedReply (tag : string)
| HandlerError.                 (* the outer [catch] *)

Definition reply_content (o : Outcome) : option string :=
  match o with
  | Ignored => None
  | Submitted => Some "Link request submitted to admins."
  | AdminLogsNotConfigured =>
      Some "AdminLogs not configured on the bot. Contact the bot owner."
  | AdminChannelNotFound =>
      Some "AdminLogs channel not found or not a text channel. Contact the bot owner."
  | NotFound => Some "Request not found (may have expired)."
  | AlreadyResolved st =>
      Some ("This request was already " +:+ status_string st +:+ ".")
  | Unauthorized =>
      Some "You do not have permission to approve or reject link requests."
  | ApprovedReply tag ign_ =>
      Some ("Approved. " +:+ tag +:+ " linked to IGN " +:+ ign_)
  | RejectedReply tag => Some ("Rejected request for " +:+ tag +:+ ".")
  | HandlerError => Some "An error occurred handling that interaction."
  end.

(** ** The [/link] branch of [InteractionCreate] (lines 174-217) *)

(** [`${Date.now()}-${Math.floor(Math.random()*10000)}`] *)
Definition reqId (now rnd : Z) : string :=
  JS.toString now +:+ "-" +:+ JS.toString rnd.

Definition userTag (u : User) : string :=
  user_name u +:+ "#" +:+ discriminator u.

Definition newRequest (c : ChatInput) (e : Readings) (ign_ : string) : LinkRequest :=
  let targetUser := default (ci_user c) (opt_account c) in
  {| id := reqId (now_id e) (random_part e);
     requesterId := user_id (ci_user c);
     requesterTag := userTag (ci_user c);
     targetId := user_id targetUser;
     targetTag := userTag targetUser;
     ign := ign_;
     status := Pending;
     createdAt := now_created e;
     messageId := None;
     resolvedBy := None;
     resolvedAt := None |}.

Definition handleCommand (cfg : Config) (s : State) (c : ChatInput) (e : Readings)
  : State * Outcome :=
  if negb (String.eqb (commandName c) "link") then (s, Ignored) else
  match opt_ign c with
  | None => (s, HandlerError)          (* getString('ign', true) throws *)
  | Some raw =>
      let req := newRequest c e (JS.trim raw) in
      let slot := length (pending s) in
      let s1 := writeJson_pending (with_pending s (pending s ++ [req])) in
      match ADMIN_CHANNEL_ID cfg with
      | None => (s1, AdminLogsNotConfigured)
      | Some cid =>
          if negb (JS.truthy cid) then (s1, AdminLogsNotConfigured) else
          match channels s1 !! cid with
          | None => (s1, AdminChannelNotFound)
          | Some ch =>
              if negb (isTextBased ch) then (s1, AdminChannelNotFound) else
              match createEmbedForReq req Pending with
              | None => (s1, HandlerError)   (* thrown to the outer [catch] *)
              | Some embed =>
                  match send s1 cid [embed] [buttonRow (id req) false] with
                  | None => (s1, HandlerError)
                  | Some (s2, sent_id) =>
                      let req' := with_messageId req (Some sent_id) in
                      (writeJson_pending
                         (with_pending s2 (<[slot := req']> (pending s2))),
                       Submitted)
                  end
              end
          end
      end
  end.

(** ** The button branch of [InteractionCreate] (lines 219-306) *)

(** [const [ , action, reqId ] = cid.split('_')] *)
Definition parseCustomId (cid : string) : option string * option string :=
  let parts := JS.split "_" cid in (parts !! 1%nat, parts !! 2%nat).

(** [p.id === reqId], where [reqId] may be [undefined]. *)
Definition id_is (reqId : option string) (p : LinkRequest) : bool :=
  match reqId with
  | Some x => String.eqb (id p) x
  | None => false
  end.

(** [pending.find(p => p.id === reqId)]: the first match and its slot. *)
Definition findRequest (l : list LinkRequest) (reqId : option string)
  : option (nat * LinkRequest) :=
  match JS.findIndex (id_is reqId) l with
  | Some i => option_map (pair i) (l !! i)
  | None => None
  end.

(** [PermissionsBitField.Flags] and [PermissionsBitField.has] of
    discord.js (with its default [checkAdmin = true]). *)
Definition Administrator : Z := Z.shiftl 1 3.
Definition ManageGuild : Z := Z.shiftl 1 5.

Definition has (bitfield flag : Z) : bool :=
  (Z.eqb (Z.land bitfield Administrator) Administrator
   || Z.eqb (Z.land bitfield flag) flag)%bool.

(** Lines 237-252: the resolver's member object and [hasAdmin]. *)
Definition resolverMember (b : ButtonClick) : option Member :=
  match member b with
  | Some m => Some m
  | None => guild_member b
  end.

Definition hasAdmin (cfg : Config) (m : option Member) : bool :=
  if (0 <? length (ADMIN_ROLE_IDS cfg))%nat then
    match m with
    | Some mb =>
        match roles_cache mb with
        | Some roles => existsb (fun r => JS.includes r (ADMIN_ROLE_IDS cfg)) roles
        | None => false
        end
    | None => false
    end
  else
    match m with
    | Some mb =>
        match permissions mb with
        | Some bits => (has bits Administrator || has bits ManageGuild)%bool
        | None => false
        end
    | None => false
    end.

(** Lines 268-272: the upsert of the account entry. *)
Definition linkTarget (req : LinkRequest) : string :=
  if JS.truthy (targetId req) then targetId req else requesterId req.

Definition upsertAccount (m : gmap string AccountEntry) (req : LinkRequest)
  : gmap string AccountEntry :=
  let target := linkTarget req in
  let entry := default (mkEntry (targetTag req) target []) (m !! target) in
  let entry' :=
    if JS.includes (ign req) (igns entry) then entry
    else with_igns entry (igns entry ++ [ign req]) in
  <[target := entry']> m.

(** [action === 'accept'], where [action] may be [undefined]. *)
Definition isAccept (action : option string) : bool :=
  match action with
  | Some a => String.eqb a "accept"
  | None => false
  end.

Definition handleButton (cfg : Config) (s : State) (b : ButtonClick) (now : Z)
  : State * Outcome :=
  let cid := customId b in
  if (negb (JS.startsWith cid "link_accept_")
      && negb (JS.startsWith cid "link_reject_"))%bool then (s, Ignored) else
  let '(action, rid) := parseCustomId cid in
  match findRequest (pending s) rid with
  | None => (s, NotFound)
  | Some (slot, req) =>
      if negb (bool_decide (status req = Pending))
      then (s, AlreadyResolved (status req)) else
      if negb (hasAdmin cfg (resolverMember b)) then (s, Unauthorized) else
      if isAccept action then
        let s1 := writeJson_accounts
                    (with_accounts s (upsertAccount (accounts s) req)) in
        let req' := with_resolution req Approved (user_id (bc_user b)) now in
        let s2 := writeJson_pending
                    (with_pending s1 (<[slot := req']> (pending s1))) in
        (updateAdminMessage cfg s2 req' Approved,
         ApprovedReply (targetTag req') (ign req'))
      else
        let req' := with_resolution req Rejected (user_id (bc_user b)) now in
        let s1 := writeJson_pending
                    (with_pending s (<[slot := req']> (pending s))) in
        (updateAdminMessage cfg s1 req' Rejected,
         RejectedReply (targetTag req'))
  end.

(** ** The [ClientReady] handler: restoring pending messages (lines 140-169) *)

(** The slots of [pending.filter(p => p.status === 'pending')]. *)
Fixpoint pendingSlots (from : nat) (l : list LinkRequest) : list nat :=
  match l with
  | [] => []
  | p :: r =>
      if bool_decide (status p = Pending)
      then from :: pendingSlots (S from) r
      else pendingSlots (S from) r
  end.

(** One turn of the [for] loop, on the request object in [slot].
    [None]: [createEmbedForReq] or [adminChannel.send] threw, which
    leaves the loop. *)
Definition restoreOne (cid : string) (s : State) (slot : nat) : option State :=
  match pending s !! slot with
  | None => Some s
  | Some req =>
      let message :=
        if JS.truthy_opt (messageId req) then
          match channels s !! cid with
          | Some ch => fetchMessage ch (default "" (messageId req))
          | None => None
          end
        else None in
      match message with
      | Some _ => Some s
      | None =>
          match createEmbedForReq req Pending with
          | None => None
          | Some embed =>
              match send s cid [embed] [buttonRow (id req) false] with
              | None => None
              | Some (s1, sent_id) =>
                  Some (writeJson_pending
                          (with_pending s1
                             (<[slot := with_messageId req (Some sent_id)]>
                                (pending s1))))
              end
          end
      end
  end.

Fixpoint restoreAll (cid : string) (s : State) (slots : list nat) : State :=
  match slots with
  | [] => s
  | slot :: rest =>
      match restoreOne cid s slot with
      | None => s
      | Some s' => restoreAll cid s' rest
      end
  end.

Definition handleReady (cfg : Config) (s : State) : State :=
  match ADMIN_CHANNEL_ID cfg with
  | None => s
  | Some cid =>
      if negb (JS.truthy cid) then s else
      match channels s !! cid with
      | None => s
      | Some ch =>
          if negb (isTextBased ch) then s
          else restoreAll cid s (pendingSlots 0 (pending s))
      end
  end.

(** ** The bot as a transition system *)

Inductive Interaction :=
| ChatInputCommand (c : ChatInput) (e : Readings)
| ButtonInteraction (b : ButtonClick) (now : Z)
| OtherInteraction.

Inductive Event :=
| ClientReady
| InteractionCreate (i : Interaction).

Definition handleInteraction (cfg : Config) (s : State) (i : Interaction)
  : State * Outcome :=
  match i with
  | ChatInputCommand c e => handleCommand cfg s c e
  | ButtonInteraction b now => handleButton cfg s b now
  | OtherInteraction => (s, Ignored)
  end.

Definition step (cfg : Config) (s : State) (ev : Event) : State :=
  match ev with
  | ClientReady => handleReady cfg s
  | InteractionCreate i => fst (handleInteraction cfg s i)
  end.

Definition run (cfg : Config) (s : State) (evs : list Event) : State :=
  fold_left (step cfg) evs s.

(** The bot right after a first start: nothing stored. *)
Definition emptyState (c : gmap string Channel) (n : Z) : State :=
  mkState [] ∅ Absent Absent true c n.

(** ** Character classes used to state the format of request ids *)

Definition isDigit (c : ascii) : bool :=
  let n := nat_of_ascii c in (Nat.leb 48 n && Nat.leb n 57)%bool.

Fixpoint allChars (p : ascii -> bool) (s : string) : bool :=
  match s with
  | EmptyString => true
  | String c r => (p c && allChars p r)%bool
  end.

Definition notUnderscore (c : ascii) : bool := negb (Ascii.eqb c "_").

(** The integer a decimal numeral denotes. *)
Definition numeralValue (s : string) : option Z :=
  option_map Z.of_int (NilZero.int_of_string s).

(** ** Vocabulary of the properties *)

(** The button ids the handler accepts. *)
Definition isLinkButton (cid : string) : bool :=
  (JS.startsWith cid "link_accept_" || JS.startsWith cid "link_reject_")%bool.

(** The request object a click works on: the handler's own lookup. *)
Definition clickedRequest (s : State) (b : ButtonClick) : option (nat * LinkRequest) :=
  findRequest (pending s) (snd (parseCustomId (customId b))).

(** The decision a link button carries: [accept] approves, anything
    else rejects. *)
Definition decision (b : ButtonClick) : Status :=
  if isAccept (fst (parseCustomId (customId b))) then Approved else Rejected.

(** The reply that announces a decision on a request. *)
Definition decisionReply (st : Status) (r : LinkRequest) : Outcome :=
  match st with
  | Approved => ApprovedReply (targetTag r) (ign r)
  | _ => RejectedReply (targetTag r)
  end.

(** The five ways a click on a button can end, with what each leaves
    behind. *)
Inductive ButtonRun (cfg : Config) (s : State) (b : ButtonClick) (now : Z)
  : State -> Outcome -> Prop :=
| Run_ignored :
    isLinkButton (customId b) = false ->
    ButtonRun cfg s b now s Ignored
| Run_not_found :
    isLinkButton (customId b) = true ->
    clickedRequest s b = None ->
    ButtonRun cfg s b now s NotFound
| Run_already_resolved slot r :
    isLinkButton (customId b) = true ->
    clickedRequest s b = Some (slot, r) ->
    status r <> Pending ->
    ButtonRun cfg s b now s (AlreadyResolved (status r))
| Run_unauthorized slot r :
    isLinkButton (customId b) = true ->
    clickedRequest s b = Some (slot, r) ->
    status r = Pending ->
    hasAdmin cfg (resolverMember b) = false ->
    ButtonRun cfg s b now s Unauthorized
| Run_resolved slot r s' :
    isLinkButton (customId b) = true ->
    clickedRequest s b = Some (slot, r) ->
    status r = Pending ->
    hasAdmin cfg (resolverMember b) = true ->
    pending s' =
      <[slot := with_resolution r (decision b) (user_id (bc_user b)) now]> (pending s) ->
    accounts s' =
      (if decide (decision b = Approved) then upsertAccount (accounts s) r
       else accounts s) ->
    fs_writable s' = fs_writable s ->
    snowflake s' = snowflake s ->
    (fs_writable s = true ->
     PENDING_FILE s' = Holds (pending_to_json (pending s')) /\
     ACCOUNTS_FILE s' =
       (if decide (decision b = Approved) then Holds (accounts_to_json (accounts s'))
        else ACCOUNTS_FILE s)) ->
    ButtonRun cfg s b now s' (decisionReply (decision b) r).

(** A resolution went through: the reply is one of the two success
    replies. *)
Definition resolved (o : Outcome) : bool :=
  match o with
  | ApprovedReply _ _ | RejectedReply _ => true
  | _ => false
  end.

(** The resolver has none of the configured admin roles (when roles are
    configured), or neither the Administrator nor the ManageGuild
    permission bit (when none is configured).  A resolver without
    member data, role cache or permissions has nothing to show. *)
Definition lacksAdminRights (cfg : Config) (m : option Member) : Prop :=
  (ADMIN_ROLE_IDS cfg <> [] ->
   forall mb roles, m = Some mb -> roles_cache mb = Some roles ->
     forall r, In r roles -> ~ In r (ADMIN_ROLE_IDS cfg))
  /\
  (ADMIN_ROLE_IDS cfg = [] ->
   forall mb bits, m = Some mb -> permissions mb = Some bits ->
     Z.testbit bits 3 = false /\ Z.testbit bits 5 = false).

(** No account entry lists an in-game name twice. *)
Definition igns_nodup (m : gmap string AccountEntry) : Prop :=
  forall k e, m !! k = Some e -> NoDup (igns e).

(** Modelled from the spec: [isIgnLinkedTo(accountId, ign)], which
    [main.js] does not define; the spec makes it a pure lookup against
    the account collection with case-sensitive exact match.  It is
    written with the membership test the accept path itself applies to
    an entry ([entry.igns.includes(ign)]). *)
Definition isIgnLinkedTo (m : gmap string AccountEntry) (accountId ign_ : string)
  : bool :=
  match m !! accountId with
  | Some e => JS.includes ign_ (igns e)
  | None => false
  end.

(** The two ways the teleport command fails. *)
Inductive TeleportError := Forbidden | NotLinked.

(** The teleport trigger: the fixed-format command string naming the
    in-game name. *)
Definition teleportTrigger (ign_ : string) : string := ".tp instapearl " +:+ ign_.

(** Modelled from the spec:
    [request-teleport(callerId, callerIsAdmin, targetAccountId, ign)],
    the [/tp] command of the repository's README, which [main.js] does
    not define (its dispatcher returns at once for every command other
    than [link]).  In the spec's words: if [callerIsAdmin] is false,
    [targetAccountId] must equal [callerId], otherwise the call fails
    with [Forbidden]; then [isIgnLinkedTo(targetAccountId, ign)] must be
    true, else it fails with [NotLinked]; on success it emits the
    teleport trigger to the designated output destination, and has no
    state of its own.  The result is the failure, if any, and the
    emissions, each with its destination. *)
Definition request_teleport (m : gmap string AccountEntry) (destination : string)
    (callerId : string) (callerIsAdmin : bool) (targetAccountId ign_ : string)
  : option TeleportError * list (string * string) :=
  if (negb callerIsAdmin && negb (String.eqb targetAccountId callerId))%bool
  then (Some Forbidden, [])
  else if negb (isIgnLinkedTo m targetAccountId ign_)
  then (Some NotLinked, [])
  else (None, [(destination, teleportTrigger ign_)]).

(** The readings of the submissions among the events: the timestamp and
    the random part of every [/link] command that carries an [ign]. *)
Definition submission (ev : Event) : list (Z * Z) :=
  match ev with
  | InteractionCreate (ChatInputCommand c e) =>
      if String.eqb (commandName c) "link" then
        match opt_ign c with
        | Some _ => [(now_id e, random_part e)]
        | None => []
        end
      else []
  | _ => []
  end.

Definition submissions (evs : list Event) : list (Z * Z) :=
  concat (map submission evs).

(** The channel can still fetch a message with this id. *)
Definition isLive (ch : Channel) (mid : string) : bool :=
  match fetchMessage ch mid with
  | Some _ => true
  | None => false
  end.

(** The request has a live presentation: it holds a message id and the
    admin channel still has that message. *)
Definition hasLivePresentation (ch : Channel) (r : LinkRequest) : bool :=
  (JS.truthy_opt (messageId r) && isLive ch (default "" (messageId r)))%bool.

(** A pending request lacking a live presentation. *)
Definition needsRender (ch : Channel) (r : LinkRequest) : bool :=
  (bool_decide (status r = Pending) && negb (hasLivePresentation ch r))%bool.

(** The embed of a pending request can be built: the request can be
    rendered. *)
Definition canRender (r : LinkRequest) : bool := embedFits r Pending.

(** The interactive message shown for a pending request. *)
Definition render (r : LinkRequest) (mid : string) : Message :=
  mkMessage mid [embedFor r Pending] [buttonRow (id r) false].



(** Reconciliation, in words: going through the requests in stored
    order, every pending request lacking a live presentation is rendered
    once, under the next id the platform issues, and records that id;
    every other request is left as it is; the pass ends at the first
    request that stops it, which is left as it is with all that follow.
    The result is the new request list and the messages sent. *)
Fixpoint reconcile (ch : Channel) (n : Z) (l : list LinkRequest)
  : list LinkRequest * list Message :=
  match l with
  | [] => ([], [])
  | r :: rest =>
      if needsRender ch r then
        if canRender r then
          let mid := JS.toString n in
          let res := reconcile ch (n + 1) rest in
          (with_messageId r (Some mid) :: fst res, render r mid :: snd res)
        else (l, [])
      else
        let res := reconcile ch n rest in
        (r :: fst res, snd res)
  end.

(** No stored message id is one the platform has yet to issue. *)
Definition idsIssued (n : Z) (l : list LinkRequest) : Prop :=
  forall r mid, In r l -> messageId r = Some mid ->
    forall j, 0 <= j -> mid <> JS.toString (n + j).

(** ** A sample deployment *)

Module Sample.

Definition cfg : Config := mkConfig (Some "900") ["77"].
Definition cfg_no_roles : Config := mkConfig (Some "900") [].
Definition cfg_no_channel : Config := mkConfig None ["77"].
Definition adminLogs : Channel := mkChannel true true [].
Definition fresh : State := emptyState {["900" := adminLogs]} 1000.

Definition alice : User := mkUser "1" "alice" "0001".
Definition bob : User := mkUser "2" "bob" "0002".
Definition carol : User := mkUser "3" "carol" "0003".

Definition moderator : Member := mkMember (Some ["5"; "77"]) (Some 0).
Definition visitor : Member := mkMember (Some ["5"]) (Some 2048).

Definition link (u : User) (ign_ : string) (account : option User) : ChatInput :=
  mkChatInput "link" u (Some ign_) account.

Definition click (cid : string) (u : User) (m : Member) : ButtonClick :=
  mkClick cid u (Some m) None.

(** Alice asks for Notch at millisecond 17, the draw is 5. *)
Definition submitted : State :=
  fst (handleCommand cfg fresh (link alice "Notch" None) (mkReadings 17 5 17)).

(** Bob, a moderator, approves. *)
Definition approved : State :=
  fst (handleButton cfg submitted (click "link_accept_17-5" bob moderator) 20).

(** Alice asks for Notch a second time, one millisecond later. *)
Definition submitted_again : State :=
  fst (handleCommand cfg approved (link alice "Notch" None) (mkReadings 18 6 18)).

(** Bob has Notch linked; then Alice asks for Notch too. *)
Definition bob_holds_notch : State :=
  run cfg fresh
    [InteractionCreate (ChatInputCommand (link bob "Notch" None) (mkReadings 17 5 17));
     InteractionCreate
       (ButtonInteraction (click "link_accept_17-5" carol moderator) 20);
     InteractionCreate (ChatInputCommand (link alice "Notch" None) (mkReadings 30 8 30))].

(** A moderator approves Alice's request for Notch as well. *)
Definition both_hold_notch : State * Outcome :=
  handleButton cfg bob_holds_notch (click "link_accept_30-8" carol moderator) 40.

(** Alice and Bob submit in the same millisecond and draw the same number. *)
Definition same_draw : State :=
  run cfg fresh
    [InteractionCreate (ChatInputCommand (link alice "Notch" None) (mkReadings 17 5 17));
     InteractionCreate (ChatInputCommand (link bob "Steve" None) (mkReadings 17 5 17))].

(** Alice submits three blanks as her in-game name. *)
Definition blank_submission : State * Outcome :=
  handleCommand cfg fresh (link alice "   " None) (mkReadings 17 5 17).

(** A store found at a restart: Alice's request was stored while the
    admin channel was not configured (no message), Bob's request has its
    message, Carol's was approved. *)
Definition before_restart : State :=
  fst (handleButton cfg
    (fst (handleCommand cfg
      (fst (handleCommand cfg
        (fst (handleCommand cfg_no_channel fresh
                (link alice "Notch" None) (mkReadings 17 5 17)))
        (link bob "Steve" None) (mkReadings 18 6 18)))
      (link carol "Alex" None) (mkReadings 19 7 19)))
    (click "link_accept_19-7" bob moderator) 25).

(** An in-game name of 1023 characters, and Alice's request for it; then
    Bob asks for Steve while the admin channel is not configured. *)
Definition long_ign : string := string_of_list_ascii (repeat "a"%char 1023).

Definition long_submission : State * Outcome :=
  handleCommand cfg fresh (link alice long_ign None) (mkReadings 17 5 17).


End Sample.

(** ** Vocabulary of the further properties *)

(** The properties of a request that are written once, when the request
    is built. *)
Definition sameSubmission (r r' : LinkRequest) : Prop :=
  id r' = id r /\ requesterId r' = requesterId r /\
  requesterTag r' = requesterTag r /\ targetId r' = targetId r /\
  targetTag r' = targetTag r /\ ign r' = ign r /\ createdAt r' = createdAt r.

(** A request is pending with no resolver, or resolved with a resolver
    and a resolution time. *)
Definition resolutionRecorded (r : LinkRequest) : Prop :=
  match status r with
  | Pending => resolvedBy r = None /\ resolvedAt r = None
  | _ => resolvedBy r <> None /\ resolvedAt r <> None
  end.

(** Both files decode to what the program holds in memory. *)
Definition inSync (s : State) : Prop :=
  load_pending (PENDING_FILE s) = pending_to_json (pending s) /\
  load_accounts (ACCOUNTS_FILE s) = accounts_to_json (accounts s).

(** Every linked name of every account was asked for by a stored request
    that is approved and targets that account. *)
Definition linksApproved (s : State) : Prop :=
  forall k e x, accounts s !! k = Some e -> In x (igns e) ->
    exists r, In r (pending s) /\ status r = Approved /\
              linkTarget r = k /\ ign r = x.

(** Every account entry sits under its own id and lists a name. *)
Definition entriesKeyed (m : gmap string AccountEntry) : Prop :=
  forall k e, m !! k = Some e -> entry_id e = k /\ igns e <> [].


(** No two stored requests refer to the same message. *)
Definition messagesApart (l : list LinkRequest) : Prop :=
  forall i j r r' mid, l !! i = Some r -> l !! j = Some r' ->
    messageId r = Some mid -> messageId r' = Some mid -> i = j.

(** The message ids the requests hold were all issued by the platform,
    each to one request. *)
Definition messagesOwned (s : State) : Prop :=
  idsIssued (snowflake s) (pending s) /\ messagesApart (pending s).


(** Every approved request has its name in the entry of its target. *)
Definition approvalsLinked (s : State) : Prop :=
  forall r, In r (pending s) -> status r = Approved ->
    exists e, accounts s !! linkTarget r = Some e /\ In (ign r) (igns e).


(** ** A new process *)

(** [o[k]] on a parsed object. *)
Fixpoint field (k : string) (o : list (string * json)) : option json :=
  match o with
  | [] => None
  | (k', v) :: rest => if String.eqb k' k then Some v else field k rest
  end.

Definition as_string (v : json) : option string :=
  match v with JString x => Some x | _ => None end.

Definition as_number (v : json) : option Z :=
  match v with JNumber n => Some n | _ => None end.

(** A property that is a string, or [null] or absent. *)
Definition as_opt_string (v : option json) : option (option string) :=
  match v with
  | None | Some JNull => Some None
  | Some (JString x) => Some (Some x)
  | _ => None
  end.

Definition as_opt_number (v : option json) : option (option Z) :=
  match v with
  | None | Some JNull => Some None
  | Some (JNumber n) => Some (Some n)
  | _ => None
  end.

Definition status_of_string (x : string) : option Status :=
  if String.eqb x "pending" then Some Pending
  else if String.eqb x "approved" then Some Approved
  else if String.eqb x "rejected" then Some Rejected
  else None.

(** The request object a parsed value is, when it has the properties of
    one. *)
Definition req_of_json (v : json) : option LinkRequest :=
  match v with
  | JObject o =>
      i ← field "id" o ≫= as_string;
      ri ← field "requesterId" o ≫= as_string;
      rt ← field "requesterTag" o ≫= as_string;
      ti ← field "targetId" o ≫= as_string;
      tt ← field "targetTag" o ≫= as_string;
      g ← field "ign" o ≫= as_string;
      st ← (field "status" o ≫= as_string) ≫= status_of_string;
      ca ← field "createdAt" o ≫= as_number;
      mi ← as_opt_string (field "messageId" o);
      rb ← as_opt_string (field "resolvedBy" o);
      ra ← as_opt_number (field "resolvedAt" o);
      Some (mkReq i ri rt ti tt g st ca mi rb ra)
  | _ => None
  end.

Definition pending_of_json (v : json) : option (list LinkRequest) :=
  match v with
  | JArray a => mapM req_of_json a
  | _ => None
  end.

Definition entry_of_json (v : json) : option AccountEntry :=
  match v with
  | JObject o =>
      u ← field "username" o ≫= as_string;
      i ← field "id" o ≫= as_string;
      l ← field "igns" o ≫= (fun a => match a with
                                       | JArray a => mapM as_string a
                                       | _ => None
                                       end);
      Some (mkEntry u i l)
  | _ => None
  end.

Definition accounts_of_json (v : json) : option (gmap string AccountEntry) :=
  match v with
  | JObject o =>
      list_to_map <$> mapM (fun kv : string * json =>
                              e ← entry_of_json (snd kv); Some (fst kv, e)) o
  | _ => None
  end.

(** The process is started anew: lines 66-67 load the two collections
    from the files the old process left behind; files and platform are
    as they were.  [None] when a file holds something other than a
    collection of well-formed records, which the typed store does not
    represent. *)
Definition boot (s : State) : option State :=
  l ← pending_of_json (load_pending (PENDING_FILE s));
  m ← accounts_of_json (load_accounts (ACCOUNTS_FILE s));
  Some (mkState l m (PENDING_FILE s) (ACCOUNTS_FILE s) (fs_writable s)
                (channels s) (snowflake s)).

(** Alice's request is in memory and in [pending.json], which can no
    longer be written. *)
Definition unwritable : State :=
  let req := newRequest (Sample.link Sample.alice "Notch" None)
                        (mkReadings 17 5 17) "Notch" in
  mkState [req] ∅ (Holds (pending_to_json [req])) Absent false
          {["900" := Sample.adminLogs]} 1000.


(** * Properties *)

(** ** Sanity checks of the string primitives *)

Example toString_ex : JS.toString 1700000000123 = "1700000000123".
Proof. reflexivity. Qed.
Example split_ex : JS.split "_" "link_accept_17-5" = ["link"; "accept"; "17-5"].
Proof. reflexivity. Qed.
Example split_ex2 : JS.split "_" "link_accept_a_b_" = ["link"; "accept"; "a"; "b"; ""].
Proof. reflexivity. Qed.
Example trim_ex : JS.trim "  No tch  " = "No tch".
Proof. reflexivity. Qed.
Example trim_ex2 : JS.trim "   " = "".
Proof. reflexivity. Qed.

(** ** Sanity checks of the handlers *)

(** Alice's request: stored, rendered, written to [pending.json]. *)
Example submitted_ex :
  map (fun r => (id r, targetId r, ign r, status r, messageId r))
      (pending Sample.submitted)
  = [("17-5", "1", "Notch", Pending, Some "1000")] /\
  PENDING_FILE Sample.submitted
  = Holds (pending_to_json (pending Sample.submitted)) /\
  snd (handleCommand Sample.cfg Sample.fresh
         (Sample.link Sample.alice "Notch" None) (mkReadings 17 5 17))
  = Submitted.
Proof. repeat split; reflexivity. Qed.

(** Without an admin channel the request is stored all the same. *)
Example submitted_unconfigured_ex :
  let res := handleCommand Sample.cfg_no_channel Sample.fresh
               (Sample.link Sample.alice "Notch" None) (mkReadings 17 5 17) in
  snd res = AdminLogsNotConfigured /\
  map (fun r => (id r, status r, messageId r)) (pending (fst res))
  = [("17-5", Pending, None)].
Proof. split; reflexivity. Qed.

(** The approval: the account entry, the request, the edited message. *)
Example approved_ex :
  accounts Sample.approved !! "1" = Some (mkEntry "alice#0001" "1" ["Notch"]) /\
  map (fun r => (status r, resolvedBy r, resolvedAt r)) (pending Sample.approved)
  = [(Approved, Some "2", Some 20)] /\
  (messages <$> channels Sample.approved !! "900")
  = Some [mkMessage "1000"
            [embedFor
               (mkReq "17-5" "1" "alice#0001" "1" "alice#0001" "Notch" Approved 17
                      (Some "1000") (Some "2") (Some 20)) Approved]
            [buttonRow "17-5" true]].
Proof. repeat split; reflexivity. Qed.

(** A rejection leaves the account collection alone. *)
Example rejected_ex :
  let res := handleButton Sample.cfg Sample.submitted
               (Sample.click "link_reject_17-5" Sample.bob Sample.moderator) 20 in
  snd res = RejectedReply "alice#0001" /\
  accounts (fst res) = accounts Sample.submitted /\
  map status (pending (fst res)) = [Rejected].
Proof. repeat split; reflexivity. Qed.

(** Roles when roles are configured, permission bits otherwise. *)
Example hasAdmin_ex :
  hasAdmin Sample.cfg (Some Sample.moderator) = true /\
  hasAdmin Sample.cfg (Some Sample.visitor) = false /\
  hasAdmin Sample.cfg (Some (mkMember (Some ["5"]) (Some 8))) = false /\
  hasAdmin Sample.cfg_no_roles (Some (mkMember (Some ["5"]) (Some 8))) = true /\
  hasAdmin Sample.cfg_no_roles (Some (mkMember None (Some 32))) = true /\
  hasAdmin Sample.cfg_no_roles (Some Sample.visitor) = false /\
  hasAdmin Sample.cfg_no_roles None = false.
Proof. repeat split; reflexivity. Qed.

(** ** Numerals, separators and the button tag *)

Lemma allChars_app p s t :
  allChars p (s +:+ t) = (allChars p s && allChars p t)%bool.
Proof.
  induction s as [|c s IH]; simpl; [reflexivity|].
  rewrite IH. apply andb_assoc.
Qed.

Lemma allChars_impl (p q : ascii -> bool) s :
  (forall c, p c = true -> q c = true) ->
  allChars p s = true -> allChars q s = true.
Proof.
  intros Hpq. induction s as [|c s IH]; simpl; [reflexivity|].
  intros [Hc Hs]%andb_true_iff. rewrite (Hpq _ Hc), (IH Hs). reflexivity.
Qed.

Lemma string_of_uint_digits d :
  allChars isDigit (NilEmpty.string_of_uint d) = true.
Proof. induction d; simpl; auto. Qed.

Lemma toString_digits n : 0 <= n -> allChars isDigit (JS.toString n) = true.
Proof.
  intros Hn. unfold JS.toString. destruct n as [|p|p]; [reflexivity| |lia].
  simpl. unfold NilZero.string_of_uint.
  destruct (Pos.to_uint p) eqn:E; try (rewrite <- E; apply string_of_uint_digits).
  reflexivity.
Qed.

Lemma numeralValue_toString n : numeralValue (JS.toString n) = Some n.
Proof.
  unfold numeralValue, JS.toString.
  rewrite NilZero.isi.
  - simpl. f_equal. apply DecimalZ.of_to.
  - destruct n; simpl; try discriminate.
    intros [= E]. exact (DecimalPos.Unsigned.to_uint_nonnil _ E).
  - destruct n; simpl; try discriminate.
    intros [= E]. exact (DecimalPos.Unsigned.to_uint_nonnil _ E).
Qed.

Lemma toString_inj a b : JS.toString a = JS.toString b -> a = b.
Proof.
  intros E. apply (f_equal numeralValue) in E.
  rewrite !numeralValue_toString in E. congruence.
Qed.

(** Two digit strings followed by a hyphen and a rest agree piecewise. *)
Lemma hyphen_split_inj s1 s2 t1 t2 :
  allChars isDigit s1 = true -> allChars isDigit s2 = true ->
  s1 +:+ String "-" t1 = s2 +:+ String "-" t2 -> s1 = s2 /\ t1 = t2.
Proof.
  revert s2. induction s1 as [|c s1 IH]; intros [|c2 s2]; simpl.
  - intros _ _ [= ->]. split; reflexivity.
  - intros _ [Hc _]%andb_true_iff [= <- _]. discriminate Hc.
  - intros [Hc _]%andb_true_iff _ [= -> _]. discriminate Hc.
  - intros [_ H1]%andb_true_iff [_ H2]%andb_true_iff [= -> E].
    destruct (IH _ H1 H2 E) as [-> ->]. split; reflexivity.
Qed.

Lemma isDigit_notUnderscore c : isDigit c = true -> notUnderscore c = true.
Proof.
  unfold isDigit, notUnderscore. intros [H1 H2]%andb_true_iff.
  destruct (Ascii.eqb_spec c "_") as [->|]; [discriminate H2|reflexivity].
Qed.

(** A string without the separator is a single segment. *)
Lemma split_none s :
  allChars notUnderscore s = true -> JS.split "_" s = [s].
Proof.
  induction s as [|c s IH]; simpl; [reflexivity|].
  intros [Hc Hs]%andb_true_iff. unfold notUnderscore in Hc.
  destruct (Ascii.eqb c "_"); [discriminate Hc|].
  rewrite (IH Hs). reflexivity.
Qed.

Lemma reqId_no_underscore now rnd :
  0 <= now -> 0 <= rnd -> allChars notUnderscore (reqId now rnd) = true.
Proof.
  intros H1 H2. unfold reqId. rewrite !allChars_app. simpl.
  rewrite (allChars_impl _ _ _ isDigit_notUnderscore (toString_digits _ H1)).
  rewrite (allChars_impl _ _ _ isDigit_notUnderscore (toString_digits _ H2)).
  reflexivity.
Qed.

Lemma reqId_inj t r t' r' :
  0 <= t -> 0 <= t' -> reqId t r = reqId t' r' -> t = t' /\ r = r'.
Proof.
  intros Ht Ht' E. unfold reqId in E. simpl in E.
  destruct (hyphen_split_inj _ _ _ _ (toString_digits _ Ht)
              (toString_digits _ Ht') E) as [E1 E2].
  split; apply toString_inj; assumption.
Qed.

Lemma parse_accept x :
  allChars notUnderscore x = true ->
  parseCustomId ("link_accept_" +:+ x) = (Some "accept", Some x).
Proof.
  intros H. unfold parseCustomId. simpl.
  change ("" +:+ x) with x. rewrite (split_none _ H). reflexivity.
Qed.

Lemma parse_reject x :
  allChars notUnderscore x = true ->
  parseCustomId ("link_reject_" +:+ x) = (Some "reject", Some x).
Proof.
  intros H. unfold parseCustomId. simpl.
  change ("" +:+ x) with x. rewrite (split_none _ H). reflexivity.
Qed.


Lemma toString_no_underscore n : allChars notUnderscore (JS.toString n) = true.
Proof.
  assert (D : forall d, allChars notUnderscore (NilZero.string_of_uint d) = true).
  { intros d. apply (allChars_impl isDigit); [apply isDigit_notUnderscore|].
    destruct d; try reflexivity; apply string_of_uint_digits. }
  unfold JS.toString. destruct n; simpl; try apply D. reflexivity.
Qed.

Lemma reqId_underscore_free now rnd : allChars notUnderscore (reqId now rnd) = true.
Proof.
  unfold reqId. rewrite !allChars_app, !toString_no_underscore. reflexivity.
Qed.

(** ** [find] and in-place updates of the request array *)

Lemma findIndex_Some {A} (p : A -> bool) (l : list A) (i : nat) :
  JS.findIndex p l = Some i <->
  (exists x, l !! i = Some x /\ p x = true) /\
  (forall j y, (j < i)%nat -> l !! j = Some y -> p y = false).
Proof.
  revert i. induction l as [|x l IH]; intros i; simpl.
  - split; [discriminate|]. intros [(y & Hy & _) _]. discriminate Hy.
  - destruct (p x) eqn:Px.
    + split.
      * intros [= <-]. split; [exists x; auto|]. intros j y Hj. lia.
      * intros [(y & Hy & Py) Hlt]. destruct i as [|i]; [reflexivity|].
        specialize (Hlt 0%nat x ltac:(lia) eq_refl). congruence.
    + split.
      * intros H. destruct (JS.findIndex p l) as [k|]; [|discriminate H].
        injection H as <-. destruct (proj1 (IH k) eq_refl) as [Hk Hlt].
        split; [exact Hk|].
        intros [|j] y Hj Hy; simpl in Hy; [congruence|].
        apply (Hlt j); [lia|exact Hy].
      * intros [(y & Hy & Py) Hlt]. destruct i as [|i]; simpl in Hy; [congruence|].
        rewrite (proj2 (IH i)); [reflexivity|].
        split; [exists y; auto|].
        intros j z Hj Hz. apply (Hlt (S j)); [lia|exact Hz].
Qed.

Lemma findIndex_None {A} (p : A -> bool) (l : list A) :
  JS.findIndex p l = None <-> forall i x, l !! i = Some x -> p x = false.
Proof.
  induction l as [|x l IH]; simpl.
  - split; [intros _ i y Hy; discriminate Hy|reflexivity].
  - destruct (p x) eqn:Px.
    + split; [discriminate|]. intros H. specialize (H 0%nat x eq_refl). congruence.
    + split.
      * intros H [|i] y Hy; simpl in Hy; [congruence|].
        destruct (JS.findIndex p l); [discriminate H|].
        apply (proj1 IH eq_refl i). exact Hy.
      * intros H. rewrite (proj2 IH); [reflexivity|].
        intros i y Hy. apply (H (S i)). exact Hy.
Qed.

Lemma findRequest_Some l rid i r :
  findRequest l rid = Some (i, r) <->
  l !! i = Some r /\ id_is rid r = true /\
  (forall j y, (j < i)%nat -> l !! j = Some y -> id_is rid y = false).
Proof.
  unfold findRequest. split.
  - destruct (JS.findIndex (id_is rid) l) as [k|] eqn:E; [|discriminate].
    apply findIndex_Some in E as [(x & Hx & Px) Hlt].
    rewrite Hx. simpl. intros [= <- <-]. auto.
  - intros (Hi & Pr & Hlt).
    assert (JS.findIndex (id_is rid) l = Some i) as ->.
    { apply findIndex_Some. split; [exists r; auto|exact Hlt]. }
    rewrite Hi. reflexivity.
Qed.

Lemma findRequest_None l rid :
  findRequest l rid = None <-> forall i x, l !! i = Some x -> id_is rid x = false.
Proof.
  unfold findRequest. split.
  - destruct (JS.findIndex (id_is rid) l) as [k|] eqn:E.
    + apply findIndex_Some in E as [(x & Hx & Px) _]. rewrite Hx. discriminate.
    + intros _. apply findIndex_None. exact E.
  - intros H. apply findIndex_None in H. rewrite H. reflexivity.
Qed.

Lemma id_is_Some x r : id_is (Some x) r = true <-> id r = x.
Proof. simpl. apply String.eqb_eq. Qed.

(** With pairwise distinct ids the lookup by id returns the very
    request stored under that id. *)
Lemma findRequest_unique l i r :
  NoDup (map id l) -> l !! i = Some r -> findRequest l (Some (id r)) = Some (i, r).
Proof.
  intros ND Hi. apply findRequest_Some. split; [exact Hi|]. split.
  - apply id_is_Some. reflexivity.
  - intros j y Hj Hy. destruct (id_is (Some (id r)) y) eqn:E; [|reflexivity].
    apply id_is_Some in E. exfalso.
    assert (j = i); [|lia].
    eapply NoDup_lookup; [exact ND| |].
    + rewrite list_lookup_fmap, Hy. reflexivity.
    + rewrite list_lookup_fmap, Hi. simpl. congruence.
Qed.

(** ** What the helpers leave alone *)

Lemma writeJson_pending_proj s :
  pending (writeJson_pending s) = pending s /\
  accounts (writeJson_pending s) = accounts s /\
  ACCOUNTS_FILE (writeJson_pending s) = ACCOUNTS_FILE s /\
  fs_writable (writeJson_pending s) = fs_writable s /\
  channels (writeJson_pending s) = channels s /\
  snowflake (writeJson_pending s) = snowflake s.
Proof. unfold writeJson_pending. destruct (fs_writable s) eqn:E; simpl; auto 10. Qed.

Lemma writeJson_accounts_proj s :
  pending (writeJson_accounts s) = pending s /\
  accounts (writeJson_accounts s) = accounts s /\
  PENDING_FILE (writeJson_accounts s) = PENDING_FILE s /\
  fs_writable (writeJson_accounts s) = fs_writable s /\
  channels (writeJson_accounts s) = channels s /\
  snowflake (writeJson_accounts s) = snowflake s.
Proof. unfold writeJson_accounts. destruct (fs_writable s) eqn:E; simpl; auto 10. Qed.

Lemma writeJson_pending_file s :
  fs_writable s = true ->
  PENDING_FILE (writeJson_pending s) = Holds (pending_to_json (pending s)).
Proof. unfold writeJson_pending. intros ->. reflexivity. Qed.

Lemma writeJson_pending_synced s :
  fs_writable s = true ->
  PENDING_FILE (writeJson_pending s)
  = Holds (pending_to_json (pending (writeJson_pending s))).
Proof. unfold writeJson_pending. intros ->. reflexivity. Qed.

Lemma writeJson_accounts_file s :
  fs_writable s = true ->
  ACCOUNTS_FILE (writeJson_accounts s) = Holds (accounts_to_json (accounts s)).
Proof. unfold writeJson_accounts. intros ->. reflexivity. Qed.

Lemma send_Some s cid embeds comps s' mid :
  send s cid embeds comps = Some (s', mid) ->
  exists ch, channels s !! cid = Some ch /\ canSend ch = true /\
    mid = JS.toString (snowflake s) /\
    s' = with_platform s
           (<[cid := with_messages ch
                       (messages ch ++ [mkMessage mid embeds comps])]> (channels s))
           (snowflake s + 1).
Proof.
  unfold send. destruct (channels s !! cid) as [ch|]; [|discriminate].
  destruct (canSend ch) eqn:E; [|discriminate].
  simpl. intros [= <- <-]. exists ch. auto.
Qed.

Lemma send_ok s cid ch embeds comps :
  channels s !! cid = Some ch -> canSend ch = true ->
  send s cid embeds comps =
    Some (with_platform s
            (<[cid := with_messages ch
                        (messages ch ++
                           [mkMessage (JS.toString (snowflake s)) embeds comps])]>
               (channels s))
            (snowflake s + 1),
          JS.toString (snowflake s)).
Proof. unfold send. intros -> ->. reflexivity. Qed.

Lemma updateAdminMessage_proj cfg s req st :
  pending (updateAdminMessage cfg s req st) = pending s /\
  accounts (updateAdminMessage cfg s req st) = accounts s /\
  PENDING_FILE (updateAdminMessage cfg s req st) = PENDING_FILE s /\
  ACCOUNTS_FILE (updateAdminMessage cfg s req st) = ACCOUNTS_FILE s /\
  fs_writable (updateAdminMessage cfg s req st) = fs_writable s /\
  snowflake (updateAdminMessage cfg s req st) = snowflake s.
Proof.
  unfold updateAdminMessage.
  destruct (ADMIN_CHANNEL_ID cfg) as [cid|]; [|auto 10].
  destruct (channels s !! cid) as [ch|]; [|auto 10].
  destruct (isTextBased ch); [|auto 10].
  destruct (messageId req) as [mid|]; [|auto 10].
  cbv zeta. destruct (createEmbedForReq req st) as [e|]; [|auto 10].
  destruct (fetchMessage ch mid) as [[i m]|]; simpl; auto 10.
Qed.

(** ** The submit path *)

(** A [/link] command that carries an [ign] option always stores one new
    pending request, whatever happens to its message afterwards. *)
Lemma handleCommand_link cfg s c e raw :
  commandName c = "link" -> opt_ign c = Some raw ->
  let s' := fst (handleCommand cfg s c e) in
  (exists m, pending s' =
             pending s ++ [with_messageId (newRequest c e (JS.trim raw)) m]) /\
  accounts s' = accounts s /\ ACCOUNTS_FILE s' = ACCOUNTS_FILE s /\
  fs_writable s' = fs_writable s /\
  (fs_writable s = true -> PENDING_FILE s' = Holds (pending_to_json (pending s'))).
Proof.
  intros Hname Hign. unfold handleCommand. rewrite Hname, Hign. simpl.
  set (req := newRequest c e (JS.trim raw)).
  set (s1 := writeJson_pending (with_pending s (pending s ++ [req]))).
  destruct (writeJson_pending_proj (with_pending s (pending s ++ [req])))
    as (P1 & A1 & F1 & W1 & C1 & N1). fold s1 in P1, A1, F1, W1, C1, N1.
  simpl in P1, A1, F1, W1, C1, N1.
  assert (Base : (exists m, pending s1 = pending s ++ [with_messageId req m]) /\
     accounts s1 = accounts s /\ ACCOUNTS_FILE s1 = ACCOUNTS_FILE s /\
     fs_writable s1 = fs_writable s /\
     (fs_writable s = true -> PENDING_FILE s1 = Holds (pending_to_json (pending s1)))).
  { split; [exists None; exact P1|]. repeat split; auto.
    intros W. rewrite P1. unfold s1.
    rewrite writeJson_pending_file by exact W. reflexivity. }
  destruct (ADMIN_CHANNEL_ID cfg) as [cid|]; [|exact Base].
  destruct (JS.truthy cid); simpl; [|exact Base].
  destruct (channels s1 !! cid) as [ch|] eqn:Ech; [|exact Base].
  destruct (isTextBased ch); simpl; [|exact Base].
  destruct (createEmbedForReq req Pending) as [embed|]; [|exact Base].
  destruct (send s1 cid _ _) as [[s2 mid]|] eqn:Es; [|exact Base].
  apply send_Some in Es as (ch' & _ & _ & _ & ->). simpl.
  set (s3 := with_pending _ _).
  destruct (writeJson_pending_proj s3) as (P3 & A3 & F3 & W3 & _ & _).
  assert (P : pending s3 = pending s ++ [with_messageId req (Some mid)]).
  { unfold s3. simpl. rewrite P1.
    rewrite insert_app_r_alt by lia. rewrite Nat.sub_diag. reflexivity. }
  split; [exists (Some mid); rewrite P3; exact P|].
  rewrite A3, F3, W3. unfold s3 at 1 2 3. simpl. repeat split; auto.
  intros W. rewrite writeJson_pending_file, P3; [reflexivity|].
  unfold s3. simpl. congruence.
Qed.

Lemma trimStart_blank s : allChars JS.isWhiteSpace s = true -> JS.trimStart s = "".
Proof.
  induction s as [|c s IH]; simpl; [reflexivity|].
  intros [Hc Hs]%andb_true_iff. rewrite Hc. apply IH, Hs.
Qed.

Lemma trim_blank s : allChars JS.isWhiteSpace s = true -> JS.trim s = "".
Proof. intros H. unfold JS.trim. rewrite (trimStart_blank _ H). reflexivity. Qed.

Lemma handleCommand_other cfg s c e :
  commandName c <> "link" -> handleCommand cfg s c e = (s, Ignored).
Proof.
  intros H. unfold handleCommand.
  destruct (String.eqb_spec (commandName c) "link"); [contradiction|reflexivity].
Qed.

Lemma isLinkButton_accept x : isLinkButton ("link_accept_" +:+ x) = true.
Proof. destruct x; reflexivity. Qed.

Lemma isLinkButton_reject x : isLinkButton ("link_reject_" +:+ x) = true.
Proof. destruct x; reflexivity. Qed.

(** ** C10: the button tag *)

(** C10, as the code has it.  The tag of a button round-trips: for a
    request whose id was made by the submit path (a numeral, a hyphen, a
    numeral), splitting [link_accept_<id>] or [link_reject_<id>] on
    underscores gives back the action and the id.  A click on either
    button of the request's action row is accepted as a link button,
    carries the decision of that button, and makes the handler's lookup
    return the first stored request with that id; when the ids in the
    store are pairwise distinct, that is the very request the button was
    rendered for. *)
Theorem button_tag_round_trip (now rnd : Z) (s : State) (slot : nat) (r : LinkRequest) :
  id r = reqId now rnd ->
  pending s !! slot = Some r ->
  parseCustomId ("link_accept_" +:+ id r) = (Some "accept", Some (id r)) /\
  parseCustomId ("link_reject_" +:+ id r) = (Some "reject", Some (id r)) /\
  forall (disabled : bool) (u : User) (m gm : option Member),
    map btn_customId (buttonRow (id r) disabled)
      = ["link_accept_" +:+ id r; "link_reject_" +:+ id r] /\
    (forall b,
       b = mkClick ("link_accept_" +:+ id r) u m gm \/
       b = mkClick ("link_reject_" +:+ id r) u m gm ->
       isLinkButton (customId b) = true /\
       (decision b = Approved <-> customId b = "link_accept_" +:+ id r) /\
       (exists first r1,
          clickedRequest s b = Some (first, r1) /\ id r1 = id r /\
          (first <= slot)%nat /\
          (forall j y, (j < first)%nat -> pending s !! j = Some y -> id y <> id r)) /\
       (NoDup (map id (pending s)) -> clickedRequest s b = Some (slot, r))).
Proof.
  intros Hid Hslot.
  assert (U : allChars notUnderscore (id r) = true)
    by (rewrite Hid; apply reqId_underscore_free).
  pose proof (parse_accept _ U) as PA. pose proof (parse_reject _ U) as PR.
  split; [exact PA|]. split; [exact PR|].
  intros disabled u m gm. split; [reflexivity|].
  assert (First : exists first r1,
            findRequest (pending s) (Some (id r)) = Some (first, r1) /\ id r1 = id r /\
            (first <= slot)%nat /\
            (forall j y, (j < first)%nat -> pending s !! j = Some y -> id y <> id r)).
  { destruct (findRequest (pending s) (Some (id r))) as [[first r1]|] eqn:E.
    - exists first, r1. apply findRequest_Some in E as (H1 & H2 & H3).
      split; [reflexivity|]. split; [apply id_is_Some; exact H2|]. split.
      + destruct (le_lt_dec first slot) as [Hle|Hlt]; [exact Hle|].
        specialize (H3 slot r Hlt Hslot). simpl in H3.
        rewrite String.eqb_refl in H3. discriminate H3.
      + intros j y Hj Hy C. specialize (H3 j y Hj Hy).
        apply id_is_Some in C. congruence.
    - exfalso. pose proof (proj1 (findRequest_None _ _) E slot r Hslot) as C.
      simpl in C. rewrite String.eqb_refl in C. discriminate C. }
  intros b [ -> | -> ]; unfold clickedRequest, decision; simpl customId.
  - rewrite PA, isLinkButton_accept. simpl fst. simpl snd.
    split; [reflexivity|]. split; [split; reflexivity|].
    split; [exact First|]. intros ND. apply (findRequest_unique _ _ _ ND Hslot).
  - rewrite PR, isLinkButton_reject. simpl fst. simpl snd.
    split; [reflexivity|]. split; [split; [discriminate|intros C; discriminate C]|].
    split; [exact First|]. intros ND. apply (findRequest_unique _ _ _ ND Hslot).
Qed.

Lemma button_tag_round_trip_witness :
  parseCustomId "link_accept_17-5" = (Some "accept", Some "17-5") /\
  parseCustomId "link_reject_17-5" = (Some "reject", Some "17-5") /\
  clickedRequest Sample.submitted
    (Sample.click "link_reject_17-5" Sample.bob Sample.moderator)
  = Some (0%nat, mkReq "17-5" "1" "alice#0001" "1" "alice#0001" "Notch" Pending 17
                       (Some "1000") None None).
Proof.
  pose proof (button_tag_round_trip 17 5 Sample.submitted 0
    (mkReq "17-5" "1" "alice#0001" "1" "alice#0001" "Notch" Pending 17
           (Some "1000") None None)
    eq_refl eq_refl) as (A & B & H).
  split; [exact A|]. split; [exact B|].
  destruct (H false Sample.bob (Some Sample.moderator) None) as (_ & C).
  destruct (C (Sample.click "link_reject_17-5" Sample.bob Sample.moderator)
              (or_intror eq_refl)) as (_ & _ & _ & D).
  apply D. apply NoDup_singleton.
Defined.

(** C10, as stated, fails in its last clause: Alice's and Bob's requests
    share the id 17-5; the message rendered for Bob's request (1001)
    carries the button [link_accept_17-5]; a click on it makes the
    lookup return Alice's request, which is approved, while Bob's
    request stays pending. *)
Lemma colliding_ids_reach_first_request :
  map (fun r => (requesterId r, id r, messageId r)) (pending Sample.same_draw)
  = [("1", "17-5", Some "1000"); ("2", "17-5", Some "1001")] /\
  (exists ch m,
     channels Sample.same_draw !! "900" = Some ch /\
     messages ch !! 1%nat = Some m /\ msg_id m = "1001" /\
     map btn_customId (concat (msg_components m))
     = ["link_accept_17-5"; "link_reject_17-5"]) /\
  option_map fst (clickedRequest Sample.same_draw
    (Sample.click "link_accept_17-5" Sample.carol Sample.moderator)) = Some 0%nat /\
  map (fun r => (requesterId r, status r))
      (pending (fst (handleButton Sample.cfg Sample.same_draw
         (Sample.click "link_accept_17-5" Sample.carol Sample.moderator) 30)))
  = [("1", Approved); ("2", Pending)].
Proof.
  split; [reflexivity|]. split; [|split; reflexivity].
  eexists _, _. split; [reflexivity|]. split; [reflexivity|]. split; reflexivity.
Qed.

(** ** The button path, case by case *)

Lemma handleButton_run cfg s b now :
  ButtonRun cfg s b now (fst (handleButton cfg s b now)) (snd (handleButton cfg s b now)).
Proof.
  unfold handleButton.
  assert (L : (negb (JS.startsWith (customId b) "link_accept_")
               && negb (JS.startsWith (customId b) "link_reject_"))%bool
              = negb (isLinkButton (customId b))).
  { unfold isLinkButton. rewrite negb_orb. reflexivity. }
  rewrite L. clear L.
  destruct (parseCustomId (customId b)) as [action rid] eqn:EP.
  destruct (isLinkButton (customId b)) eqn:LB; cbn [negb fst snd];
    [|apply Run_ignored; exact LB].
  destruct (findRequest (pending s) rid) as [[slot r]|] eqn:EF.
  2:{ apply Run_not_found; [exact LB|]. unfold clickedRequest. rewrite EP. exact EF. }
  assert (CR : clickedRequest s b = Some (slot, r))
    by (unfold clickedRequest; rewrite EP; exact EF).
  destruct (bool_decide (status r = Pending)) eqn:ES; cbn [negb fst snd].
  2:{ apply bool_decide_eq_false in ES. eapply Run_already_resolved; eauto. }
  apply bool_decide_eq_true in ES.
  destruct (hasAdmin cfg (resolverMember b)) eqn:EA; cbn [negb fst snd].
  2:{ eapply Run_unauthorized; eauto. }
  assert (ED : decision b = if isAccept action then Approved else Rejected)
    by (unfold decision; rewrite EP; reflexivity).
  destruct (isAccept action); cbn [fst snd].
  - set (s1 := writeJson_accounts _).
    set (r' := with_resolution r Approved _ _).
    set (s2 := writeJson_pending _).
    destruct (writeJson_accounts_proj (with_accounts s (upsertAccount (accounts s) r)))
      as (P1 & A1 & F1 & W1 & C1 & N1). fold s1 in P1, A1, F1, W1, C1, N1.
    simpl in P1, A1, F1, W1, C1, N1.
    destruct (writeJson_pending_proj (with_pending s1 (<[slot := r']> (pending s1))))
      as (P2 & A2 & F2 & W2 & C2 & N2). fold s2 in P2, A2, F2, W2, C2, N2.
    simpl in P2, A2, F2, W2, C2, N2.
    destruct (updateAdminMessage_proj cfg s2 r' Approved)
      as (P3 & A3 & F3 & G3 & W3 & N3).
    replace (ApprovedReply (targetTag r') (ign r'))
      with (decisionReply (decision b) r) by (rewrite ED; reflexivity).
    eapply Run_resolved; [exact LB|exact CR|exact ES|exact EA|..].
    + rewrite P3, P2, P1, ED. reflexivity.
    + rewrite A3, A2, A1, ED. reflexivity.
    + congruence.
    + congruence.
    + intros W. rewrite F3, G3, P3, A3, ED. simpl. split.
      * rewrite P2. unfold s2. rewrite writeJson_pending_file; [reflexivity|].
        simpl. congruence.
      * rewrite F2, A2, A1. unfold s1.
        rewrite writeJson_accounts_file; [reflexivity|exact W].
  - set (r' := with_resolution r Rejected _ _).
    set (s1 := writeJson_pending _).
    destruct (writeJson_pending_proj (with_pending s (<[slot := r']> (pending s))))
      as (P1 & A1 & F1 & W1 & C1 & N1). fold s1 in P1, A1, F1, W1, C1, N1.
    simpl in P1, A1, F1, W1, C1, N1.
    destruct (updateAdminMessage_proj cfg s1 r' Rejected)
      as (P3 & A3 & F3 & G3 & W3 & N3).
    replace (RejectedReply (targetTag r'))
      with (decisionReply (decision b) r) by (rewrite ED; reflexivity).
    eapply Run_resolved; [exact LB|exact CR|exact ES|exact EA|..].
    + rewrite P3, P1, ED. reflexivity.
    + rewrite A3, A1, ED. reflexivity.
    + congruence.
    + congruence.
    + intros W. rewrite F3, G3, P3, ED. simpl. split.
      * rewrite P1. unfold s1. rewrite writeJson_pending_file; [reflexivity|exact W].
      * exact F1.
Qed.

(** ** Authorization *)

Lemma includes_In x l : JS.includes x l = true <-> In x l.
Proof.
  unfold JS.includes. rewrite existsb_exists. split.
  - intros (y & Hy & E). apply String.eqb_eq in E. subst. exact Hy.
  - intros H. exists x. split; [exact H|apply String.eqb_refl].
Qed.

Lemma includes_false x l : JS.includes x l = false <-> ~ In x l.
Proof.
  rewrite <- includes_In. destruct (JS.includes x l); split; intros H;
    congruence || (exfalso; apply H; reflexivity) || discriminate.
Qed.

Lemma land_flag bits n :
  0 <= n -> Z.eqb (Z.land bits (Z.shiftl 1 n)) (Z.shiftl 1 n) = Z.testbit bits n.
Proof.
  intros Hn. rewrite Z.shiftl_1_l.
  destruct (Z.testbit bits n) eqn:E.
  - apply Z.eqb_eq. apply Z.bits_inj'. intros m Hm.
    rewrite Z.land_spec, Z.pow2_bits_eqb by lia.
    destruct (Z.eqb_spec n m) as [->|]; [rewrite E; reflexivity|apply andb_false_r].
  - apply Z.eqb_neq. intros C. apply (f_equal (fun z => Z.testbit z n)) in C.
    rewrite Z.land_spec, Z.pow2_bits_eqb, E, Z.eqb_refl in C by lia. discriminate C.
Qed.

Lemma has_spec bits :
  (has bits Administrator || has bits ManageGuild)%bool
  = (Z.testbit bits 3 || Z.testbit bits 5)%bool.
Proof.
  unfold has, Administrator, ManageGuild.
  rewrite !land_flag by lia.
  destruct (Z.testbit bits 3), (Z.testbit bits 5); reflexivity.
Qed.

Lemma hasAdmin_false cfg m : lacksAdminRights cfg m <-> hasAdmin cfg m = false.
Proof.
  unfold lacksAdminRights, hasAdmin.
  destruct (ADMIN_ROLE_IDS cfg) as [|a ids] eqn:Eids; cbn [length Nat.ltb Nat.leb].
  - split.
    + intros [_ H]. destruct m as [mb|]; [|reflexivity].
      destruct (permissions mb) as [bits|] eqn:Ep; [|reflexivity].
      rewrite has_spec. destruct (H eq_refl mb bits eq_refl Ep) as [-> ->]. reflexivity.
    + intros H. split; [intros C; contradiction|].
      intros _ mb bits -> Ep. rewrite Ep, has_spec in H.
      apply orb_false_iff in H. exact H.
  - split.
    + intros [H _]. destruct m as [mb|]; [|reflexivity].
      destruct (roles_cache mb) as [roles|] eqn:Er; [|reflexivity].
      apply not_true_is_false. intros C. apply existsb_exists in C as (r & Hr & Hin).
      apply (H ltac:(discriminate) mb roles eq_refl Er r Hr).
      apply includes_In. exact Hin.
    + intros H. split; [|intros C; discriminate C].
      intros _ mb roles -> Er r Hr Hin. rewrite Er in H.
      assert (existsb (fun r0 => JS.includes r0 (a :: ids)) roles = true) as C;
        [|congruence].
      apply existsb_exists. exists r. split; [exact Hr|].
      apply includes_In. exact Hin.
Qed.

(** ** C6: a resolver without rights is refused *)

(** C6.  A click on a link button of a pending request by a resolver who
    has none of the configured admin roles (when roles are configured)
    or neither the Administrator nor the ManageGuild permission (when
    none is configured) is answered with the permission refusal and
    changes nothing: the state after the click is the state before it,
    so the request is still pending and the request collection, the
    account collection and both files are as they were. *)
Theorem unauthorized_click_refused (cfg : Config) (s : State) (b : ButtonClick)
    (now : Z) (slot : nat) (r : LinkRequest) :
  isLinkButton (customId b) = true ->
  clickedRequest s b = Some (slot, r) ->
  status r = Pending ->
  lacksAdminRights cfg (resolverMember b) ->
  handleButton cfg s b now = (s, Unauthorized) /\
  reply_content Unauthorized
    = Some "You do not have permission to approve or reject link requests." /\
  pending (fst (handleButton cfg s b now)) !! slot = Some r /\
  pending (fst (handleButton cfg s b now)) = pending s /\
  accounts (fst (handleButton cfg s b now)) = accounts s /\
  PENDING_FILE (fst (handleButton cfg s b now)) = PENDING_FILE s /\
  ACCOUNTS_FILE (fst (handleButton cfg s b now)) = ACCOUNTS_FILE s.
Proof.
  intros LB CR ES LA. apply hasAdmin_false in LA.
  assert (E : handleButton cfg s b now = (s, Unauthorized)).
  { pose proof (handleButton_run cfg s b now) as R.
    destruct (handleButton cfg s b now) as [s' o]. simpl in R.
    inversion R; subst; congruence. }
  rewrite E. simpl. repeat split; try reflexivity.
  unfold clickedRequest in CR. apply findRequest_Some in CR as (H & _). exact H.
Qed.

Lemma unauthorized_click_refused_witness :
  handleButton Sample.cfg Sample.submitted
    (Sample.click "link_accept_17-5" Sample.carol Sample.visitor) 21
  = (Sample.submitted, Unauthorized).
Proof.
  refine (proj1 (unauthorized_click_refused Sample.cfg Sample.submitted
    (Sample.click "link_accept_17-5" Sample.carol Sample.visitor) 21 0
    (mkReq "17-5" "1" "alice#0001" "1" "alice#0001" "Notch" Pending 17
           (Some "1000") None None) eq_refl eq_refl eq_refl _)).
  split.
  - intros _ mb roles [= <-] [= <-] r [<-|[]] [E|[]]. discriminate E.
  - intros E. discriminate E.
Defined.

(** ** What start-up leaves alone *)

Lemma restoreOne_frame cid s slot s' :
  restoreOne cid s slot = Some s' ->
  accounts s' = accounts s /\ ACCOUNTS_FILE s' = ACCOUNTS_FILE s /\
  fs_writable s' = fs_writable s /\
  (pending s' = pending s \/
   exists r m, pending s !! slot = Some r /\
               pending s' = <[slot := with_messageId r m]> (pending s)).
Proof.
  unfold restoreOne. destruct (pending s !! slot) as [req|] eqn:E.
  2:{ intros [= <-]. auto. }
  match goal with |- context [match ?x with Some _ => Some s | None => _ end] =>
    destruct x end.
  { intros [= <-]. auto. }
  destruct (createEmbedForReq req Pending) as [embed|]; [|discriminate].
  destruct (send s cid _ _) as [[s1 mid]|] eqn:Es; [|discriminate].
  apply send_Some in Es as (ch & _ & _ & _ & ->). intros [= <-].
  match goal with |- context [writeJson_pending ?x] =>
    destruct (writeJson_pending_proj x) as (P & A & F & W & _ & _) end.
  rewrite P, A, F, W. simpl. repeat split. right. exists req, (Some mid). auto.
Qed.

Lemma restoreAll_frame cid slots : forall s,
  let s' := restoreAll cid s slots in
  accounts s' = accounts s /\ ACCOUNTS_FILE s' = ACCOUNTS_FILE s /\
  fs_writable s' = fs_writable s /\
  length (pending s') = length (pending s) /\
  (forall k r, pending s !! k = Some r ->
     exists r', pending s' !! k = Some r' /\
       (r' = r \/ (In k slots /\ exists m, r' = with_messageId r m))).
Proof.
  induction slots as [|slot rest IH]; intros s; simpl.
  - repeat split. intros k r H. exists r. auto.
  - destruct (restoreOne cid s slot) as [s1|] eqn:E.
    2:{ repeat split. intros k r H. exists r. auto. }
    destruct (restoreOne_frame _ _ _ _ E) as (A1 & F1 & W1 & P1).
    destruct (IH s1) as (A2 & F2 & W2 & L2 & P2).
    split; [congruence|]. split; [congruence|]. split; [congruence|].
    destruct P1 as [P1|(r0 & m & H0 & P1)].
    + rewrite P1 in L2, P2. split; [exact L2|].
      intros k r H. destruct (P2 k r H) as (r' & H' & [->|(Hin & m & ->)]).
      * exists r. auto.
      * exists (with_messageId r m). split; [exact H'|]. right. split; [right; exact Hin|].
        exists m. reflexivity.
    + rewrite P1 in L2, P2. rewrite length_insert in L2. split; [exact L2|].
      intros k r H. destruct (decide (k = slot)) as [->|Hne].
      * assert (r0 = r) as -> by congruence.
        destruct (P2 slot (with_messageId r m)) as (r' & H' & Hr').
        { apply list_lookup_insert_eq. eapply lookup_lt_Some. exact H. }
        exists r'. split; [exact H'|]. right. split; [left; reflexivity|].
        destruct Hr' as [->|(_ & m' & ->)]; [exists m; reflexivity|].
        exists m'. reflexivity.
      * destruct (P2 k r) as (r' & H' & Hr').
        { rewrite list_lookup_insert_ne by congruence. exact H. }
        exists r'. split; [exact H'|].
        destruct Hr' as [->|(Hin & m' & ->)]; [left; reflexivity|].
        right. split; [right; exact Hin|]. exists m'. reflexivity.
Qed.

Lemma pendingSlots_In l : forall from k,
  In k (pendingSlots from l) ->
  exists r, l !! (k - from)%nat = Some r /\ status r = Pending /\ (from <= k)%nat.
Proof.
  induction l as [|p l IH]; intros from k; simpl; [intros []|].
  destruct (bool_decide (status p = Pending)) eqn:E.
  - intros [<-|Hin].
    + rewrite Nat.sub_diag. exists p. apply bool_decide_eq_true in E. auto.
    + destruct (IH _ _ Hin) as (r & Hr & Hs & Hle).
      exists r. replace (k - from)%nat with (S (k - S from)) by lia. auto with lia.
  - intros Hin. destruct (IH _ _ Hin) as (r & Hr & Hs & Hle).
    exists r. replace (k - from)%nat with (S (k - S from)) by lia. auto with lia.
Qed.

Lemma handleReady_frame cfg s :
  let s' := handleReady cfg s in
  accounts s' = accounts s /\ ACCOUNTS_FILE s' = ACCOUNTS_FILE s /\
  fs_writable s' = fs_writable s /\
  length (pending s') = length (pending s) /\
  (forall k r, pending s !! k = Some r ->
     exists r', pending s' !! k = Some r' /\
       (r' = r \/ (status r = Pending /\ exists m, r' = with_messageId r m))).
Proof.
  assert (Same : accounts s = accounts s /\ ACCOUNTS_FILE s = ACCOUNTS_FILE s /\
     fs_writable s = fs_writable s /\ length (pending s) = length (pending s) /\
     (forall k r, pending s !! k = Some r ->
        exists r', pending s !! k = Some r' /\
          (r' = r \/ (status r = Pending /\ exists m, r' = with_messageId r m)))).
  { repeat split. intros k r H. exists r. auto. }
  unfold handleReady. destruct (ADMIN_CHANNEL_ID cfg) as [cid|]; [|exact Same].
  destruct (JS.truthy cid); simpl; [|exact Same].
  destruct (channels s !! cid) as [ch|]; [|exact Same].
  destruct (isTextBased ch); simpl; [|exact Same].
  destruct (restoreAll_frame cid (pendingSlots 0 (pending s)) s) as (A & F & W & L & P).
  repeat split; try assumption.
  intros k r H. destruct (P k r H) as (r' & H' & [->|(Hin & m & ->)]).
  - exists r. auto.
  - exists (with_messageId r m). split; [exact H'|]. right.
    apply pendingSlots_In in Hin as (r0 & H0 & Hs & _).
    rewrite Nat.sub_0_r in H0. assert (r0 = r) as -> by congruence.
    split; [exact Hs|]. exists m. reflexivity.
Qed.

(** ** How a stored request can change *)

Lemma handleCommand_frame cfg s c e :
  let s' := fst (handleCommand cfg s c e) in
  accounts s' = accounts s /\ ACCOUNTS_FILE s' = ACCOUNTS_FILE s /\
  fs_writable s' = fs_writable s /\
  (pending s' = pending s \/ exists x, pending s' = pending s ++ [x]).
Proof.
  destruct (String.eqb_spec (commandName c) "link") as [Hn|Hn].
  - destruct (opt_ign c) as [raw|] eqn:Hi.
    + destruct (handleCommand_link cfg s c e raw Hn Hi) as ((m & P) & A & F & W & _).
      simpl. repeat split; try assumption. right. eexists. exact P.
    + unfold handleCommand. rewrite Hn, Hi. simpl. auto.
  - rewrite handleCommand_other by exact Hn. simpl. auto.
Qed.

Lemma with_resolution_id r st u t : id (with_resolution r st u t) = id r.
Proof. reflexivity. Qed.

Lemma with_messageId_id r m : id (with_messageId r m) = id r.
Proof. reflexivity. Qed.

(** Every step keeps each stored request in its slot with its id, and
    keeps a request that is no longer pending exactly as it is. *)
Lemma step_evolves cfg s ev k r :
  pending s !! k = Some r ->
  exists r', pending (step cfg s ev) !! k = Some r' /\ id r' = id r /\
             (status r <> Pending -> r' = r).
Proof.
  intros H. destruct ev as [|[c e|b now|]]; simpl.
  - destruct (handleReady_frame cfg s) as (_ & _ & _ & _ & P).
    destruct (P k r H) as (r' & H' & [->|(Hs & m & ->)]).
    + exists r. auto.
    + exists (with_messageId r m). split; [exact H'|]. split; [reflexivity|].
      intros C. contradiction.
  - destruct (handleCommand_frame cfg s c e) as (_ & _ & _ & [P|(x & P)]);
      simpl in P; rewrite P.
    + exists r. auto.
    + exists r. split; [|auto]. apply lookup_app_l_Some. exact H.
  - pose proof (handleButton_run cfg s b now) as R.
    destruct (handleButton cfg s b now) as [s' o]. simpl in *.
    inversion R; subst; try (exists r; auto; fail).
    match goal with P : pending s' = _ |- _ => rewrite P end.
    match goal with C : clickedRequest s b = Some (?i, ?x) |- _ =>
      unfold clickedRequest in C; apply findRequest_Some in C as (C & _);
      destruct (decide (k = i)) as [->|Hne] end.
    + eexists. split; [apply list_lookup_insert_eq; eapply lookup_lt_Some; exact H|].
      split; [simpl; congruence|]. intros C'. congruence.
    + exists r. rewrite list_lookup_insert_ne by congruence. auto.
  - exists r. auto.
Qed.

Lemma step_length cfg s ev : (length (pending s) <= length (pending (step cfg s ev)))%nat.
Proof.
  destruct ev as [|[c e|b now|]]; simpl.
  - destruct (handleReady_frame cfg s) as (_ & _ & _ & L & _). simpl in L. lia.
  - destruct (handleCommand_frame cfg s c e) as (_ & _ & _ & [P|(x & P)]);
      simpl in P; rewrite P; [lia|]. rewrite length_app. simpl. lia.
  - pose proof (handleButton_run cfg s b now) as R.
    destruct (handleButton cfg s b now) as [s' o]. simpl in *.
    inversion R; subst; try lia.
    match goal with P : pending s' = _ |- _ => rewrite P end.
    rewrite length_insert. lia.
  - lia.
Qed.

(** The lookup by id is insensitive to changes that keep ids in place. *)
Lemma findRequest_stable l l' rid i r :
  findRequest l rid = Some (i, r) ->
  (forall k x, l !! k = Some x -> exists x', l' !! k = Some x' /\ id x' = id x) ->
  l' !! i = Some r ->
  findRequest l' rid = Some (i, r).
Proof.
  intros F Hpt Hi. apply findRequest_Some in F as (Hl & Hr & Hlt).
  apply findRequest_Some. split; [exact Hi|]. split; [exact Hr|].
  intros j y Hj Hy.
  assert (exists x, l !! j = Some x) as [x Hx].
  { apply lookup_lt_is_Some. apply lookup_lt_Some in Hl. lia. }
  destruct (Hpt j x Hx) as (x' & Hx' & Hid).
  assert (x' = y) as -> by congruence.
  rewrite <- (Hlt j x Hj Hx). destruct rid as [z|]; simpl; [|reflexivity].
  rewrite Hid. reflexivity.
Qed.

(** A request that has left [pending] stays the answer of the lookup by
    its id, unchanged, whatever happens next. *)
Lemma terminal_persists cfg evs : forall s rid i r,
  findRequest (pending s) rid = Some (i, r) ->
  status r <> Pending ->
  findRequest (pending (run cfg s evs)) rid = Some (i, r).
Proof.
  induction evs as [|ev evs IH]; intros s rid i r F T; simpl; [exact F|].
  apply IH; [|exact T].
  eapply findRequest_stable; [exact F| |].
  - intros k x Hx. destruct (step_evolves cfg s ev k x Hx) as (x' & H' & Hid & _).
    exists x'. auto.
  - apply findRequest_Some in F as (Hl & _).
    destruct (step_evolves cfg s ev i r Hl) as (r' & H' & _ & Hsame).
    rewrite (Hsame T) in H'. exact H'.
Qed.

Lemma already_resolved cfg s b now slot r :
  isLinkButton (customId b) = true ->
  clickedRequest s b = Some (slot, r) ->
  status r <> Pending ->
  handleButton cfg s b now = (s, AlreadyResolved (status r)).
Proof.
  intros LB CR T. pose proof (handleButton_run cfg s b now) as R.
  destruct (handleButton cfg s b now) as [s' o]. simpl in R.
  inversion R; subst; congruence.
Qed.

Lemma decision_terminal b : decision b <> Pending.
Proof. unfold decision. destruct (isAccept _); discriminate. Qed.

(** A successful resolution: what was clicked, and what the lookup by
    the same id returns afterwards. *)
Lemma resolved_inv cfg s b now :
  resolved (snd (handleButton cfg s b now)) = true ->
  exists slot r,
    isLinkButton (customId b) = true /\
    clickedRequest s b = Some (slot, r) /\ status r = Pending /\
    hasAdmin cfg (resolverMember b) = true /\
    snd (handleButton cfg s b now) = decisionReply (decision b) r /\
    clickedRequest (fst (handleButton cfg s b now)) b
      = Some (slot, with_resolution r (decision b) (user_id (bc_user b)) now).
Proof.
  intros Res. pose proof (handleButton_run cfg s b now) as R.
  destruct (handleButton cfg s b now) as [s' o]. simpl in *.
  inversion R; subst; try discriminate Res.
  exists slot, r. repeat split; try assumption.
  match goal with C : clickedRequest s b = _ |- _ => rename C into CR end.
  unfold clickedRequest in *.
  match goal with P : pending s' = _ |- _ => rewrite P end.
  apply findRequest_Some in CR as (HA & HB & HC).
  apply findRequest_Some. split; [|split].
  - apply list_lookup_insert_eq. eapply lookup_lt_Some. exact HA.
  - destruct (snd (parseCustomId (customId b))); simpl in *; [exact HB|discriminate].
  - intros j y Hj Hy. rewrite list_lookup_insert_ne in Hy by lia.
    apply (HC j y Hj Hy).
Qed.

Lemma resolve_succeeds cfg s b now slot r :
  isLinkButton (customId b) = true ->
  clickedRequest s b = Some (slot, r) ->
  status r = Pending ->
  hasAdmin cfg (resolverMember b) = true ->
  resolved (snd (handleButton cfg s b now)) = true.
Proof.
  intros LB CR ES EA. pose proof (handleButton_run cfg s b now) as R.
  destruct (handleButton cfg s b now) as [s' o]. simpl in *.
  inversion R; subst; try congruence.
  destruct (decision b); reflexivity.
Qed.

(** ** C1: a request is resolved at most once *)

(** C1.  Take two clicks on link buttons that carry the same request id.
    (a) Once the first has resolved the request (approved or rejected
    it), the second, coming after any further events, is answered
    "This request was already <status>." with the status the first one
    set, and changes nothing: the state after it is the state before
    it.  (b) If the id names a pending request and both resolvers are
    authorized, then whichever click comes first succeeds and the other
    one is answered that the request was already resolved. *)
Theorem resolve_exactly_once (cfg : Config) (s : State) (b1 b2 : ButtonClick)
    (now1 now2 : Z) :
  isLinkButton (customId b1) = true ->
  isLinkButton (customId b2) = true ->
  snd (parseCustomId (customId b2)) = snd (parseCustomId (customId b1)) ->
  (resolved (snd (handleButton cfg s b1 now1)) = true ->
   forall evs : list Event,
     let s2 := run cfg (fst (handleButton cfg s b1 now1)) evs in
     handleButton cfg s2 b2 now2 = (s2, AlreadyResolved (decision b1)) /\
     reply_content (AlreadyResolved (decision b1))
       = Some ("This request was already " +:+ status_string (decision b1) +:+ ".") /\
     decision b1 <> Pending)
  /\
  (forall slot r,
     clickedRequest s b1 = Some (slot, r) ->
     status r = Pending ->
     hasAdmin cfg (resolverMember b1) = true ->
     hasAdmin cfg (resolverMember b2) = true ->
     let s1 := fst (handleButton cfg s b1 now1) in
     let s1' := fst (handleButton cfg s b2 now2) in
     (resolved (snd (handleButton cfg s b1 now1)) = true /\
      handleButton cfg s1 b2 now2 = (s1, AlreadyResolved (decision b1)) /\
      resolved (snd (handleButton cfg s1 b2 now2)) = false) /\
     (resolved (snd (handleButton cfg s b2 now2)) = true /\
      handleButton cfg s1' b1 now1 = (s1', AlreadyResolved (decision b2)) /\
      resolved (snd (handleButton cfg s1' b1 now1)) = false)).
Proof.
  intros LB1 LB2 Same.
  assert (Later : forall (c1 c2 : ButtonClick) (t1 t2 : Z),
    isLinkButton (customId c2) = true ->
    snd (parseCustomId (customId c2)) = snd (parseCustomId (customId c1)) ->
    resolved (snd (handleButton cfg s c1 t1)) = true ->
    forall evs,
      handleButton cfg (run cfg (fst (handleButton cfg s c1 t1)) evs) c2 t2
      = (run cfg (fst (handleButton cfg s c1 t1)) evs, AlreadyResolved (decision c1))).
  { intros c1 c2 t1 t2 L2 E Res evs.
    destruct (resolved_inv cfg s c1 t1 Res) as (slot & r & _ & _ & _ & _ & _ & CR).
    set (r1 := with_resolution r (decision c1) (user_id (bc_user c1)) t1) in *.
    assert (T : status r1 <> Pending) by apply decision_terminal.
    unfold clickedRequest in CR.
    pose proof (terminal_persists cfg evs _ _ _ _ CR T) as CR2.
    rewrite <- E in CR2.
    apply (already_resolved cfg _ c2 t2 slot r1 L2 CR2 T). }
  split.
  - intros Res evs. split; [apply Later; assumption|].
    split; [reflexivity|apply decision_terminal].
  - intros slot r CR ES A1 A2.
    assert (CR2 : clickedRequest s b2 = Some (slot, r))
      by (unfold clickedRequest in *; rewrite Same; exact CR).
    pose proof (resolve_succeeds cfg s b1 now1 slot r LB1 CR ES A1) as R1.
    pose proof (resolve_succeeds cfg s b2 now2 slot r LB2 CR2 ES A2) as R2.
    pose proof (Later b1 b2 now1 now2 LB2 Same R1 []) as L12.
    pose proof (Later b2 b1 now2 now1 LB1 (eq_sym Same) R2 []) as L21.
    simpl in L12, L21.
    split; (split; [assumption|split; [assumption|]]).
    + rewrite L12. reflexivity.
    + rewrite L21. reflexivity.
Qed.

Lemma resolve_exactly_once_witness :
  handleButton Sample.cfg Sample.approved
    (Sample.click "link_reject_17-5" Sample.carol Sample.moderator) 21
  = (Sample.approved, AlreadyResolved Approved).
Proof.
  pose proof (resolve_exactly_once Sample.cfg Sample.submitted
    (Sample.click "link_accept_17-5" Sample.bob Sample.moderator)
    (Sample.click "link_reject_17-5" Sample.carol Sample.moderator) 20 21
    eq_refl eq_refl eq_refl) as [A _].
  destruct (A eq_refl []) as [E _]. exact E.
Defined.

(** ** The account collection *)

Lemma upsertAccount_target m r :
  exists e, upsertAccount m r !! linkTarget r = Some e /\ In (ign r) (igns e) /\
    igns e = (let old := default [] (igns <$> m !! linkTarget r) in
              if JS.includes (ign r) old then old else old ++ [ign r]).
Proof.
  unfold upsertAccount. rewrite lookup_insert_eq.
  destruct (m !! linkTarget r) as [e0|]; simpl.
  - destruct (JS.includes (ign r) (igns e0)) eqn:E.
    + exists e0. split; [reflexivity|]. split; [apply includes_In; exact E|reflexivity].
    + eexists. split; [reflexivity|]. simpl. split; [|reflexivity].
      apply in_or_app. right. left. reflexivity.
  - eexists. split; [reflexivity|]. simpl. split; [left; reflexivity|reflexivity].
Qed.

Lemma upsertAccount_other m r k :
  k <> linkTarget r -> upsertAccount m r !! k = m !! k.
Proof. intros H. unfold upsertAccount. apply lookup_insert_ne. congruence. Qed.

(** Approving an in-game name the entry already lists changes nothing. *)
Lemma upsertAccount_known m r e :
  m !! linkTarget r = Some e -> In (ign r) (igns e) -> upsertAccount m r = m.
Proof.
  intros H Hin. unfold upsertAccount. rewrite H. simpl.
  apply includes_In in Hin. rewrite Hin. apply insert_id. exact H.
Qed.

Lemma upsertAccount_nodup m r : igns_nodup m -> igns_nodup (upsertAccount m r).
Proof.
  intros ND k e. destruct (decide (k = linkTarget r)) as [->|Hne].
  - unfold upsertAccount. rewrite lookup_insert_eq. intros [= <-].
    destruct (m !! linkTarget r) as [e0|] eqn:E; simpl.
    + destruct (JS.includes (ign r) (igns e0)) eqn:Incl; [exact (ND _ _ E)|].
      simpl. apply NoDup_app. split; [exact (ND _ _ E)|].
      split; [|apply NoDup_singleton].
      intros x Hx Hx'. apply list_elem_of_In in Hx, Hx'.
      destruct Hx' as [<-|[]]. apply includes_false in Incl. contradiction.
    + apply NoDup_singleton.
  - rewrite upsertAccount_other by exact Hne. apply ND.
Qed.

Lemma step_accounts cfg s ev :
  accounts (step cfg s ev) = accounts s \/
  exists r, accounts (step cfg s ev) = upsertAccount (accounts s) r.
Proof.
  destruct ev as [|[c e|b now|]]; simpl.
  - left. apply handleReady_frame.
  - left. apply handleCommand_frame.
  - pose proof (handleButton_run cfg s b now) as R.
    destruct (handleButton cfg s b now) as [s' o]. simpl in *.
    inversion R; subst; auto.
    match goal with A : accounts s' = _ |- _ => rewrite A end.
    destruct (decide (decision b = Approved)); eauto.
  - auto.
Qed.

Lemma step_igns_nodup cfg s ev :
  igns_nodup (accounts s) -> igns_nodup (accounts (step cfg s ev)).
Proof.
  intros ND. destruct (step_accounts cfg s ev) as [->|[r ->]];
    [exact ND|apply upsertAccount_nodup, ND].
Qed.

Lemma run_igns_nodup cfg evs : forall s,
  igns_nodup (accounts s) -> igns_nodup (accounts (run cfg s evs)).
Proof.
  induction evs as [|ev evs IH]; intros s ND; simpl; [exact ND|].
  apply IH, step_igns_nodup, ND.
Qed.

(** What an approval does to the account collection. *)
Lemma approved_inv cfg s b now tag ign_ :
  snd (handleButton cfg s b now) = ApprovedReply tag ign_ ->
  exists slot r,
    clickedRequest s b = Some (slot, r) /\ status r = Pending /\
    tag = targetTag r /\ ign_ = ign r /\
    accounts (fst (handleButton cfg s b now)) = upsertAccount (accounts s) r /\
    pending (fst (handleButton cfg s b now)) =
      <[slot := with_resolution r Approved (user_id (bc_user b)) now]> (pending s).
Proof.
  intros E. pose proof (handleButton_run cfg s b now) as R.
  destruct (handleButton cfg s b now) as [s' o]. simpl in *.
  inversion R; subst; try discriminate.
  destruct (decision b) eqn:D; simpl in *; try discriminate.
  match goal with H : ApprovedReply _ _ = ApprovedReply _ _ |- _ =>
    injection H as <- <- end.
  exists slot, r. repeat split; assumption.
Qed.

Lemma run_evolves cfg evs : forall s k r,
  pending s !! k = Some r -> status r <> Pending ->
  pending (run cfg s evs) !! k = Some r.
Proof.
  induction evs as [|ev evs IH]; intros s k r H T; simpl; [exact H|].
  apply IH; [|exact T].
  destruct (step_evolves cfg s ev k r H) as (r' & H' & _ & Same).
  rewrite (Same T) in H'. exact H'.
Qed.

(** Links are never removed. *)
Lemma step_keeps_links cfg s ev k e x :
  accounts s !! k = Some e -> In x (igns e) ->
  exists e', accounts (step cfg s ev) !! k = Some e' /\ In x (igns e').
Proof.
  intros H Hin. destruct (step_accounts cfg s ev) as [->|[r ->]]; [eauto|].
  destruct (decide (k = linkTarget r)) as [->|Hne].
  - destruct (upsertAccount_target (accounts s) r) as (e' & H' & _ & Eq).
    exists e'. split; [exact H'|]. rewrite Eq, H. simpl.
    destruct (JS.includes (ign r) (igns e)); [exact Hin|].
    apply in_or_app. left. exact Hin.
  - rewrite upsertAccount_other by exact Hne. eauto.
Qed.

Lemma run_keeps_links cfg evs : forall s k e x,
  accounts s !! k = Some e -> In x (igns e) ->
  exists e', accounts (run cfg s evs) !! k = Some e' /\ In x (igns e').
Proof.
  induction evs as [|ev evs IH]; intros s k e x H Hin; simpl; [eauto|].
  destruct (step_keeps_links cfg s ev k e x H Hin) as (e1 & H1 & Hin1).
  apply (IH _ _ _ _ H1 Hin1).
Qed.

Lemma igns_nodup_empty : igns_nodup ∅.
Proof. intros k e H. rewrite lookup_empty in H. discriminate H. Qed.

(** ** C5: no in-game name is listed twice *)

(** C5.  The entries of the account collection never list an in-game name
    twice: every step of the bot keeps the collection free of
    duplicates, so it is free of duplicates in every state reached from
    a first start; and when an in-game name is approved for an account
    and later approved again for the same account through another
    request, the second approval leaves the account collection as it
    was, with exactly one occurrence of the name in the account's
    entry. *)
Theorem igns_never_duplicate (cfg : Config) :
  (forall s ev, igns_nodup (accounts s) -> igns_nodup (accounts (step cfg s ev))) /\
  (forall c n evs, igns_nodup (accounts (run cfg (emptyState c n) evs))) /\
  (forall s b1 now1 evs b2 now2 tag1 tag2 name slot1 r1 slot2 r2,
     igns_nodup (accounts s) ->
     let s1 := run cfg (fst (handleButton cfg s b1 now1)) evs in
     let s2 := fst (handleButton cfg s1 b2 now2) in
     snd (handleButton cfg s b1 now1) = ApprovedReply tag1 name ->
     snd (handleButton cfg s1 b2 now2) = ApprovedReply tag2 name ->
     clickedRequest s b1 = Some (slot1, r1) ->
     clickedRequest s1 b2 = Some (slot2, r2) ->
     linkTarget r1 = linkTarget r2 ->
     slot1 <> slot2 /\ accounts s2 = accounts s1 /\
     exists e, accounts s2 !! linkTarget r1 = Some e /\
               count_occ string_dec (igns e) name = 1%nat).
Proof.
  split; [intros s ev; apply step_igns_nodup|].
  split; [intros c n evs; apply run_igns_nodup, igns_nodup_empty|].
  intros s b1 now1 evs b2 now2 tag1 tag2 name slot1 r1 slot2 r2 ND s1 s2
         O1 O2 C1 C2 ET.
  destruct (approved_inv _ _ _ _ _ _ O1) as (k1 & q1 & C1' & S1 & _ & N1 & A1 & P1).
  destruct (approved_inv _ _ _ _ _ _ O2) as (k2 & q2 & C2' & S2 & _ & N2 & A2 & P2).
  fold s1 in C2', A2, P2. fold s2 in A2, P2.
  assert (k1 = slot1 /\ q1 = r1) as [-> ->] by (split; congruence).
  assert (k2 = slot2 /\ q2 = r2) as [-> ->] by (split; congruence).
  destruct (upsertAccount_target (accounts s) r1) as (e0 & H0 & Hin0 & _).
  rewrite <- A1 in H0.
  destruct (run_keeps_links cfg evs _ _ _ _ H0 Hin0) as (e1 & H1 & Hin1).
  fold s1 in H1.
  assert (Same : accounts s2 = accounts s1).
  { rewrite A2. apply (upsertAccount_known _ _ e1); [congruence|congruence]. }
  split; [|split; [exact Same|]].
  - intros ->. unfold clickedRequest in C1, C2.
    apply findRequest_Some in C1 as (L1 & _), C2 as (L2 & _).
    assert (pending s1 !! slot2
            = Some (with_resolution r1 Approved (user_id (bc_user b1)) now1)) as L.
    { apply run_evolves; [|discriminate]. rewrite P1.
      apply list_lookup_insert_eq. eapply lookup_lt_Some. exact L1. }
    rewrite L in L2. injection L2 as <-. discriminate S2.
  - exists e1. rewrite Same. split; [exact H1|].
    assert (NDs1 : igns_nodup (accounts s1)).
    { apply run_igns_nodup. rewrite A1. apply upsertAccount_nodup, ND. }
    apply (proj1 (NoDup_count_occ' string_dec (igns e1))
                 (proj1 (NoDup_ListNoDup _) (NDs1 _ _ H1))).
    congruence.
Qed.

Lemma igns_never_duplicate_witness :
  exists e, accounts (fst (handleButton Sample.cfg Sample.submitted_again
                 (Sample.click "link_accept_18-6" Sample.carol Sample.moderator) 25))
              !! "1" = Some e /\
            count_occ string_dec (igns e) "Notch" = 1%nat.
Proof.
  destruct (igns_never_duplicate Sample.cfg) as (_ & _ & H).
  destruct (H Sample.submitted
              (Sample.click "link_accept_17-5" Sample.bob Sample.moderator) 20
              [InteractionCreate (ChatInputCommand
                 (Sample.link Sample.alice "Notch" None) (mkReadings 18 6 18))]
              (Sample.click "link_accept_18-6" Sample.carol Sample.moderator) 25
              "alice#0001" "alice#0001" "Notch"
              0%nat (mkReq "17-5" "1" "alice#0001" "1" "alice#0001" "Notch" Pending 17
                      (Some "1000") None None)
              1%nat (mkReq "18-6" "1" "alice#0001" "1" "alice#0001" "Notch" Pending 18
                      (Some "1001") None None))
    as (_ & _ & W).
  - apply igns_nodup_empty.
  - reflexivity.
  - reflexivity.
  - reflexivity.
  - reflexivity.
  - reflexivity.
  - exact W.
Defined.

(** ** C7: what an approval links *)

Lemma isIgnLinkedTo_spec m a x :
  isIgnLinkedTo m a x = true <-> exists e, m !! a = Some e /\ In x (igns e).
Proof.
  unfold isIgnLinkedTo. destruct (m !! a) as [e|].
  - rewrite includes_In. split; [eauto|]. intros (e' & [= <-] & H). exact H.
  - split; [discriminate|]. intros (e' & C & _). discriminate C.
Qed.

(** The lookup compares names exactly. *)
Example isIgnLinkedTo_case_sensitive :
  isIgnLinkedTo (accounts Sample.approved) "1" "Notch" = true /\
  isIgnLinkedTo (accounts Sample.approved) "1" "notch" = false /\
  isIgnLinkedTo (accounts Sample.approved) "1" "Notch " = false.
Proof. repeat split; reflexivity. Qed.

(** C7, as the code has it.  Right after a successful approval of a
    request for an in-game name, the lookup is true for the request's
    target account and that name; for every other account it answers
    what it answered before the approval, so it is false there unless
    the name had already been linked to that account.  The lookup is
    true exactly when the account's entry lists the very same string. *)
Theorem approval_links_target (cfg : Config) (s : State) (b : ButtonClick) (now : Z)
    (tag name : string) :
  snd (handleButton cfg s b now) = ApprovedReply tag name ->
  exists slot r,
    clickedRequest s b = Some (slot, r) /\ ign r = name /\
    isIgnLinkedTo (accounts (fst (handleButton cfg s b now))) (linkTarget r) name = true /\
    (forall B x, B <> linkTarget r ->
       isIgnLinkedTo (accounts (fst (handleButton cfg s b now))) B x
       = isIgnLinkedTo (accounts s) B x) /\
    (forall A x,
       isIgnLinkedTo (accounts (fst (handleButton cfg s b now))) A x = true <->
       exists e, accounts (fst (handleButton cfg s b now)) !! A = Some e /\
                 In x (igns e)).
Proof.
  intros O. destruct (approved_inv _ _ _ _ _ _ O) as (slot & r & C & _ & _ & N & A & _).
  exists slot, r. split; [exact C|]. split; [congruence|]. rewrite A. split; [|split].
  - apply isIgnLinkedTo_spec.
    destruct (upsertAccount_target (accounts s) r) as (e & H & Hin & _).
    exists e. split; [exact H|congruence].
  - intros B x Hne. unfold isIgnLinkedTo.
    rewrite upsertAccount_other by exact Hne. reflexivity.
  - intros A' x. apply isIgnLinkedTo_spec.
Qed.

Lemma approval_links_target_witness :
  isIgnLinkedTo (accounts Sample.approved) "1" "Notch" = true.
Proof.
  destruct (approval_links_target Sample.cfg Sample.submitted
              (Sample.click "link_accept_17-5" Sample.bob Sample.moderator) 20
              "alice#0001" "Notch" eq_refl)
    as (slot & r & C & N & L & _).
  injection C as <- <-. exact L.
Defined.

(** C7, as stated, fails: Bob holds Notch, Alice's request for Notch is
    approved, and the lookup is still true for Bob, who is another
    account. *)
Lemma approval_leaves_other_holders :
  snd Sample.both_hold_notch = ApprovedReply "alice#0001" "Notch" /\
  isIgnLinkedTo (accounts (fst Sample.both_hold_notch)) "1" "Notch" = true /\
  "2" <> "1" /\
  isIgnLinkedTo (accounts (fst Sample.both_hold_notch)) "2" "Notch" = true.
Proof. repeat split; try reflexivity. discriminate. Qed.

(** ** C2: a blank in-game name *)

(** C2, as the code has it.  A [/link] submission whose [ign] is empty or
    only white space is not refused: the handler trims it to the empty
    string and appends one pending request with that empty [ign] to the
    request collection, in memory and (when the file can be written) in
    [pending.json]; the account collection is untouched.  Only a command
    without any [ign] option ends in the error reply and stores nothing. *)
Theorem blank_ign_is_stored (cfg : Config) (s : State) (c : ChatInput) (e : Readings) :
  commandName c = "link" ->
  (forall raw, opt_ign c = Some raw -> allChars JS.isWhiteSpace raw = true ->
     let s' := fst (handleCommand cfg s c e) in
     exists r, pending s' = pending s ++ [r] /\
       ign r = "" /\ status r = Pending /\
       id r = reqId (now_id e) (random_part e) /\
       accounts s' = accounts s /\
       (fs_writable s = true ->
        PENDING_FILE s' = Holds (pending_to_json (pending s ++ [r]))))
  /\
  (opt_ign c = None -> handleCommand cfg s c e = (s, HandlerError)).
Proof.
  intros Hn. split.
  - intros raw Hi Hb.
    destruct (handleCommand_link cfg s c e raw Hn Hi) as ((m & P) & A & _ & _ & F).
    rewrite (trim_blank _ Hb) in P. simpl. eexists. split; [exact P|].
    repeat split; try assumption.
    intros W. rewrite <- P. apply F, W.
  - intros Hi. unfold handleCommand. rewrite Hn, Hi. reflexivity.
Qed.

Lemma blank_ign_is_stored_witness :
  exists r, pending (fst Sample.blank_submission) = [r] /\ ign r = "".
Proof.
  destruct (blank_ign_is_stored Sample.cfg Sample.fresh
              (Sample.link Sample.alice "   " None) (mkReadings 17 5 17) eq_refl)
    as [H _].
  destruct (H "   " eq_refl eq_refl) as (r & P & I & _).
  exists r. split; [exact P|exact I].
Defined.

(** C2, as stated, fails: three blanks are accepted, the request is
    stored with an empty in-game name and written to [pending.json], and
    the submitter is told that the request went to the admins. *)
Lemma blank_ign_not_rejected :
  snd Sample.blank_submission = Submitted /\
  map ign (pending (fst Sample.blank_submission)) = [""] /\
  pending Sample.fresh = [] /\
  PENDING_FILE (fst Sample.blank_submission)
  = Holds (pending_to_json (pending (fst Sample.blank_submission))).
Proof. repeat split; reflexivity. Qed.

(** ** C4: the teleport command *)

(** The dispatcher of [main.js] routes [/link] only: a command named
    [tp] is returned from at once, without a reply. *)
Example tp_not_routed_ex :
  handleCommand Sample.cfg Sample.approved
    (mkChatInput "tp" Sample.alice (Some "Notch") None) (mkReadings 50 1 50)
  = (Sample.approved, Ignored) /\
  reply_content Ignored = None.
Proof. split; reflexivity. Qed.

(** C4.  A teleport request by a caller who is no admin for an account
    other than the caller's own fails with [Forbidden] and emits
    nothing.  When the target check passes (the caller is an admin, or
    the target is the caller) and the target account has no linked name
    exactly equal to the given one, it fails with [NotLinked] and emits
    nothing.  When the check passes and the name is linked to the
    target, it succeeds and emits exactly one string,
    [.tp instapearl <ign>], to the configured destination. *)
Theorem teleport_checks (m : gmap string AccountEntry) (destination callerId : string)
    (callerIsAdmin : bool) (targetAccountId ign_ : string) :
  (callerIsAdmin = false -> targetAccountId <> callerId ->
   request_teleport m destination callerId callerIsAdmin targetAccountId ign_
   = (Some Forbidden, [])) /\
  (callerIsAdmin = true \/ targetAccountId = callerId ->
   (forall e, m !! targetAccountId = Some e -> ~ In ign_ (igns e)) ->
   request_teleport m destination callerId callerIsAdmin targetAccountId ign_
   = (Some NotLinked, [])) /\
  (callerIsAdmin = true \/ targetAccountId = callerId ->
   (exists e, m !! targetAccountId = Some e /\ In ign_ (igns e)) ->
   request_teleport m destination callerId callerIsAdmin targetAccountId ign_
   = (None, [(destination, ".tp instapearl " +:+ ign_)])).
Proof.
  assert (Pass : callerIsAdmin = true \/ targetAccountId = callerId ->
            (negb callerIsAdmin && negb (String.eqb targetAccountId callerId))%bool
            = false).
  { intros [ -> | -> ]; [reflexivity|].
    rewrite String.eqb_refl. apply andb_false_r. }
  unfold request_teleport. split; [|split].
  - intros -> Hne. apply String.eqb_neq in Hne. rewrite Hne. reflexivity.
  - intros Ok No. rewrite (Pass Ok).
    assert (isIgnLinkedTo m targetAccountId ign_ = false) as ->; [|reflexivity].
    apply not_true_is_false. intros L.
    apply isIgnLinkedTo_spec in L as (e & He & Hin). exact (No e He Hin).
  - intros Ok Yes. rewrite (Pass Ok).
    apply isIgnLinkedTo_spec in Yes. rewrite Yes. reflexivity.
Qed.

(** The scenario of the specification: Notch is linked to Alice; Bob,
    who is no admin, asks for a teleport of Alice's Notch and is
    refused; Alice asks for herself and the trigger is emitted. *)
Lemma teleport_checks_witness :
  request_teleport (accounts Sample.approved) "950" "2" false "1" "Notch"
  = (Some Forbidden, []) /\
  request_teleport (accounts Sample.approved) "950" "1" false "1" "Steve"
  = (Some NotLinked, []) /\
  request_teleport (accounts Sample.approved) "950" "1" false "1" "Notch"
  = (None, [("950", ".tp instapearl Notch")]).
Proof.
  split; [|split].
  - apply (proj1 (teleport_checks (accounts Sample.approved) "950" "2" false "1"
                    "Notch")); [reflexivity|discriminate].
  - apply (proj1 (proj2 (teleport_checks (accounts Sample.approved) "950" "1" false
                           "1" "Steve"))); [right; reflexivity|].
    intros e He Hin. vm_compute in He. injection He as <-.
    destruct Hin as [Hin|[]]. discriminate Hin.
  - apply (proj2 (proj2 (teleport_checks (accounts Sample.approved) "950" "1" false
                           "1" "Notch"))); [right; reflexivity|].
    eexists. split; [reflexivity|]. left. reflexivity.
Defined.

(** ** C3: request ids *)

Lemma map_id_insert (l : list LinkRequest) k r r' :
  l !! k = Some r -> id r' = id r -> map id (<[k := r']> l) = map id l.
Proof.
  intros H E. change (id <$> <[k:=r']> l = id <$> l).
  rewrite list_fmap_insert. apply list_insert_id.
  rewrite list_lookup_fmap, H. simpl. congruence.
Qed.

Lemma step_ids cfg s ev :
  map id (pending (step cfg s ev))
  = map id (pending s) ++ map (fun p => reqId (fst p) (snd p)) (submission ev).
Proof.
  destruct ev as [|[c e|b now|]]; simpl; try (rewrite app_nil_r; reflexivity).
  - rewrite app_nil_r.
    destruct (handleReady_frame cfg s) as (_ & _ & _ & L & P). simpl in L, P.
    apply list_eq. intros k. change (map id) with (fmap (M:=list) id).
    rewrite !list_lookup_fmap.
    destruct (pending s !! k) as [r|] eqn:E.
    + destruct (P k r E) as (r' & -> & [->|(_ & m & ->)]); reflexivity.
    + apply lookup_ge_None in E. rewrite (proj2 (lookup_ge_None _ _)) by lia.
      reflexivity.
  - destruct (String.eqb_spec (commandName c) "link") as [Hn|Hn].
    + destruct (opt_ign c) as [raw|] eqn:Hi.
      * destruct (handleCommand_link cfg s c e raw Hn Hi) as ((m & P) & _).
        simpl in P. rewrite P, map_app. reflexivity.
      * unfold handleCommand. rewrite Hn, Hi. simpl. rewrite app_nil_r. reflexivity.
    + rewrite handleCommand_other by exact Hn. simpl. rewrite app_nil_r. reflexivity.
  - rewrite app_nil_r. pose proof (handleButton_run cfg s b now) as R.
    destruct (handleButton cfg s b now) as [s' o]. simpl in *.
    inversion R; subst; try reflexivity.
    match goal with P : pending s' = _ |- _ => rewrite P end.
    match goal with C : clickedRequest s b = Some _ |- _ =>
      unfold clickedRequest in C; apply findRequest_Some in C as (C & _) end.
    eapply map_id_insert; [eassumption|reflexivity].
Qed.

Lemma run_ids cfg evs : forall s,
  map id (pending (run cfg s evs))
  = map id (pending s) ++ map (fun p => reqId (fst p) (snd p)) (submissions evs).
Proof.
  induction evs as [|ev evs IH]; intros s; simpl.
  - rewrite app_nil_r. reflexivity.
  - rewrite IH, step_ids. unfold submissions. simpl.
    rewrite map_app, app_assoc. reflexivity.
Qed.

(** C3, as the code has it.  Two ids made from non-negative timestamps
    are equal exactly when both the timestamp and the random part are
    equal.  Hence, in a store that grew from a first start, all request
    ids are distinct as long as no two submissions read the same
    timestamp together with the same random part; two submissions in the
    same millisecond that draw the same number get the same id. *)
Theorem ids_differ_unless_same_draw :
  (forall t r t' r', 0 <= t -> 0 <= t' ->
     (reqId t r = reqId t' r' <-> t = t' /\ r = r'))
  /\
  (forall cfg c n evs,
     Forall (fun p => 0 <= fst p) (submissions evs) ->
     NoDup (submissions evs) ->
     NoDup (map id (pending (run cfg (emptyState c n) evs)))).
Proof.
  split.
  - intros t r t' r' Ht Ht'. split; [apply reqId_inj; assumption|].
    intros [-> ->]. reflexivity.
  - intros cfg c n evs Hpos ND. rewrite run_ids. simpl.
    apply (NoDup_fmap_2_strong (fun p => reqId (fst p) (snd p))); [|exact ND].
    intros [t r] [t' r'] Hx Hy E. simpl in E.
    rewrite Forall_forall in Hpos.
    destruct (reqId_inj t r t' r') as [-> ->]; try (exact E); [| |reflexivity].
    + apply (Hpos (t, r)), Hx.
    + apply (Hpos (t', r')), Hy.
Qed.

Lemma ids_differ_unless_same_draw_witness :
  reqId 17 5 <> reqId 17 6 /\
  NoDup (map id (pending (run Sample.cfg Sample.fresh
    [InteractionCreate (ChatInputCommand
       (Sample.link Sample.alice "Notch" None) (mkReadings 17 5 17));
     InteractionCreate (ChatInputCommand
       (Sample.link Sample.bob "Steve" None) (mkReadings 17 6 17))]))).
Proof.
  destruct ids_differ_unless_same_draw as [A B]. split.
  - intros E. apply (A 17 5 17 6) in E; [|lia|lia]. destruct E as [_ E]. lia.
  - apply B.
    + repeat constructor; simpl; lia.
    + apply NoDup_cons. split; [|apply NoDup_singleton].
      intros H%list_elem_of_In. destruct H as [E|[]]. discriminate E.
Defined.

(** C3, as stated, fails: two distinct submissions in the same
    millisecond with the same draw are both stored, under one id. *)
Lemma same_draw_same_id :
  map requesterId (pending Sample.same_draw) = ["1"; "2"] /\
  map id (pending Sample.same_draw) = ["17-5"; "17-5"] /\
  ~ NoDup (map id (pending Sample.same_draw)).
Proof.
  split; [reflexivity|]. split; [reflexivity|].
  intros H. change (NoDup ["17-5"; "17-5"]) in H.
  apply NoDup_cons in H as [H _]. apply H. left.
Qed.

(** ** C8: loading a collection *)

(** C8, as the code has it.  [readJson] always returns a value.  It
    returns the default when the file is absent, cannot be read, is
    empty, cannot be parsed, or holds a falsy value ([null], [false],
    [0], the empty string); otherwise it returns the parsed value as it
    is, whatever its shape.  So a collection that [writeJson] stored is
    read back, and a file that holds a truthy value which is not a
    collection (a number, a string, [true]) yields that value, not the
    empty collection. *)
Theorem readJson_total (f : file_state) (d : json) :
  (f = Absent \/ f = Unreadable \/ f = EmptyFile \/ f = Malformed ->
   readJson f d = d) /\
  (forall v, f = Holds v -> json_truthy v = false -> readJson f d = d) /\
  (forall v, f = Holds v -> json_truthy v = true -> readJson f d = v) /\
  (forall v, f = Holds v -> is_collection v = true -> readJson f d = v) /\
  (forall s, fs_writable s = true ->
     load_pending (PENDING_FILE (writeJson_pending s)) = pending_to_json (pending s) /\
     load_accounts (ACCOUNTS_FILE (writeJson_accounts s))
     = accounts_to_json (accounts s)).
Proof.
  split; [intros [ -> | [ -> | [ -> | -> ] ] ]; reflexivity|].
  split; [intros v -> T; simpl; rewrite T; reflexivity|].
  split; [intros v -> T; simpl; rewrite T; reflexivity|].
  split; [intros v -> C; destruct v; try discriminate C; reflexivity|].
  intros s W. rewrite writeJson_pending_file, writeJson_accounts_file by exact W.
  split; reflexivity.
Qed.

Lemma readJson_total_witness :
  readJson Malformed (JArray []) = JArray [] /\
  readJson (Holds (JBool false)) (JObject []) = JObject [] /\
  readJson (Holds (JString "x")) (JArray []) = JString "x" /\
  readJson (Holds (JArray [JNull])) (JArray []) = JArray [JNull] /\
  load_pending (PENDING_FILE (writeJson_pending Sample.submitted))
  = pending_to_json (pending Sample.submitted).
Proof.
  split; [apply (proj1 (readJson_total Malformed (JArray []))); auto|].
  split; [apply (proj1 (proj2 (readJson_total (Holds (JBool false)) (JObject [])))
                   (JBool false) eq_refl eq_refl)|].
  split; [apply (proj1 (proj2 (proj2 (readJson_total (Holds (JString "x")) (JArray []))))
                   (JString "x") eq_refl eq_refl)|].
  split; [apply (proj1 (proj2 (proj2 (proj2
                   (readJson_total (Holds (JArray [JNull])) (JArray [])))))
                   (JArray [JNull]) eq_refl eq_refl)|].
  apply (proj2 (proj2 (proj2 (proj2 (readJson_total Absent JNull))))
           Sample.submitted eq_refl).
Defined.

(** C8, as stated, fails: [pending.json] holds the number 5, which is
    not a collection, and loading the request collection returns 5, not
    the empty array; an accounts file that holds an array is likewise
    returned as that array, not as the empty object. *)
Lemma number_file_is_returned :
  is_collection (JNumber 5) = false /\
  load_pending (Holds (JNumber 5)) = JNumber 5 /\
  load_pending (Holds (JNumber 5)) <> JArray [] /\
  load_accounts (Holds (JString "oops")) <> JObject [].
Proof. repeat split; try reflexivity; discriminate. Qed.

(** ** Start-up reconciliation *)

Lemma isLive_existsb ch mid :
  isLive ch mid = existsb (fun m => String.eqb (msg_id m) mid) (messages ch).
Proof.
  unfold isLive, fetchMessage.
  destruct (JS.findIndex _ (messages ch)) as [i|] eqn:E.
  - apply findIndex_Some in E as [(x & Hx & Px) _]. rewrite Hx. simpl.
    symmetry. apply existsb_exists. exists x. split; [|exact Px].
    apply list_elem_of_In. eapply list_elem_of_lookup_2. exact Hx.
  - symmetry. apply not_true_is_false. intros C.
    apply existsb_exists in C as (x & Hx & Px).
    apply list_elem_of_In, list_elem_of_lookup_1 in Hx as [i Hi].
    rewrite (proj1 (findIndex_None _ _) E i x Hi) in Px. discriminate Px.
Qed.

Lemma isLive_snoc ch m mid :
  msg_id m <> mid ->
  isLive (with_messages ch (messages ch ++ [m])) mid = isLive ch mid.
Proof.
  intros H. rewrite !isLive_existsb. simpl. rewrite existsb_app. simpl.
  apply String.eqb_neq in H. rewrite H. rewrite !orb_false_r. reflexivity.
Qed.

Lemma needsRender_snoc ch m r :
  messageId r <> Some (msg_id m) ->
  needsRender (with_messages ch (messages ch ++ [m])) r = needsRender ch r.
Proof.
  intros H. unfold needsRender, hasLivePresentation.
  destruct (messageId r) as [mid|]; simpl; [|reflexivity].
  rewrite isLive_snoc; [reflexivity|]. congruence.
Qed.

Lemma reconcile_snoc ch m l : forall n,
  (forall r, In r l -> messageId r <> Some (msg_id m)) ->
  reconcile (with_messages ch (messages ch ++ [m])) n l = reconcile ch n l.
Proof.
  induction l as [|r l IH]; intros n H; [reflexivity|]. cbn [reconcile].
  rewrite needsRender_snoc by (apply H; left; reflexivity).
  rewrite !IH by (intros x Hx; apply H; right; exact Hx). reflexivity.
Qed.

Lemma with_messages_same ch : with_messages ch (messages ch ++ []) = ch.
Proof. destruct ch. unfold with_messages. simpl. rewrite app_nil_r. reflexivity. Qed.

(** The [for] loop of the [ClientReady] handler computes [reconcile]. *)
Lemma restoreAll_reconcile cid : forall todo done s ch,
  pending s = done ++ todo ->
  channels s !! cid = Some ch ->
  canSend ch = true ->
  idsIssued (snowflake s) todo ->
  let s' := restoreAll cid s (pendingSlots (length done) todo) in
  let res := reconcile ch (snowflake s) todo in
  pending s' = done ++ fst res /\
  channels s' !! cid = Some (with_messages ch (messages ch ++ snd res)) /\
  accounts s' = accounts s /\
  (snd res = [] -> s' = s) /\
  (fs_writable s = true -> snd res <> [] ->
   PENDING_FILE s' = Holds (pending_to_json (pending s'))).
Proof.
  induction todo as [|r rest IH]; intros done s ch Hp Hc Hs Hi; cbv zeta.
  - simpl. rewrite with_messages_same. repeat split; try assumption.
    intros _ C. contradiction.
  - cbn [reconcile].
    assert (Skip : needsRender ch r = false ->
        restoreAll cid s (pendingSlots (length done) (r :: rest))
        = restoreAll cid s (pendingSlots (length (done ++ [r])) rest)).
    { intros NR. simpl. rewrite length_app. simpl. rewrite Nat.add_1_r.
      destruct (bool_decide (status r = Pending)) eqn:Est; [|reflexivity].
      simpl. unfold restoreOne.
      rewrite Hp, list_lookup_middle by reflexivity. rewrite Hc.
      unfold needsRender in NR. rewrite Est in NR. simpl in NR.
      apply negb_false_iff in NR. unfold hasLivePresentation in NR.
      apply andb_true_iff in NR as [T L]. rewrite T.
      unfold isLive in L.
      destruct (fetchMessage ch (default "" (messageId r))); [reflexivity|discriminate L]. }
    assert (Hi' : forall n', snowflake s <= n' -> idsIssued n' rest).
    { intros n' Hn x mid Hx Hm j Hj.
      replace (n' + j) with (snowflake s + (n' - snowflake s + j)) by lia.
      apply (Hi x mid); [right; exact Hx|exact Hm|lia]. }
    destruct (needsRender ch r) eqn:NR.
    + assert (Est : bool_decide (status r = Pending) = true).
      { unfold needsRender in NR. apply andb_true_iff in NR as [E _]. exact E. }
      assert (NoMsg : (if JS.truthy_opt (messageId r)
                       then fetchMessage ch (default "" (messageId r)) else None) = None).
      { unfold needsRender in NR. rewrite Est in NR. simpl in NR.
        apply negb_true_iff in NR. unfold hasLivePresentation, isLive in NR.
        destruct (JS.truthy_opt (messageId r)); [|reflexivity].
        destruct (fetchMessage ch (default "" (messageId r))); [discriminate NR|reflexivity]. }
      cbn [pendingSlots]. rewrite Est. cbn [restoreAll fst snd]. unfold restoreOne.
      rewrite Hp, list_lookup_middle by reflexivity. rewrite Hc, NoMsg.
      unfold createEmbedForReq. fold (canRender r).
      destruct (canRender r) eqn:CR.
      * (* the request is rendered *)
        rewrite (send_ok s cid ch _ _ Hc Hs).
        set (mid := JS.toString (snowflake s)).
        set (m := mkMessage mid [embedFor r Pending] [buttonRow (id r) false]).
        set (ch1 := with_messages ch (messages ch ++ [m])).
        set (s1 := writeJson_pending _).
        destruct (writeJson_pending_proj
                    (with_pending
                       (with_platform s (<[cid := ch1]> (channels s)) (snowflake s + 1))
                       (<[length done := with_messageId r (Some mid)]>
                          (pending (with_platform s (<[cid := ch1]> (channels s))
                                                  (snowflake s + 1))))))
          as (P1 & A1 & F1 & W1 & C1 & N1).
        fold s1 in P1, A1, F1, W1, C1, N1. simpl in P1, A1, F1, W1, C1, N1.
        assert (P1' : pending s1 = (done ++ [with_messageId r (Some mid)]) ++ rest).
        { rewrite P1, Hp. rewrite insert_app_r_alt by lia.
          rewrite Nat.sub_diag. simpl. rewrite <- app_assoc. reflexivity. }
        assert (C1' : channels s1 !! cid = Some ch1)
          by (rewrite C1; apply lookup_insert_eq).
        assert (Fresh : forall x, In x rest -> messageId x <> Some (msg_id m)).
        { intros x Hx E. apply (Hi x mid (or_intror Hx) E 0 ltac:(lia)).
          unfold mid. rewrite Z.add_0_r. reflexivity. }
        destruct (IH (done ++ [with_messageId r (Some mid)]) s1 ch1 P1' C1' Hs)
          as (P2 & C2 & A2 & Z2 & F2).
        { rewrite N1. apply Hi'. lia. }
        replace (length (done ++ [with_messageId r (Some mid)]))
          with (S (length done)) in P2, C2, A2, Z2, F2
          by (rewrite length_app; simpl; lia).
        rewrite N1 in P2, C2, Z2, F2.
        unfold ch1 in P2, C2, Z2, F2 at 1. rewrite (reconcile_snoc ch m rest _ Fresh) in *.
        fold ch1 in C2.
        split; [rewrite P2, <- app_assoc; reflexivity|].
        split.
        { rewrite C2. unfold ch1, with_messages. simpl.
          rewrite <- app_assoc. reflexivity. }
        split; [congruence|]. split; [intros C; discriminate C|].
        intros W _.
        destruct (snd (reconcile ch (snowflake s + 1) rest)) as [|m' ms] eqn:Erest.
        -- rewrite (Z2 eq_refl). unfold s1. apply writeJson_pending_synced.
           simpl. exact W.
        -- apply F2; [congruence|discriminate].
      * (* the embed cannot be built: the loop is left *)
        cbn [fst snd]. rewrite with_messages_same.
        repeat split; try assumption. intros _ C. contradiction.
    + (* the request is left as it is *)
      rewrite (Skip eq_refl). cbn [fst snd].
      destruct (IH (done ++ [r]) s ch) as (P2 & C2 & A2 & Z2 & F2);
        try assumption.
      { rewrite Hp, <- app_assoc. reflexivity. }
      { apply Hi'. lia. }
      split; [rewrite P2, <- app_assoc; reflexivity|]. auto.
Qed.

Lemma reconcile_msg_ids ch l : forall n m,
  In m (snd (reconcile ch n l)) -> exists j, 0 <= j /\ msg_id m = JS.toString (n + j).
Proof.
  induction l as [|r l IH]; intros n m; cbn [reconcile]; [intros []|].
  destruct (needsRender ch r); [destruct (canRender r)|]; cbn [fst snd].
  - intros [<-|H].
    + exists 0. split; [lia|]. simpl. rewrite Z.add_0_r. reflexivity.
    + destruct (IH _ _ H) as (j & Hj & E). exists (1 + j). split; [lia|].
      rewrite E. f_equal. lia.
  - intros [].
  - apply IH.
Qed.







(** ** C9: reconciliation at start-up *)





(** * Further properties of the handlers *)

(** ** How a record changes in one step *)

(** A stored request stays in its slot; it is left as it is, or, while
    pending, gets a message id or a resolution. *)
Lemma step_record cfg s ev k r :
  pending s !! k = Some r ->
  exists r', pending (step cfg s ev) !! k = Some r' /\
    (r' = r \/
     (status r = Pending /\
      ((exists m, r' = with_messageId r m) \/
       (exists st u t, st <> Pending /\ r' = with_resolution r st u t)))).
Proof.
  intros H. destruct ev as [|[c e|b now|]]; simpl.
  - destruct (handleReady_frame cfg s) as (_ & _ & _ & _ & P).
    destruct (P k r H) as (r' & H' & [->|(Hs & m & ->)]).
    + exists r. auto.
    + eexists. split; [exact H'|]. right. split; [exact Hs|]. left. eauto.
  - destruct (handleCommand_frame cfg s c e) as (_ & _ & _ & [P|(x & P)]);
      simpl in P; rewrite P.
    + exists r. auto.
    + exists r. split; [|auto]. apply lookup_app_l_Some. exact H.
  - pose proof (handleButton_run cfg s b now) as R.
    destruct (handleButton cfg s b now) as [s' o]. simpl in *.
    inversion R; subst; try (exists r; auto; fail).
    match goal with P : pending s' = _ |- _ => rewrite P end.
    match goal with C : clickedRequest s b = Some (?i, ?x) |- _ =>
      unfold clickedRequest in C; apply findRequest_Some in C as (C & _);
      destruct (decide (k = i)) as [->|Hne] end.
    + eexists. split; [apply list_lookup_insert_eq; eapply lookup_lt_Some; exact H|].
      right. assert (r0 = r) as -> by congruence. split; [assumption|]. right.
      exists (decision b), (user_id (bc_user b)), now.
      split; [apply decision_terminal|reflexivity].
    + exists r. rewrite list_lookup_insert_ne by congruence. auto.
  - exists r. auto.
Qed.

(** A slot that a step fills holds the request a [/link] command built,
    with or without the id of its message. *)
Lemma step_new cfg s ev k r' :
  pending (step cfg s ev) !! k = Some r' ->
  (length (pending s) <= k)%nat ->
  exists c e raw m, ev = InteractionCreate (ChatInputCommand c e) /\
    commandName c = "link" /\ opt_ign c = Some raw /\
    r' = with_messageId (newRequest c e (JS.trim raw)) m.
Proof.
  intros H Hk. destruct ev as [|[c e|b now|]]; simpl in H.
  - destruct (handleReady_frame cfg s) as (_ & _ & _ & L & _). simpl in L.
    apply lookup_lt_Some in H. lia.
  - destruct (String.eqb_spec (commandName c) "link") as [Hn|Hn].
    + destruct (opt_ign c) as [raw|] eqn:Hi.
      * destruct (handleCommand_link cfg s c e raw Hn Hi) as ((m & P) & _).
        simpl in P. rewrite P in H.
        destruct (decide (k = length (pending s))) as [->|Hne].
        -- rewrite list_lookup_middle in H by reflexivity. injection H as <-.
           exists c, e, raw, m. auto.
        -- apply lookup_lt_Some in H. rewrite length_app in H. simpl in H. lia.
      * unfold handleCommand in H. rewrite Hn, Hi in H. simpl in H.
        apply lookup_lt_Some in H. lia.
    + rewrite handleCommand_other in H by exact Hn. simpl in H.
      apply lookup_lt_Some in H. lia.
  - pose proof (handleButton_run cfg s b now) as R.
    destruct (handleButton cfg s b now) as [s' o]. simpl in *.
    inversion R; subst; try (apply lookup_lt_Some in H; lia).
    match goal with P : pending s' = _ |- _ => rewrite P in H end.
    apply lookup_lt_Some in H. rewrite length_insert in H. lia.
  - apply lookup_lt_Some in H. lia.
Qed.

(** A property of requests that holds of every freshly built request and
    survives a new message id and a resolution holds of every request
    of every state reached. *)
Lemma run_records_ind (P : LinkRequest -> Prop) :
  (forall c e raw, P (newRequest c e (JS.trim raw))) ->
  (forall r m, P r -> status r = Pending -> P (with_messageId r m)) ->
  (forall r st u t, P r -> status r = Pending -> st <> Pending ->
     P (with_resolution r st u t)) ->
  forall cfg evs s,
    (forall k r, pending s !! k = Some r -> P r) ->
    forall k r, pending (run cfg s evs) !! k = Some r -> P r.
Proof.
  intros Pnew Pmsg Pres cfg evs. induction evs as [|ev evs IH]; intros s Hs k r H.
  - exact (Hs k r H).
  - simpl in H. apply (IH (step cfg s ev)) in H; [exact H|].
    clear H k r. intros k r' H.
    destruct (pending s !! k) as [r|] eqn:E.
    + destruct (step_record cfg s ev k r E) as (r'' & H'' & Hr).
      assert (r'' = r') as -> by congruence.
      destruct Hr as [->|(Hp & [(m & ->)|(st & u & t & Hst & ->)])].
      * exact (Hs k r E).
      * apply Pmsg; [exact (Hs k r E)|exact Hp].
      * apply Pres; [exact (Hs k r E)|exact Hp|exact Hst].
    + apply lookup_ge_None in E.
      destruct (step_new cfg s ev k r' H E) as (c & e & raw & m & _ & _ & _ & ->).
      apply Pmsg; [apply Pnew|reflexivity].
Qed.

(** ** X1: a stored request keeps its slot and what was submitted *)

Lemma sameSubmission_refl r : sameSubmission r r.
Proof. repeat split. Qed.

Lemma sameSubmission_trans r1 r2 r3 :
  sameSubmission r1 r2 -> sameSubmission r2 r3 -> sameSubmission r1 r3.
Proof.
  unfold sameSubmission. intros (A1 & A2 & A3 & A4 & A5 & A6 & A7)
    (B1 & B2 & B3 & B4 & B5 & B6 & B7). repeat split; congruence.
Qed.

(** X1.  No event removes or moves a stored request: after any sequence
    of events the request of a slot is still in that slot, with the id,
    requester, target, in-game name and creation time it was submitted
    with; and a request that is no longer pending is there unchanged in
    every field. *)
Theorem requests_keep_their_submission (cfg : Config) (evs : list Event) (s : State)
    (k : nat) (r : LinkRequest) :
  pending s !! k = Some r ->
  exists r', pending (run cfg s evs) !! k = Some r' /\
             sameSubmission r r' /\
             (status r <> Pending -> r' = r).
Proof.
  revert s r. induction evs as [|ev evs IH]; intros s r H; simpl.
  - exists r. split; [exact H|]. split; [apply sameSubmission_refl|reflexivity].
  - destruct (step_record cfg s ev k r H) as (r1 & H1 & Hr).
    destruct (IH _ _ H1) as (r2 & H2 & S2 & T2).
    exists r2. split; [exact H2|].
    destruct Hr as [->|(Hp & [(m & ->)|(st & u & t & Hst & ->)])].
    + split; assumption.
    + split; [|intros C; contradiction].
      eapply sameSubmission_trans; [|exact S2]. repeat split.
    + split; [|intros C; contradiction].
      eapply sameSubmission_trans; [|exact S2]. repeat split.
Qed.

Lemma requests_keep_their_submission_witness :
  exists r', pending Sample.submitted_again !! 0%nat = Some r' /\
             ign r' = "Notch" /\ id r' = "17-5".
Proof.
  destruct (requests_keep_their_submission Sample.cfg
              [InteractionCreate (ButtonInteraction
                 (Sample.click "link_accept_17-5" Sample.bob Sample.moderator) 20);
               InteractionCreate (ChatInputCommand
                 (Sample.link Sample.alice "Notch" None) (mkReadings 18 6 18))]
              Sample.submitted 0%nat
              (mkReq "17-5" "1" "alice#0001" "1" "alice#0001" "Notch" Pending 17
                     (Some "1000") None None) eq_refl)
    as (r' & H & (I1 & _ & _ & _ & _ & I6 & _) & _).
  exists r'. split; [exact H|]. split; [exact I6|exact I1].
Defined.

(** ** X2: who resolved a request, and when *)

(** X2.  If every stored request is either pending without resolver and
    resolution time or resolved with both, then so is every request of
    every state reached from there: a request gets its resolver and its
    resolution time exactly when it leaves [pending]. *)
Theorem resolution_is_recorded (cfg : Config) (evs : list Event) (s : State) :
  (forall k r, pending s !! k = Some r -> resolutionRecorded r) ->
  forall k r, pending (run cfg s evs) !! k = Some r -> resolutionRecorded r.
Proof.
  apply run_records_ind.
  - intros c e raw. split; reflexivity.
  - intros r m H Hp. unfold resolutionRecorded in *. simpl. exact H.
  - intros r st u t _ _ Hst. unfold resolutionRecorded. simpl.
    destruct st; [contradiction| |]; split; discriminate.
Qed.

Lemma resolution_is_recorded_witness :
  resolutionRecorded
    (mkReq "17-5" "1" "alice#0001" "1" "alice#0001" "Notch" Approved 17
           (Some "1000") (Some "2") (Some 20)).
Proof.
  apply (resolution_is_recorded Sample.cfg
    [InteractionCreate (ChatInputCommand
       (Sample.link Sample.alice "Notch" None) (mkReadings 17 5 17));
     InteractionCreate (ButtonInteraction
       (Sample.click "link_accept_17-5" Sample.bob Sample.moderator) 20)]
    Sample.fresh) with (k := 0%nat).
  - intros k r H. destruct k; discriminate H.
  - reflexivity.
Defined.

(** ** X3: stored names are trimmed *)

Lemma trimEnd_idem s : JS.trimEnd (JS.trimEnd s) = JS.trimEnd s.
Proof.
  induction s as [|c s IH]; simpl; [reflexivity|].
  destruct (JS.trimEnd s) as [|d t] eqn:E.
  - destruct (JS.isWhiteSpace c) eqn:W; simpl; [reflexivity|]. rewrite W. reflexivity.
  - simpl. simpl in IH. rewrite IH. reflexivity.
Qed.

Lemma trimStart_head s :
  JS.trimStart s = "" \/
  exists c r, JS.trimStart s = String c r /\ JS.isWhiteSpace c = false.
Proof.
  induction s as [|c s IH]; simpl; [left; reflexivity|].
  destruct (JS.isWhiteSpace c) eqn:W; [exact IH|]. right. eauto.
Qed.

Lemma trimEnd_head c r :
  JS.isWhiteSpace c = false -> exists t, JS.trimEnd (String c r) = String c t.
Proof.
  intros W. simpl. destruct (JS.trimEnd r); [rewrite W|]; eauto.
Qed.

Lemma trim_idem s : JS.trim (JS.trim s) = JS.trim s.
Proof.
  unfold JS.trim. destruct (trimStart_head s) as [->|(c & r & -> & W)];
    [reflexivity|].
  destruct (trimEnd_head c r W) as (t & E). rewrite E.
  simpl JS.trimStart. rewrite W. rewrite <- E. apply trimEnd_idem.
Qed.

(** ** Where the links of an account come from *)

Lemma In_lookup {A} (l : list A) x : In x l <-> exists k, l !! k = Some x.
Proof. rewrite <- list_elem_of_In. apply list_elem_of_lookup. Qed.

(** A request that is no longer pending is still stored after a step. *)
Lemma step_keeps_resolved cfg s ev r :
  In r (pending s) -> status r <> Pending -> In r (pending (step cfg s ev)).
Proof.
  intros [k H]%In_lookup T. apply In_lookup. exists k.
  destruct (step_record cfg s ev k r H) as (r' & H' & [->|(C & _)]);
    [exact H'|contradiction].
Qed.

Lemma linkTarget_with_resolution r st u t :
  linkTarget (with_resolution r st u t) = linkTarget r.
Proof. reflexivity. Qed.

(** What a click that does not resolve leaves: everything. *)
Lemma handleButton_unresolved cfg s b now :
  resolved (snd (handleButton cfg s b now)) = false ->
  fst (handleButton cfg s b now) = s.
Proof.
  intros Res. pose proof (handleButton_run cfg s b now) as R.
  destruct (handleButton cfg s b now) as [s' o]. simpl in *.
  inversion R; subst; try reflexivity.
  destruct (decision b); discriminate Res.
Qed.

(** What a click that resolves changes. *)
Lemma handleButton_resolved cfg s b now :
  resolved (snd (handleButton cfg s b now)) = true ->
  exists slot r,
    clickedRequest s b = Some (slot, r) /\ status r = Pending /\
    pending (fst (handleButton cfg s b now)) =
      <[slot := with_resolution r (decision b) (user_id (bc_user b)) now]> (pending s) /\
    accounts (fst (handleButton cfg s b now)) =
      (if decide (decision b = Approved) then upsertAccount (accounts s) r
       else accounts s) /\
    fs_writable (fst (handleButton cfg s b now)) = fs_writable s /\
    (fs_writable s = true ->
     PENDING_FILE (fst (handleButton cfg s b now))
     = Holds (pending_to_json (pending (fst (handleButton cfg s b now)))) /\
     ACCOUNTS_FILE (fst (handleButton cfg s b now)) =
       (if decide (decision b = Approved)
        then Holds (accounts_to_json (accounts (fst (handleButton cfg s b now))))
        else ACCOUNTS_FILE s)).
Proof.
  intros Res. pose proof (handleButton_run cfg s b now) as R.
  destruct (handleButton cfg s b now) as [s' o]. simpl in *.
  inversion R; subst; try discriminate Res.
  exists slot, r. auto 10.
Qed.

Lemma step_linksApproved cfg s ev : linksApproved s -> linksApproved (step cfg s ev).
Proof.
  intros Inv.
  assert (Old : forall k e0 x, accounts s !! k = Some e0 -> In x (igns e0) ->
            exists r1, In r1 (pending (step cfg s ev))
                       /\ status r1 = Approved /\ linkTarget r1 = k /\ ign r1 = x).
  { intros k e0 x He0 Hx0. destruct (Inv k e0 x He0 Hx0) as (r1 & Hr & St & Lt & Ig).
    exists r1. split; [|auto]. apply step_keeps_resolved; [exact Hr|].
    rewrite St. discriminate. }
  assert (Keep : accounts (step cfg s ev) = accounts s -> linksApproved (step cfg s ev)).
  { intros E k e x He Hx. rewrite E in He. apply (Old k e x He Hx). }
  destruct ev as [|[c e|b now|]].
  - apply Keep. apply handleReady_frame.
  - apply Keep. apply handleCommand_frame.
  - destruct (resolved (snd (handleButton cfg s b now))) eqn:Res.
    2:{ apply Keep. simpl. rewrite (handleButton_unresolved _ _ _ _ Res). reflexivity. }
    destruct (handleButton_resolved _ _ _ _ Res) as (slot & r & CR & _ & Pen & Acc & _).
    destruct (decide (decision b = Approved)) as [D|D]; [|apply Keep; exact Acc].
    intros k e x He Hx. simpl in He. rewrite Acc in He.
    assert (New : In (with_resolution r Approved (user_id (bc_user b)) now)
                     (pending (step cfg s (InteractionCreate (ButtonInteraction b now))))).
    { simpl. rewrite Pen, D. apply In_lookup. exists slot.
      unfold clickedRequest in CR. apply findRequest_Some in CR as (L & _).
      apply list_lookup_insert_eq. eapply lookup_lt_Some. exact L. }
    destruct (decide (k = linkTarget r)) as [->|Hne].
    + destruct (upsertAccount_target (accounts s) r) as (e' & He' & _ & Eq).
      assert (e' = e) as -> by congruence.
      rewrite Eq in Hx. simpl in Hx.
      destruct (accounts s !! linkTarget r) as [e0|] eqn:E0; simpl in Hx.
      * destruct (JS.includes (ign r) (igns e0)).
        -- apply (Old _ e0 x E0 Hx).
        -- apply in_app_or in Hx as [Hx|[<-|[]]]; [apply (Old _ e0 x E0 Hx)|].
           eexists. split; [exact New|]. auto.
      * destruct Hx as [<-|[]]. eexists. split; [exact New|]. auto.
    + rewrite upsertAccount_other in He by exact Hne. apply (Old k e x He Hx).
  - apply Keep. reflexivity.
Qed.

Lemma run_linksApproved cfg evs : forall s,
  linksApproved s -> linksApproved (run cfg s evs).
Proof.
  induction evs as [|ev evs IH]; intros s H; simpl; [exact H|].
  apply IH, step_linksApproved, H.
Qed.

Lemma linksApproved_start c n : linksApproved (emptyState c n).
Proof. intros k e x H. simpl in H. rewrite lookup_empty in H. discriminate H. Qed.

(** X3.  In every state reached from a first start, the in-game name of
    every stored request and every name linked to an account is trimmed:
    trimming it again gives the same string, so no stored name starts or
    ends with white space. *)
Theorem stored_names_are_trimmed (cfg : Config) (c : gmap string Channel) (n : Z)
    (evs : list Event) :
  (forall k r, pending (run cfg (emptyState c n) evs) !! k = Some r ->
     JS.trim (ign r) = ign r) /\
  (forall k e x, accounts (run cfg (emptyState c n) evs) !! k = Some e ->
     In x (igns e) -> JS.trim x = x).
Proof.
  assert (P : forall k r, pending (run cfg (emptyState c n) evs) !! k = Some r ->
                JS.trim (ign r) = ign r).
  { apply (run_records_ind (fun r => JS.trim (ign r) = ign r)).
    - intros ch e raw. simpl. apply trim_idem.
    - intros r m H _. exact H.
    - intros r st u t H _ _. exact H.
    - intros k r H. destruct k; discriminate H. }
  split; [exact P|].
  intros k e x He Hx.
  destruct (run_linksApproved cfg evs _ (linksApproved_start c n) k e x He Hx)
    as (r & [j Hj]%In_lookup & _ & _ & <-).
  apply (P j r Hj).
Qed.

Lemma stored_names_are_trimmed_witness :
  map ign (pending (fst (handleCommand Sample.cfg Sample.fresh
    (Sample.link Sample.alice "  Notch " None) (mkReadings 17 5 17)))) = ["Notch"] /\
  JS.trim "Notch" = "Notch".
Proof.
  split; [reflexivity|].
  destruct (stored_names_are_trimmed Sample.cfg {["900" := Sample.adminLogs]} 1000
    [InteractionCreate (ChatInputCommand
       (Sample.link Sample.alice "  Notch " None) (mkReadings 17 5 17))]) as [P _].
  apply (P 0%nat (mkReq "17-5" "1" "alice#0001" "1" "alice#0001" "Notch" Pending 17
                        (Some "1000") None None) eq_refl).
Defined.

(** ** X4: every link was approved *)

(** X4.  A name is linked to an account only by an approval: if every
    linked name of every account comes from a stored request that is
    approved and targets that account, with that name, then the same is
    true after any sequence of events.  In particular it is true in every
    state reached from a first start. *)
Theorem links_come_from_approvals (cfg : Config) (evs : list Event) (s : State) :
  linksApproved s ->
  forall k e x, accounts (run cfg s evs) !! k = Some e -> In x (igns e) ->
    exists r, In r (pending (run cfg s evs)) /\ status r = Approved /\
              linkTarget r = k /\ ign r = x.
Proof. intros H. apply (run_linksApproved cfg evs s H). Qed.

Lemma links_come_from_approvals_witness :
  exists r, In r (pending Sample.approved) /\ status r = Approved /\
            linkTarget r = "1" /\ ign r = "Notch".
Proof.
  apply (links_come_from_approvals Sample.cfg
    [InteractionCreate (ChatInputCommand
       (Sample.link Sample.alice "Notch" None) (mkReadings 17 5 17));
     InteractionCreate (ButtonInteraction
       (Sample.click "link_accept_17-5" Sample.bob Sample.moderator) 20)]
    Sample.fresh (linksApproved_start _ _) "1" (mkEntry "alice#0001" "1" ["Notch"]) "Notch").
  - reflexivity.
  - left. reflexivity.
Defined.

(** ** X5, X6: the entries of the account collection *)

Lemma upsertAccount_keyed m r : entriesKeyed m -> entriesKeyed (upsertAccount m r).
Proof.
  intros K k e. destruct (decide (k = linkTarget r)) as [->|Hne].
  - unfold upsertAccount. rewrite lookup_insert_eq. intros [= <-].
    destruct (m !! linkTarget r) as [e0|] eqn:E; simpl.
    + destruct (K _ _ E) as [Kid Kne].
      destruct (JS.includes (ign r) (igns e0)); simpl; [auto|].
      split; [exact Kid|]. destruct (igns e0); discriminate.
    + split; [reflexivity|discriminate].
  - rewrite upsertAccount_other by exact Hne. apply K.
Qed.

(** X5.  If every account entry sits under its own id and lists at least
    one name, then so does every entry after any sequence of events: an
    entry is created under the target's id, with the approved name as
    its first name. *)
Theorem entries_stay_keyed (cfg : Config) (evs : list Event) (s : State) :
  entriesKeyed (accounts s) -> entriesKeyed (accounts (run cfg s evs)).
Proof.
  revert s. induction evs as [|ev evs IH]; intros s K; simpl; [exact K|].
  apply IH. destruct (step_accounts cfg s ev) as [->|[r ->]];
    [exact K|apply upsertAccount_keyed, K].
Qed.

Lemma entries_stay_keyed_witness : entriesKeyed (accounts Sample.approved).
Proof.
  apply (entries_stay_keyed Sample.cfg
    [InteractionCreate (ChatInputCommand
       (Sample.link Sample.alice "Notch" None) (mkReadings 17 5 17));
     InteractionCreate (ButtonInteraction
       (Sample.click "link_accept_17-5" Sample.bob Sample.moderator) 20)]
    Sample.fresh).
  intros k e H. simpl in H. rewrite lookup_empty in H. discriminate H.
Defined.

Lemma upsertAccount_entry m r k e :
  m !! k = Some e ->
  exists e', upsertAccount m r !! k = Some e' /\
    username e' = username e /\ entry_id e' = entry_id e /\
    exists more, igns e' = igns e ++ more.
Proof.
  intros H. destruct (decide (k = linkTarget r)) as [->|Hne].
  - unfold upsertAccount. rewrite lookup_insert_eq, H. simpl.
    destruct (JS.includes (ign r) (igns e)).
    + exists e. repeat split. exists []. rewrite app_nil_r. reflexivity.
    + eexists. split; [reflexivity|]. simpl. repeat split. eauto.
  - rewrite upsertAccount_other by exact Hne. exists e. split; [exact H|].
    repeat split. exists []. rewrite app_nil_r. reflexivity.
Qed.

(** X6.  The bot never removes a link and never rewrites an entry: after
    any sequence of events an account entry is still there with the same
    user name and id, and its names are the old names, in the old order,
    followed by the names approved since. *)
Theorem entries_only_grow (cfg : Config) (evs : list Event) (s : State)
    (k : string) (e : AccountEntry) :
  accounts s !! k = Some e ->
  exists e', accounts (run cfg s evs) !! k = Some e' /\
    username e' = username e /\ entry_id e' = entry_id e /\
    exists more, igns e' = igns e ++ more.
Proof.
  revert s e. induction evs as [|ev evs IH]; intros s e H; simpl.
  - exists e. split; [exact H|]. repeat split. exists []. rewrite app_nil_r. reflexivity.
  - assert (exists e1, accounts (step cfg s ev) !! k = Some e1 /\
              username e1 = username e /\ entry_id e1 = entry_id e /\
              exists more, igns e1 = igns e ++ more) as (e1 & H1 & U1 & I1 & m1 & G1).
    { destruct (step_accounts cfg s ev) as [->|[r ->]].
      - exists e. split; [exact H|]. repeat split. exists [].
        rewrite app_nil_r. reflexivity.
      - apply upsertAccount_entry, H. }
    destruct (IH _ _ H1) as (e2 & H2 & U2 & I2 & m2 & G2).
    exists e2. split; [exact H2|]. split; [congruence|]. split; [congruence|].
    exists (m1 ++ m2). rewrite G2, G1, app_assoc. reflexivity.
Qed.

Lemma entries_only_grow_witness :
  exists e', accounts (fst Sample.both_hold_notch) !! "2" = Some e' /\
             username e' = "bob#0002" /\
             exists more, igns e' = ["Notch"] ++ more.
Proof.
  destruct (entries_only_grow Sample.cfg
    [InteractionCreate (ButtonInteraction
       (Sample.click "link_accept_30-8" Sample.carol Sample.moderator) 40)]
    Sample.bob_holds_notch "2" (mkEntry "bob#0002" "2" ["Notch"]) eq_refl)
    as (e' & H & U & _ & M).
  exists e'. split; [exact H|]. split; [exact U|exact M].
Defined.

(** ** X7: what a resolution writes *)

(** X7.  A click that resolves a request rewrites one record only: the
    first stored request with the clicked id, which was pending, takes
    the decision of the button as its status, the clicking user as
    [resolvedBy] and the time of the click as [resolvedAt], and keeps
    its message id and everything it was submitted with; every other
    slot and the length of the collection are unchanged.  A rejection
    leaves the account collection and [accounts.json] as they were. *)
Theorem resolution_rewrites_one_record (cfg : Config) (s : State) (b : ButtonClick)
    (now : Z) :
  resolved (snd (handleButton cfg s b now)) = true ->
  exists slot r r',
    clickedRequest s b = Some (slot, r) /\ status r = Pending /\
    pending (fst (handleButton cfg s b now)) !! slot = Some r' /\
    status r' = decision b /\ decision b <> Pending /\
    resolvedBy r' = Some (user_id (bc_user b)) /\ resolvedAt r' = Some now /\
    messageId r' = messageId r /\ sameSubmission r r' /\
    snd (handleButton cfg s b now) = decisionReply (decision b) r /\
    (forall k, k <> slot ->
       pending (fst (handleButton cfg s b now)) !! k = pending s !! k) /\
    length (pending (fst (handleButton cfg s b now))) = length (pending s) /\
    (decision b = Rejected ->
     accounts (fst (handleButton cfg s b now)) = accounts s /\
     (fs_writable s = true ->
      ACCOUNTS_FILE (fst (handleButton cfg s b now)) = ACCOUNTS_FILE s)).
Proof.
  intros Res.
  destruct (handleButton_resolved _ _ _ _ Res) as (slot & r & CR & SP & Pen & Acc & _ & F).
  destruct (resolved_inv _ _ _ _ Res) as (slot' & r0 & _ & CR' & _ & _ & Rep & _).
  assert (slot' = slot /\ r0 = r) as [-> ->] by (split; congruence).
  exists slot, r, (with_resolution r (decision b) (user_id (bc_user b)) now).
  split; [exact CR|]. split; [exact SP|]. rewrite Pen.
  unfold clickedRequest in CR. apply findRequest_Some in CR as (L & _).
  split; [apply list_lookup_insert_eq; eapply lookup_lt_Some; exact L|].
  split; [reflexivity|]. split; [apply decision_terminal|].
  split; [reflexivity|]. split; [reflexivity|]. split; [reflexivity|].
  split; [repeat split|]. split; [exact Rep|].
  split; [intros k Hk; apply list_lookup_insert_ne; congruence|].
  split; [apply length_insert|].
  intros D. rewrite Acc. rewrite D in *.
  split; [reflexivity|]. intros W. destruct (F W) as [_ FA]. exact FA.
Qed.

Lemma resolution_rewrites_one_record_witness :
  exists r', pending Sample.approved !! 0%nat = Some r' /\
             status r' = Approved /\ resolvedBy r' = Some "2" /\
             resolvedAt r' = Some 20 /\ messageId r' = Some "1000".
Proof.
  destruct (resolution_rewrites_one_record Sample.cfg Sample.submitted
              (Sample.click "link_accept_17-5" Sample.bob Sample.moderator) 20 eq_refl)
    as (slot & r & r' & CR & _ & H & St & _ & By & At & Mid & _).
  injection CR as <- <-. exists r'. auto.
Defined.

(** ** X8: a button for a request that is not stored *)

(** X8.  A click on a link button whose id no stored request has is
    answered "Request not found (may have expired)." and changes
    nothing, whoever clicks. *)
Theorem unknown_request_not_found (cfg : Config) (s : State) (b : ButtonClick)
    (now : Z) :
  isLinkButton (customId b) = true ->
  (forall r, In r (pending s) -> Some (id r) <> snd (parseCustomId (customId b))) ->
  handleButton cfg s b now = (s, NotFound) /\
  reply_content NotFound = Some "Request not found (may have expired).".
Proof.
  intros LB None_. split; [|reflexivity].
  assert (CR : clickedRequest s b = None).
  { unfold clickedRequest. apply findRequest_None. intros i x Hx.
    destruct (id_is _ x) eqn:E; [|reflexivity]. exfalso.
    apply (None_ x); [apply In_lookup; eauto|].
    destruct (snd (parseCustomId (customId b))) as [y|]; [|discriminate E].
    apply id_is_Some in E. congruence. }
  pose proof (handleButton_run cfg s b now) as R.
  destruct (handleButton cfg s b now) as [s' o]. simpl in R.
  inversion R; subst; congruence.
Qed.

Lemma unknown_request_not_found_witness :
  handleButton Sample.cfg Sample.submitted
    (Sample.click "link_accept_99-1" Sample.bob Sample.moderator) 20
  = (Sample.submitted, NotFound).
Proof.
  apply (unknown_request_not_found Sample.cfg Sample.submitted
           (Sample.click "link_accept_99-1" Sample.bob Sample.moderator) 20 eq_refl).
  intros r [<-|[]]. simpl. discriminate.
Defined.

(** ** X9: ids with an underscore *)

Lemma split_segments_clean s : forall seg,
  In seg (JS.split "_" s) -> allChars notUnderscore seg = true.
Proof.
  induction s as [|c s IH]; intros seg; simpl.
  - intros [<-|[]]. reflexivity.
  - destruct (Ascii.eqb c "_") eqn:E.
    + intros [<-|H]; [reflexivity|apply IH, H].
    + destruct (JS.split "_" s) as [|h t].
      * intros [<-|[]]. simpl. unfold notUnderscore. rewrite E. reflexivity.
      * intros [<-|H].
        -- simpl. unfold notUnderscore at 1. rewrite E. simpl.
           apply IH. left. reflexivity.
        -- apply IH. right. exact H.
Qed.

(** X9.  The request a click works on never has an underscore in its id:
    the handler takes the id from the third segment of the button id
    split on underscores.  So a stored request whose id contains an
    underscore cannot be reached by any button, its own included. *)
Theorem clicked_id_has_no_underscore (s : State) (b : ButtonClick) (slot : nat)
    (r : LinkRequest) :
  clickedRequest s b = Some (slot, r) ->
  allChars notUnderscore (id r) = true.
Proof.
  unfold clickedRequest, parseCustomId. simpl snd. intros CR.
  apply findRequest_Some in CR as (_ & Hid & _).
  destruct (JS.split "_" (customId b) !! 2%nat) as [x|] eqn:E; [|discriminate Hid].
  apply id_is_Some in Hid. rewrite Hid.
  apply (split_segments_clean (customId b)).
  apply list_elem_of_In. eapply list_elem_of_lookup_2. exact E.
Qed.

Lemma clicked_id_has_no_underscore_witness :
  allChars notUnderscore "17-5" = true.
Proof.
  apply (clicked_id_has_no_underscore Sample.submitted
           (Sample.click "link_accept_17-5_extra" Sample.bob Sample.moderator) 0%nat
           (mkReq "17-5" "1" "alice#0001" "1" "alice#0001" "Notch" Pending 17
                  (Some "1000") None None) eq_refl).
Defined.

(** ** X10, X11: the message of a resolved request *)

(** A resolving click ends with the [try] block that edits the message,
    run on a state with the channels the click found. *)
Lemma handleButton_resolved_message cfg s b now :
  resolved (snd (handleButton cfg s b now)) = true ->
  exists slot r s2,
    clickedRequest s b = Some (slot, r) /\
    channels s2 = channels s /\ snowflake s2 = snowflake s /\
    fst (handleButton cfg s b now)
    = updateAdminMessage cfg s2
        (with_resolution r (decision b) (user_id (bc_user b)) now) (decision b).
Proof.
  unfold handleButton, clickedRequest, decision.
  destruct (parseCustomId (customId b)) as [action rid] eqn:EP.
  destruct (negb _ && negb _)%bool; [discriminate|]. cbn [fst snd].
  destruct (findRequest (pending s) rid) as [[slot r]|]; [|discriminate].
  destruct (negb (bool_decide (status r = Pending))); [discriminate|].
  destruct (negb (hasAdmin cfg (resolverMember b))); [discriminate|].
  intros _. exists slot, r.
  destruct (isAccept action); cbn [fst snd].
  - eexists. split; [reflexivity|]. split; [|split; [|reflexivity]].
    + destruct (writeJson_pending_proj
                  (with_pending
                     (writeJson_accounts (with_accounts s (upsertAccount (accounts s) r)))
                     (<[slot := with_resolution r Approved (user_id (bc_user b)) now]>
                        (pending (writeJson_accounts
                                    (with_accounts s (upsertAccount (accounts s) r)))))))
        as (_ & _ & _ & _ & C & _). rewrite C. simpl.
      destruct (writeJson_accounts_proj (with_accounts s (upsertAccount (accounts s) r)))
        as (_ & _ & _ & _ & C' & _). rewrite C'. reflexivity.
    + destruct (writeJson_pending_proj
                  (with_pending
                     (writeJson_accounts (with_accounts s (upsertAccount (accounts s) r)))
                     (<[slot := with_resolution r Approved (user_id (bc_user b)) now]>
                        (pending (writeJson_accounts
                                    (with_accounts s (upsertAccount (accounts s) r)))))))
        as (_ & _ & _ & _ & _ & N). rewrite N. simpl.
      destruct (writeJson_accounts_proj (with_accounts s (upsertAccount (accounts s) r)))
        as (_ & _ & _ & _ & _ & N'). rewrite N'. reflexivity.
  - eexists. split; [reflexivity|]. split; [|split; [|reflexivity]].
    + destruct (writeJson_pending_proj
                  (with_pending s
                     (<[slot := with_resolution r Rejected (user_id (bc_user b)) now]>
                        (pending s)))) as (_ & _ & _ & _ & C & _).
      rewrite C. reflexivity.
    + destruct (writeJson_pending_proj
                  (with_pending s
                     (<[slot := with_resolution r Rejected (user_id (bc_user b)) now]>
                        (pending s)))) as (_ & _ & _ & _ & _ & N).
      rewrite N. reflexivity.
Qed.

Lemma fetchMessage_Some ch mid i m :
  fetchMessage ch mid = Some (i, m) ->
  messages ch !! i = Some m /\ msg_id m = mid.
Proof.
  unfold fetchMessage.
  destruct (JS.findIndex _ (messages ch)) as [k|] eqn:E; [|discriminate].
  apply findIndex_Some in E as [(x & Hx & Px) _]. rewrite Hx. simpl.
  intros [= <- <-]. split; [exact Hx|]. apply String.eqb_eq. exact Px.
Qed.

(** The edit keeps the ids of the messages of every channel. *)
Lemma updateAdminMessage_ids cfg s req st c :
  (map msg_id ∘ messages) <$> channels (updateAdminMessage cfg s req st) !! c
  = (map msg_id ∘ messages) <$> channels s !! c.
Proof.
  unfold updateAdminMessage.
  destruct (ADMIN_CHANNEL_ID cfg) as [cid|]; [|reflexivity].
  destruct (channels s !! cid) as [ch|] eqn:Ec; [|reflexivity].
  destruct (isTextBased ch); [|reflexivity].
  destruct (messageId req) as [mid|]; [|reflexivity].
  cbv zeta. destruct (createEmbedForReq req st) as [e|]; [|reflexivity].
  destruct (fetchMessage ch mid) as [[i m]|] eqn:Ef; [|reflexivity].
  apply fetchMessage_Some in Ef as [Hi _].
  unfold editMessage. simpl. destruct (decide (c = cid)) as [->|Hne].
  - rewrite lookup_insert_eq, Ec. simpl. f_equal.
    change (map msg_id) with (fmap (M:=list) msg_id).
    rewrite list_fmap_insert. simpl. apply list_insert_id.
    rewrite list_lookup_fmap, Hi. reflexivity.
  - rewrite lookup_insert_ne by congruence. reflexivity.
Qed.

(** The embed of a decision can be built when the embed of the pending
    request could, as it must have been for the bot to post the message,
    and the resolver's id has at most 1007 characters (a Discord id has
    fewer than 20). *)
Lemma decision_embed_fits r st u t :
  canRender r = true ->
  (String.length u <= 1007)%nat ->
  createEmbedForReq (with_resolution r st u t) st
  = Some (embedFor (with_resolution r st u t) st).
Proof.
  intros CR Hu. unfold createEmbedForReq.
  assert (embedFits (with_resolution r st u t) st = true) as ->; [|reflexivity].
  unfold canRender, embedFits in CR. rewrite andb_true_r in CR.
  unfold embedFits.
  change (requesterValue (with_resolution r st u t)) with (requesterValue r).
  change (targetValue (with_resolution r st u t)) with (targetValue r).
  change (ignValue (with_resolution r st u t)) with (ignValue r).
  change (footerText (with_resolution r st u t)) with (footerText r).
  rewrite CR. cbn [andb].
  assert (F : fieldValueFits (decisionUnits u) = true).
  { unfold fieldValueFits, decisionUnits. apply andb_true_iff.
    split; apply Nat.leb_le; lia. }
  destruct st; [reflexivity| |]; cbn [resolvedBy with_resolution];
    destruct (JS.truthy_opt (Some u)); try reflexivity; exact F.
Qed.

(** X10.  After a click has resolved a request, the message of the
    request shows the decision with both buttons disabled: when the
    admin channel is configured, fetchable and text based and still has
    the message the request refers to, that message (and no other) is
    replaced, under the same id, by the embed of the resolved request and
    the disabled action row.  The embed of the decision is built whenever
    that of the pending request could be built and the resolver's id has
    at most 1007 characters.  When the channel no longer has the
    message, or the builder refuses the embed, no channel changes, and
    the resolution stands all the same. *)
Theorem decision_shown_on_message (cfg : Config) (s : State) (b : ButtonClick)
    (now : Z) (cid : string) (ch : Channel) (slot : nat) (r : LinkRequest)
    (mid : string) :
  resolved (snd (handleButton cfg s b now)) = true ->
  clickedRequest s b = Some (slot, r) ->
  ADMIN_CHANNEL_ID cfg = Some cid ->
  channels s !! cid = Some ch ->
  isTextBased ch = true ->
  messageId r = Some mid ->
  let r' := with_resolution r (decision b) (user_id (bc_user b)) now in
  (forall i m e, fetchMessage ch mid = Some (i, m) ->
     createEmbedForReq r' (decision b) = Some e ->
     e = embedFor r' (decision b) /\
     channels (fst (handleButton cfg s b now)) =
       <[cid := with_messages ch
                  (<[i := mkMessage mid [e] [buttonRow (id r) true]]> (messages ch))]>
         (channels s) /\
     Forall (fun btn => btn_disabled btn = true) (buttonRow (id r) true)) /\
  (canRender r = true -> (String.length (user_id (bc_user b)) <= 1007)%nat ->
   createEmbedForReq r' (decision b) = Some (embedFor r' (decision b))) /\
  (fetchMessage ch mid = None \/ createEmbedForReq r' (decision b) = None ->
   channels (fst (handleButton cfg s b now)) = channels s) /\
  status <$> pending (fst (handleButton cfg s b now)) !! slot = Some (decision b).
Proof.
  intros Res CR Hcfg Hc Ht Hm r'.
  destruct (handleButton_resolved_message _ _ _ _ Res)
    as (slot' & r0 & s2 & CR' & C2 & _ & E).
  assert (slot' = slot /\ r0 = r) as [-> ->] by (split; congruence).
  fold r' in E.
  split; [|split; [|split]].
  - intros i m e F B. rewrite E. unfold updateAdminMessage.
    rewrite Hcfg, C2, Hc, Ht. simpl messageId. rewrite Hm. cbv zeta. rewrite B, F.
    unfold editMessage. simpl.
    destruct (fetchMessage_Some _ _ _ _ F) as [_ ->].
    rewrite C2. split; [|split; [reflexivity|repeat constructor]].
    unfold createEmbedForReq in B. destruct (embedFits r' (decision b)); congruence.
  - intros Can Hu. apply decision_embed_fits; assumption.
  - intros F. rewrite E. unfold updateAdminMessage.
    rewrite Hcfg, C2, Hc, Ht. simpl messageId. rewrite Hm. cbv zeta.
    destruct (createEmbedForReq r' (decision b)) as [e|]; [|exact C2].
    destruct F as [F|F]; [rewrite F; exact C2|discriminate F].
  - destruct (handleButton_resolved _ _ _ _ Res) as (k & q & CR2 & _ & Pen & _).
    assert (k = slot /\ q = r) as [-> ->] by (split; congruence).
    rewrite Pen. unfold clickedRequest in CR.
    apply findRequest_Some in CR as (L & _).
    rewrite list_lookup_insert_eq by (eapply lookup_lt_Some; exact L). reflexivity.
Qed.

Lemma decision_shown_on_message_witness :
  (messages <$> channels Sample.approved !! "900")
  = Some [mkMessage "1000"
            [embedFor
               (mkReq "17-5" "1" "alice#0001" "1" "alice#0001" "Notch" Approved 17
                      (Some "1000") (Some "2") (Some 20)) Approved]
            [buttonRow "17-5" true]].
Proof.
  destruct (decision_shown_on_message Sample.cfg Sample.submitted
              (Sample.click "link_accept_17-5" Sample.bob Sample.moderator) 20
              "900"
              (mkChannel true true
                 [render (mkReq "17-5" "1" "alice#0001" "1" "alice#0001" "Notch"
                                Pending 17 None None None) "1000"])
              0%nat
              (mkReq "17-5" "1" "alice#0001" "1" "alice#0001" "Notch" Pending 17
                     (Some "1000") None None)
              "1000" eq_refl eq_refl eq_refl eq_refl eq_refl eq_refl)
    as (Edit & Built & _).
  destruct (Edit 0%nat _ _ eq_refl (Built eq_refl ltac:(simpl; lia))) as (_ & E & _).
  unfold Sample.approved. rewrite E. reflexivity.
Defined.

(** X11.  A click never posts and never deletes a message: whatever the
    click and its outcome, every channel has the same message ids in the
    same order afterwards, and the platform has issued no new id. *)
Theorem click_posts_nothing (cfg : Config) (s : State) (b : ButtonClick) (now : Z)
    (c : string) :
  (map msg_id ∘ messages) <$> channels (fst (handleButton cfg s b now)) !! c
  = (map msg_id ∘ messages) <$> channels s !! c /\
  snowflake (fst (handleButton cfg s b now)) = snowflake s.
Proof.
  destruct (resolved (snd (handleButton cfg s b now))) eqn:Res.
  - destruct (handleButton_resolved_message _ _ _ _ Res)
      as (slot & r & s2 & _ & C2 & N2 & ->).
    rewrite updateAdminMessage_ids, C2.
    destruct (updateAdminMessage_proj cfg s2
                (with_resolution r (decision b) (user_id (bc_user b)) now) (decision b))
      as (_ & _ & _ & _ & _ & N).
    rewrite N, N2. split; reflexivity.
  - rewrite (handleButton_unresolved _ _ _ _ Res). split; reflexivity.
Qed.

(** ** X12: the outcomes of a submission *)

Lemma length_append (a b : string) :
  String.length (a +:+ b) = (String.length a + String.length b)%nat.
Proof. induction a as [|c a IH]; simpl; [reflexivity|]. rewrite IH. reflexivity. Qed.

(** The builder refuses the [IGN] field of a name of 1023 or more
    characters: with its two backquotes the value has more than 1024. *)
Lemma long_ign_unrenderable r :
  (1023 <= String.length (ign r))%nat -> canRender r = false.
Proof.
  intros H. unfold canRender, embedFits.
  assert (fieldValueFits (String.length (ignValue r)) = false) as ->.
  { unfold fieldValueFits, ignValue. rewrite !length_append.
    apply andb_false_iff. right. apply Nat.leb_gt.
    change (String.length "`") with 1%nat. lia. }
  rewrite !andb_false_r. reflexivity.
Qed.

(** X12.  A [/link] command with an [ign] always stores its request; what
    it answers depends on the admin channel and on whether the embed of
    the request can be built.  Without a configured channel it answers
    that AdminLogs is not configured; with a channel that cannot be
    fetched or is not text based, that the channel was not found; when
    the builder refuses the embed (as it does for every name of 1023 or
    more characters) or posting fails, with the generic error: in these
    cases the request is stored without a message id and no channel
    changes.  Otherwise it posts one message, the rendering of the new
    request with both buttons active, at the end of the admin channel,
    stores the request with the id of that message, and answers that the
    request was submitted. *)
Theorem submission_outcomes (cfg : Config) (s : State) (c : ChatInput) (e : Readings)
    (raw : string) :
  commandName c = "link" ->
  opt_ign c = Some raw ->
  let req := newRequest c e (JS.trim raw) in
  let res := handleCommand cfg s c e in
  let unposted (o : Outcome) :=
    snd res = o /\ pending (fst res) = pending s ++ [req] /\
    channels (fst res) = channels s /\ snowflake (fst res) = snowflake s in
  (JS.truthy_opt (ADMIN_CHANNEL_ID cfg) = false -> unposted AdminLogsNotConfigured) /\
  (forall cid, ADMIN_CHANNEL_ID cfg = Some cid -> JS.truthy cid = true ->
     (channels s !! cid = None -> unposted AdminChannelNotFound) /\
     (forall ch, channels s !! cid = Some ch ->
        (isTextBased ch = false -> unposted AdminChannelNotFound) /\
        (isTextBased ch = true -> canRender req = false -> unposted HandlerError) /\
        (isTextBased ch = true -> canSend ch = false -> unposted HandlerError) /\
        (isTextBased ch = true -> canRender req = true -> canSend ch = true ->
           snd res = Submitted /\
           pending (fst res)
           = pending s ++ [with_messageId req (Some (JS.toString (snowflake s)))] /\
           channels (fst res)
           = <[cid := with_messages ch
                        (messages ch ++ [render req (JS.toString (snowflake s))])]>
               (channels s) /\
           snowflake (fst res) = snowflake s + 1))) /\
  ((1023 <= String.length (JS.trim raw))%nat -> canRender req = false).
Proof.
  intros Hn Hi req res unposted. unfold unposted, res. clear unposted res.
  assert (Long : (1023 <= String.length (JS.trim raw))%nat -> canRender req = false)
    by (intros L; apply long_ign_unrenderable; exact L).
  unfold handleCommand. rewrite Hn, Hi. simpl String.eqb. cbn [negb].
  fold req.
  set (s1 := writeJson_pending (with_pending s (pending s ++ [req]))).
  destruct (writeJson_pending_proj (with_pending s (pending s ++ [req])))
    as (P1 & _ & _ & _ & C1 & N1). fold s1 in P1, C1, N1. simpl in P1, C1, N1.
  split; [|split; [|exact Long]].
  - intros T. destruct (ADMIN_CHANNEL_ID cfg) as [cid|]; simpl in T.
    + rewrite T. simpl. auto.
    + simpl. auto.
  - intros cid Hc T. rewrite Hc, T. cbn [negb]. rewrite C1. split.
    + intros E. rewrite E. simpl. auto.
    + intros ch E. rewrite E. unfold createEmbedForReq. fold (canRender req).
      split; [|split; [|split]].
      * intros TB. rewrite TB. simpl. auto.
      * intros TB CR. rewrite TB, CR. simpl. auto.
      * intros TB S. rewrite TB. cbn [negb].
        destruct (canRender req); [|simpl; auto].
        unfold send. rewrite C1, E, S. simpl. auto.
      * intros TB CR S. rewrite TB, CR. cbn [negb].
        assert (E1 : channels s1 !! cid = Some ch) by (rewrite C1; exact E).
        rewrite (send_ok s1 cid ch _ _ E1 S). cbn [fst snd].
        match goal with |- context [writeJson_pending ?x] =>
          destruct (writeJson_pending_proj x) as (P3 & _ & _ & _ & C3 & N3) end.
        rewrite P3, C3, N3. simpl. rewrite P1, C1, N1.
        split; [reflexivity|]. split; [|split; reflexivity].
        rewrite insert_app_r_alt by lia. rewrite Nat.sub_diag. reflexivity.
Qed.

Lemma submission_outcomes_witness :
  snd (handleCommand Sample.cfg_no_channel Sample.fresh
         (Sample.link Sample.alice "Notch" None) (mkReadings 17 5 17))
  = AdminLogsNotConfigured /\
  map messageId (pending Sample.submitted) = [Some "1000"] /\
  snd Sample.long_submission = HandlerError.
Proof.
  split; [|split].
  - destruct (submission_outcomes Sample.cfg_no_channel Sample.fresh
                (Sample.link Sample.alice "Notch" None) (mkReadings 17 5 17)
                "Notch" eq_refl eq_refl) as [A _].
    destruct (A eq_refl) as [O _]. exact O.
  - destruct (submission_outcomes Sample.cfg Sample.fresh
                (Sample.link Sample.alice "Notch" None) (mkReadings 17 5 17)
                "Notch" eq_refl eq_refl) as (_ & B & _).
    destruct (B "900" eq_refl eq_refl) as [_ B'].
    destruct (B' Sample.adminLogs eq_refl) as (_ & _ & _ & OK).
    destruct (OK eq_refl eq_refl eq_refl) as (_ & P & _).
    unfold Sample.submitted. rewrite P. reflexivity.
  - destruct (submission_outcomes Sample.cfg Sample.fresh
                (Sample.link Sample.alice Sample.long_ign None) (mkReadings 17 5 17)
                Sample.long_ign eq_refl eq_refl) as (_ & B & Long).
    destruct (B "900" eq_refl eq_refl) as [_ B'].
    destruct (B' Sample.adminLogs eq_refl) as (_ & Refused & _).
    destruct (Refused eq_refl) as [O _]; [|exact O].
    apply Long. vm_compute. repeat constructor.
Defined.

(** ** X13: who may resolve *)

(** X13.  A resolver is let through exactly in two cases: admin roles are
    configured and the resolver's role cache holds one of them (its
    permissions do not count then, not even Administrator); or no admin
    role is configured and the resolver's permissions have the
    Administrator bit (bit 3) or the ManageGuild bit (bit 5). *)
Theorem authorized_iff (cfg : Config) (m : option Member) :
  hasAdmin cfg m = true <->
  (ADMIN_ROLE_IDS cfg <> [] /\
   exists mb roles r, m = Some mb /\ roles_cache mb = Some roles /\
                      In r roles /\ In r (ADMIN_ROLE_IDS cfg))
  \/
  (ADMIN_ROLE_IDS cfg = [] /\
   exists mb bits, m = Some mb /\ permissions mb = Some bits /\
                   (Z.testbit bits 3 = true \/ Z.testbit bits 5 = true)).
Proof.
  unfold hasAdmin.
  destruct (ADMIN_ROLE_IDS cfg) as [|a ids] eqn:Eids; cbn [length Nat.ltb Nat.leb].
  - split.
    + intros H. right. split; [reflexivity|].
      destruct m as [mb|]; [|discriminate H].
      destruct (permissions mb) as [bits|] eqn:Ep; [|discriminate H].
      rewrite has_spec in H. apply orb_true_iff in H. eauto.
    + intros [[C _]|(_ & mb & bits & -> & Ep & Hb)]; [contradiction|].
      rewrite Ep, has_spec. apply orb_true_iff. exact Hb.
  - split.
    + intros H. left. split; [discriminate|].
      destruct m as [mb|]; [|discriminate H].
      destruct (roles_cache mb) as [roles|] eqn:Er; [|discriminate H].
      apply existsb_exists in H as (r & Hr & Hin). apply includes_In in Hin.
      exists mb, roles, r. auto.
    + intros [(_ & mb & roles & r & -> & Er & Hr & Hin)|[C _]]; [|discriminate C].
      rewrite Er. apply existsb_exists. exists r. split; [exact Hr|].
      apply includes_In. exact Hin.
Qed.

(** ** X14: memory and files *)

Lemma load_pending_written l : load_pending (Holds (pending_to_json l)) = pending_to_json l.
Proof. reflexivity. Qed.

Lemma load_accounts_written m :
  load_accounts (Holds (accounts_to_json m)) = accounts_to_json m.
Proof. reflexivity. Qed.

Lemma restoreOne_sync cid s slot s' :
  restoreOne cid s slot = Some s' -> fs_writable s = true ->
  s' = s \/ PENDING_FILE s' = Holds (pending_to_json (pending s')).
Proof.
  unfold restoreOne. destruct (pending s !! slot) as [req|].
  2:{ intros [= <-]. auto. }
  match goal with |- context [match ?x with Some _ => Some s | None => _ end] =>
    destruct x end.
  { intros [= <-]. auto. }
  destruct (createEmbedForReq req Pending) as [embed|]; [|discriminate].
  destruct (send s cid _ _) as [[s1 mid]|] eqn:Es; [|discriminate].
  apply send_Some in Es as (ch & _ & _ & _ & ->). intros [= <-] W.
  right. apply writeJson_pending_synced. exact W.
Qed.

Lemma restoreAll_sync cid slots : forall s,
  fs_writable s = true ->
  restoreAll cid s slots = s \/
  PENDING_FILE (restoreAll cid s slots)
  = Holds (pending_to_json (pending (restoreAll cid s slots))).
Proof.
  induction slots as [|slot rest IH]; intros s W; simpl; [auto|].
  destruct (restoreOne cid s slot) as [s1|] eqn:E; [|auto].
  destruct (restoreOne_frame _ _ _ _ E) as (_ & _ & W1 & _).
  rewrite W in W1.
  destruct (IH s1 W1) as [ -> |S]; [|auto].
  destruct (restoreOne_sync _ _ _ _ E W) as [ -> |S]; auto.
Qed.

Lemma step_inSync cfg s ev :
  fs_writable s = true -> inSync s ->
  fs_writable (step cfg s ev) = true /\ inSync (step cfg s ev).
Proof.
  intros W [SP SA]. destruct ev as [|[c e|b now|]]; simpl.
  - destruct (handleReady_frame cfg s) as (A & F & W' & _).
    split; [congruence|]. split; [|rewrite A, F; exact SA].
    unfold handleReady. destruct (ADMIN_CHANNEL_ID cfg) as [cid|]; [|exact SP].
    destruct (JS.truthy cid); simpl; [|exact SP].
    destruct (channels s !! cid) as [ch|]; [|exact SP].
    destruct (isTextBased ch); simpl; [|exact SP].
    destruct (restoreAll_sync cid (pendingSlots 0 (pending s)) s W) as [ -> | -> ];
      [exact SP|reflexivity].
  - destruct (String.eqb_spec (commandName c) "link") as [Hn|Hn].
    + destruct (opt_ign c) as [raw|] eqn:Hi.
      * destruct (handleCommand_link cfg s c e raw Hn Hi) as (_ & A & F & W' & P).
        simpl in *. split; [congruence|]. split; [rewrite (P W); reflexivity|].
        rewrite A, F. exact SA.
      * unfold handleCommand. rewrite Hn, Hi. simpl. split; [exact W|split; assumption].
    + rewrite handleCommand_other by exact Hn. simpl. split; [exact W|split; assumption].
  - destruct (resolved (snd (handleButton cfg s b now))) eqn:Res.
    + destruct (handleButton_resolved _ _ _ _ Res) as (slot & r & _ & _ & _ & Acc & W' & F).
      destruct (F W) as [FP FA]. split; [congruence|].
      split; [rewrite FP; reflexivity|].
      rewrite FA. destruct (decide (decision b = Approved)); [reflexivity|].
      rewrite Acc. exact SA.
    + rewrite (handleButton_unresolved _ _ _ _ Res). split; [exact W|split; assumption].
  - split; [exact W|split; assumption].
Qed.

(** X14.  While the files can be written, memory and files agree after
    every event: if loading [pending.json] and [accounts.json] gives the
    two collections the program holds, it still does after any sequence
    of events.  At a first start the files are absent and the collections
    are empty, so they agree; hence after any run from a first start a
    restart would load exactly the collections in memory. *)
Theorem files_follow_memory (cfg : Config) (evs : list Event) (s : State) :
  fs_writable s = true ->
  inSync s ->
  inSync (run cfg s evs) /\
  (forall c n, inSync (run cfg (emptyState c n) evs)).
Proof.
  assert (G : forall evs s, fs_writable s = true -> inSync s -> inSync (run cfg s evs)).
  { clear. intros evs. induction evs as [|ev evs IH]; intros s W S; simpl; [exact S|].
    destruct (step_inSync cfg s ev W S) as [W' S']. apply IH; assumption. }
  intros W S. split; [apply G; assumption|].
  intros c n. apply G; [reflexivity|]. split; [reflexivity|].
  unfold accounts_to_json. simpl. rewrite map_to_list_empty. reflexivity.
Qed.

Lemma files_follow_memory_witness :
  load_pending (PENDING_FILE Sample.approved) = pending_to_json (pending Sample.approved).
Proof.
  destruct (files_follow_memory Sample.cfg
    [InteractionCreate (ButtonInteraction
       (Sample.click "link_accept_17-5" Sample.bob Sample.moderator) 20)]
    Sample.submitted eq_refl) as [[P _] _].
  - split; [reflexivity|]. reflexivity.
  - exact P.
Defined.

(** ** X15: starting twice *)

Lemma toString_truthy n : JS.truthy (JS.toString n) = true.
Proof.
  assert (D : forall d, JS.truthy (NilZero.string_of_uint d) = true)
    by (intros d; destruct d; reflexivity).
  unfold JS.toString. destruct n; simpl; [reflexivity|apply D|reflexivity].
Qed.

Lemma isLive_app_l ch ms mid :
  isLive ch mid = true -> isLive (with_messages ch (messages ch ++ ms)) mid = true.
Proof.
  rewrite !isLive_existsb. simpl. rewrite existsb_app. intros ->. reflexivity.
Qed.

Lemma isLive_app_r ch ms m :
  In m ms -> isLive (with_messages ch (messages ch ++ ms)) (msg_id m) = true.
Proof.
  intros H. rewrite isLive_existsb. simpl. rewrite existsb_app.
  apply orb_true_iff. right. apply existsb_exists. exists m.
  split; [exact H|apply String.eqb_refl].
Qed.

Lemma isLive_app_fresh ch ms mid :
  (forall m, In m ms -> msg_id m <> mid) ->
  isLive (with_messages ch (messages ch ++ ms)) mid = isLive ch mid.
Proof.
  intros H. rewrite !isLive_existsb. simpl. rewrite existsb_app.
  assert (existsb (fun m => String.eqb (msg_id m) mid) ms = false) as ->;
    [|apply orb_false_r].
  apply not_true_is_false. intros C. apply existsb_exists in C as (m & Hm & E).
  apply String.eqb_eq in E. exact (H m Hm E).
Qed.

(** New messages give no request a reason to be rendered. *)
Lemma needsRender_app_l ch ms r :
  needsRender ch r = false ->
  needsRender (with_messages ch (messages ch ++ ms)) r = false.
Proof.
  unfold needsRender. destruct (bool_decide (status r = Pending)); [|reflexivity].
  simpl. intros NR. apply negb_false_iff in NR. apply negb_false_iff.
  unfold hasLivePresentation in *. apply andb_true_iff in NR as [A B].
  rewrite A. simpl. apply isLive_app_l. exact B.
Qed.

Lemma needsRender_app_fresh ch ms r :
  (forall m mid, In m ms -> messageId r = Some mid -> msg_id m <> mid) ->
  needsRender (with_messages ch (messages ch ++ ms)) r = needsRender ch r.
Proof.
  intros H. unfold needsRender, hasLivePresentation.
  destruct (messageId r) as [mid|]; simpl; [|reflexivity].
  rewrite isLive_app_fresh; [reflexivity|]. intros m Hm. exact (H m mid Hm eq_refl).
Qed.

(** Where the requests of a reconciled list come from. *)
Lemma reconcile_fst_cases ch l : forall n r',
  In r' (fst (reconcile ch n l)) ->
  In r' l \/
  (exists r i, In r l /\
     0 <= i < Z.of_nat (length (snd (reconcile ch n l))) /\
     r' = with_messageId r (Some (JS.toString (n + i)))).
Proof.
  induction l as [|x l IH]; intros n r'; cbn [reconcile]; [intros []|].
  destruct (needsRender ch x) eqn:NX; [destruct (canRender x)|]; cbn [fst snd].
  - intros [<-|H].
    + right. exists x, 0. rewrite Z.add_0_r.
      split; [left; reflexivity|]. split; [simpl; lia|reflexivity].
    + destruct (IH _ _ H) as [Hin|(r & i & Hin & Hi & ->)].
      * left. right. exact Hin.
      * right. exists r, (1 + i). replace (n + (1 + i)) with (n + 1 + i) by lia.
        split; [right; exact Hin|]. split; [simpl length; lia|reflexivity].
  - auto.
  - intros [<-|H].
    + left. left. reflexivity.
    + destruct (IH _ _ H) as [Hin|(r & i & Hin & Hi & ->)].
      * left. right. exact Hin.
      * right. exists r, i. split; [right; exact Hin|]. auto.
Qed.

(** A second pass over a reconciled list sends nothing: what the first
    pass rendered is live, and it stops where the first one stopped. *)
Lemma reconcile_settled ch l : forall n n' pre,
  (forall r mid m, In r l -> messageId r = Some mid ->
     In m (pre ++ snd (reconcile ch n l)) -> msg_id m <> mid) ->
  snd (reconcile
         (with_messages ch (messages ch ++ pre ++ snd (reconcile ch n l))) n'
         (fst (reconcile ch n l))) = [].
Proof.
  induction l as [|x l IH]; intros n n' pre H; [reflexivity|].
  cbn [reconcile] in *.
  destruct (needsRender ch x) eqn:NX; [destruct (canRender x) eqn:CX|];
    cbn [fst snd] in *.
  - set (mid := JS.toString n) in *. cbn [reconcile].
    assert (needsRender
              (with_messages ch
                 (messages ch ++ pre ++ render x mid :: snd (reconcile ch (n + 1) l)))
              (with_messageId x (Some mid)) = false) as ->.
    { assert (L : isLive
                    (with_messages ch
                       (messages ch ++ pre ++ render x mid :: snd (reconcile ch (n + 1) l)))
                    mid = true).
      { apply (isLive_app_r ch _ (render x mid)).
        apply in_or_app. right. left. reflexivity. }
      unfold needsRender, hasLivePresentation.
      cbn [messageId with_messageId JS.truthy_opt].
      change (default "" (Some mid)) with mid. rewrite L.
      unfold mid. rewrite toString_truthy. apply andb_false_r. }
    cbn [snd].
    replace (pre ++ render x mid :: snd (reconcile ch (n + 1) l))
      with ((pre ++ [render x mid]) ++ snd (reconcile ch (n + 1) l))
      by (rewrite <- app_assoc; reflexivity).
    apply IH. intros r m0 m Hr Hm Hin. apply (H r m0 m); [right; exact Hr|exact Hm|].
    rewrite <- app_assoc in Hin. exact Hin.
  - cbn [reconcile]. rewrite needsRender_app_fresh, NX, CX; [reflexivity|].
    intros m mid Hm Hx. apply (H x mid m); [left; reflexivity|exact Hx|exact Hm].
  - cbn [reconcile]. rewrite needsRender_app_l by exact NX. cbn [snd].
    apply IH. intros r mid m Hr Hm Hin. apply (H r mid m); [right; exact Hr|exact Hm|exact Hin].
Qed.

(** The platform issues one id per message sent. *)
Lemma restoreOne_snowflake cid s slot s' ch :
  restoreOne cid s slot = Some s' -> channels s !! cid = Some ch ->
  exists ch', channels s' !! cid = Some ch' /\
    snowflake s' - snowflake s
    = Z.of_nat (length (messages ch')) - Z.of_nat (length (messages ch)).
Proof.
  intros E Hc. unfold restoreOne in E. destruct (pending s !! slot) as [req|].
  2:{ injection E as <-. exists ch. split; [exact Hc|lia]. }
  match type of E with context [match ?x with Some _ => Some s | None => _ end] =>
    destruct x end.
  { injection E as <-. exists ch. split; [exact Hc|lia]. }
  destruct (createEmbedForReq req Pending) as [embed|]; [|discriminate].
  destruct (send s cid _ _) as [[s1 mid]|] eqn:Es; [|discriminate].
  apply send_Some in Es as (ch0 & Hc0 & _ & _ & ->). injection E as <-.
  assert (ch0 = ch) as -> by congruence.
  match goal with |- context [writeJson_pending ?x] =>
    destruct (writeJson_pending_proj x) as (_ & _ & _ & _ & C & N) end.
  rewrite C, N. simpl. rewrite lookup_insert_eq. eexists. split; [reflexivity|].
  simpl. rewrite length_app. simpl. lia.
Qed.

Lemma restoreAll_snowflake cid slots : forall s ch,
  channels s !! cid = Some ch ->
  exists ch', channels (restoreAll cid s slots) !! cid = Some ch' /\
    snowflake (restoreAll cid s slots) - snowflake s
    = Z.of_nat (length (messages ch')) - Z.of_nat (length (messages ch)).
Proof.
  induction slots as [|slot rest IH]; intros s ch Hc; simpl.
  - exists ch. split; [exact Hc|lia].
  - destruct (restoreOne cid s slot) as [s1|] eqn:E.
    + destruct (restoreOne_snowflake _ _ _ _ _ E Hc) as (ch1 & H1 & N1).
      destruct (IH s1 ch1 H1) as (ch2 & H2 & N2).
      exists ch2. split; [exact H2|lia].
    + exists ch. split; [exact Hc|lia].
Qed.

(** When the bot may not post, the loop changes nothing. *)
Lemma restoreAll_cannot_send cid slots s ch :
  channels s !! cid = Some ch -> canSend ch = false -> restoreAll cid s slots = s.
Proof.
  intros Hc S. induction slots as [|slot rest IH]; simpl; [reflexivity|].
  assert (restoreOne cid s slot = Some s \/ restoreOne cid s slot = None) as [->| ->];
    [|exact IH|reflexivity].
  unfold restoreOne. destruct (pending s !! slot) as [req|]; [|auto].
  match goal with |- context [match ?x with Some _ => Some s | None => _ end] =>
    destruct x end; [auto|].
  destruct (createEmbedForReq req Pending) as [embed|]; [|auto].
  unfold send. rewrite Hc, S. auto.
Qed.

(** The restore loop run a second time on the same memory changes
    nothing. *)
Lemma handleReady_twice cfg s :
  idsIssued (snowflake s) (pending s) ->
  handleReady cfg (handleReady cfg s) = handleReady cfg s.
Proof.
  intros Hi.
  assert (Triv : handleReady cfg s = s ->
                 handleReady cfg (handleReady cfg s) = handleReady cfg s)
    by (intros E; rewrite E; exact E).
  destruct (ADMIN_CHANNEL_ID cfg) as [cid|] eqn:Hcfg;
    [|apply Triv; unfold handleReady; rewrite Hcfg; reflexivity].
  destruct (JS.truthy cid) eqn:T;
    [|apply Triv; unfold handleReady; rewrite Hcfg, T; reflexivity].
  destruct (channels s !! cid) as [ch|] eqn:Hc;
    [|apply Triv; unfold handleReady; rewrite Hcfg, T, Hc; reflexivity].
  destruct (isTextBased ch) eqn:TB;
    [|apply Triv; unfold handleReady; rewrite Hcfg, T, Hc, TB; reflexivity].
  assert (E1 : handleReady cfg s = restoreAll cid s (pendingSlots 0 (pending s)))
    by (unfold handleReady; rewrite Hcfg, T, Hc, TB; reflexivity).
  destruct (canSend ch) eqn:S.
  2:{ apply Triv. rewrite E1. eapply restoreAll_cannot_send; eassumption. }
  destruct (restoreAll_reconcile cid (pending s) [] s ch eq_refl Hc S Hi)
    as (P & C & _ & _ & _).
  cbv zeta in P, C. cbn [length app] in P, C.
  destruct (restoreAll_snowflake cid (pendingSlots 0 (pending s)) s ch Hc)
    as (ch1 & C1 & N1).
  rewrite C in C1. injection C1 as <-. simpl in N1. rewrite length_app in N1.
  rewrite E1.
  remember (reconcile ch (snowflake s) (pending s)) as res eqn:Eres.
  remember (restoreAll cid s (pendingSlots 0 (pending s))) as s' eqn:Es'.
  remember (with_messages ch (messages ch ++ snd res)) as ch' eqn:Ech'.
  assert (TB' : isTextBased ch' = true) by (rewrite Ech'; exact TB).
  assert (S' : canSend ch' = true) by (rewrite Ech'; exact S).
  assert (E2 : handleReady cfg s' = restoreAll cid s' (pendingSlots 0 (pending s')))
    by (unfold handleReady; rewrite Hcfg, T, C, TB'; reflexivity).
  rewrite E2.
  assert (Hi2 : idsIssued (snowflake s') (pending s')).
  { intros r' mid Hr' Hm j Hj E. rewrite P, Eres in Hr'.
    destruct (reconcile_fst_cases _ _ _ _ Hr') as [Hin|(r & i & Hin & Hi' & ->)].
    - apply (Hi r' mid Hin Hm (snowflake s' - snowflake s + j)); [lia|].
      rewrite E. f_equal. lia.
    - simpl in Hm. injection Hm as <-. apply toString_inj in E.
      rewrite <- Eres in Hi'. lia. }
  destruct (restoreAll_reconcile cid (pending s') [] s' ch' eq_refl C S' Hi2)
    as (_ & _ & _ & Z & _).
  apply Z. rewrite P, Ech', Eres.
  apply (reconcile_settled ch (pending s) (snowflake s) (snowflake s') []).
  intros r mid m Hr Hm Hin E. simpl in Hin.
  apply reconcile_msg_ids in Hin as (j & Hj & Ej).
  apply (Hi r mid Hr Hm j Hj). congruence.
Qed.

(** Reading back what was written gives the collections written. *)
Lemma req_of_to_json r : req_of_json (req_to_json r) = Some r.
Proof.
  destruct r as [i a b c d e st t m u v].
  destruct st, m, u, v; reflexivity.
Qed.

Lemma pending_of_to_json l : pending_of_json (pending_to_json l) = Some l.
Proof. simpl. apply mapM_fmap_Some. exact req_of_to_json. Qed.

Lemma entry_of_to_json e : entry_of_json (entry_to_json e) = Some e.
Proof.
  destruct e as [u i l]. unfold entry_to_json, entry_of_json. simpl.
  change (map JString l) with (JString <$> l).
  rewrite (mapM_fmap_Some as_string JString l) by reflexivity. reflexivity.
Qed.

Lemma accounts_of_to_json m : accounts_of_json (accounts_to_json m) = Some m.
Proof.
  unfold accounts_to_json, accounts_of_json.
  change (map (fun kv : string * AccountEntry => (fst kv, entry_to_json (snd kv)))
              (map_to_list m))
    with ((fun kv : string * AccountEntry => (fst kv, entry_to_json (snd kv)))
            <$> map_to_list m).
  rewrite (mapM_fmap_Some _ _ (map_to_list m)).
  - simpl. rewrite list_to_map_to_list. reflexivity.
  - intros [k e]. cbv beta. cbn [fst snd]. rewrite entry_of_to_json. reflexivity.
Qed.

(** A process started on files that agree with the memory of the old
    process has the memory of the old process. *)
Lemma boot_inSync s : inSync s -> boot s = Some s.
Proof.
  intros [P A]. unfold boot. rewrite P, A, pending_of_to_json, accounts_of_to_json.
  destruct s. reflexivity.
Qed.

(** After a failed write the new process does render again: the id the
    old process recorded in memory never reached [pending.json]. *)
Example restart_after_failed_write_ex :
  exists s2, boot (handleReady Sample.cfg unwritable) = Some s2 /\
    (map msg_id ∘ messages) <$> channels (handleReady Sample.cfg s2) !! "900"
    = Some ["1000"; "1001"].
Proof. eexists. split; vm_compute; reflexivity. Qed.

(** X15.  A restart renders nothing new.  Let the files be writable and
    agree with the memory of the process, as they do when the process
    was started from them, and let no stored message id be one the
    platform has yet to issue.  After start-up the files hold what the
    process holds, so that a process started anew has the same
    collections, and its start-up sends no message and rewrites no
    request: what the first start-up rendered has a live message, and
    the pass stops where the first one stopped. *)
Theorem restart_renders_nothing_new (cfg : Config) (s : State) :
  fs_writable s = true ->
  inSync s ->
  idsIssued (snowflake s) (pending s) ->
  exists s', boot (handleReady cfg s) = Some s' /\
             pending s' = pending (handleReady cfg s) /\
             handleReady cfg s' = s'.
Proof.
  intros W Sync Hi. exists (handleReady cfg s).
  destruct (step_inSync cfg s ClientReady W Sync) as [_ Sync'].
  split; [apply boot_inSync; exact Sync'|]. split; [reflexivity|].
  apply handleReady_twice. exact Hi.
Qed.

Lemma restart_renders_nothing_new_witness :
  exists s', boot (handleReady Sample.cfg Sample.before_restart) = Some s' /\
             handleReady Sample.cfg s' = s'.
Proof.
  destruct (restart_renders_nothing_new Sample.cfg Sample.before_restart eq_refl)
    as (s' & B & _ & Q).
  - split; reflexivity.
  - intros r mid Hr Hm j Hj E.
    assert (In mid ["1000"; "1001"]) as Hin.
    { destruct Hr as [<-|[<-|[<-|[]]]]; simpl in Hm; try discriminate Hm;
        injection Hm as <-; simpl; auto. }
    change (snowflake Sample.before_restart) with 1002 in E.
    destruct Hin as [<-|[<-|[]]].
    + apply (toString_inj 1000) in E. lia.
    + apply (toString_inj 1001) in E. lia.
  - exists s'. split; [exact B|exact Q].
Defined.

(** ** X16: what the files hold *)

Lemma status_string_inj a b : status_string a = status_string b -> a = b.
Proof. destruct a, b; simpl; intros H; try reflexivity; discriminate H. Qed.

Lemma json_opt_string_inj a b : json_opt_string a = json_opt_string b -> a = b.
Proof. destruct a, b; simpl; intros H; try reflexivity; try discriminate H.
  injection H as ->. reflexivity. Qed.

Lemma req_to_json_inj r r' : req_to_json r = req_to_json r' -> r = r'.
Proof.
  destruct r as [i1 a1 b1 c1 d1 e1 s1 t1 m1 u1 v1],
           r' as [i2 a2 b2 c2 d2 e2 s2 t2 m2 u2 v2].
  unfold req_to_json. simpl. intros H.
  injection H as Hi Ha Hb Hc Hd He Hs Ht Hm Hrest.
  apply status_string_inj in Hs. apply json_opt_string_inj in Hm. subst.
  destruct u1, u2, v1, v2; simpl in Hrest; congruence.
Qed.

Lemma map_inj {A B} (f : A -> B) :
  (forall x y, f x = f y -> x = y) -> forall l l', map f l = map f l' -> l = l'.
Proof.
  intros Hf l. induction l as [|x l IH]; intros [|y l']; simpl; intros H;
    try reflexivity; try discriminate H.
  injection H as Hx Hl. f_equal; [apply Hf, Hx|apply IH, Hl].
Qed.

Lemma entry_to_json_inj e e' : entry_to_json e = entry_to_json e' -> e = e'.
Proof.
  destruct e as [u i l], e' as [u' i' l']. unfold entry_to_json. simpl.
  intros H. injection H as -> -> Hl. f_equal.
  apply (map_inj JString); [|exact Hl]. intros x y E. injection E as ->. reflexivity.
Qed.

(** X16.  What is written to the files determines the collections: two
    request collections with the same [pending.json] content are the
    same list of requests, field by field and in the same order, and two
    account collections with the same [accounts.json] content are the
    same map.  Writing loses nothing. *)
Theorem files_determine_collections :
  (forall l l', pending_to_json l = pending_to_json l' -> l = l') /\
  (forall m m', accounts_to_json m = accounts_to_json m' -> m = m').
Proof.
  split.
  - intros l l' H. unfold pending_to_json in H. injection H as H.
    apply (map_inj req_to_json); [apply req_to_json_inj|exact H].
  - intros m m' H. unfold accounts_to_json in H. injection H as H.
    apply map_to_list_inj.
    assert (map_to_list m = map_to_list m') as ->; [|reflexivity].
    apply (map_inj (fun kv : string * AccountEntry => (fst kv, entry_to_json (snd kv))));
      [|exact H].
    intros [k e] [k' e'] E. cbn [fst snd] in E.
    pose proof (f_equal fst E) as Ek. pose proof (f_equal snd E) as Ee.
    cbn [fst snd] in Ek, Ee. apply entry_to_json_inj in Ee. congruence.
Qed.

Lemma files_determine_collections_witness :
  pending_to_json (pending Sample.submitted)
  <> pending_to_json (pending Sample.approved) /\
  accounts_to_json (accounts Sample.submitted)
  <> accounts_to_json (accounts Sample.approved).
Proof.
  destruct files_determine_collections as [P A]. split.
  - intros E. apply P in E. discriminate E.
  - intros E. apply A in E.
    apply (f_equal (fun m : gmap string AccountEntry => m !! "1")) in E.
    discriminate E.
Defined.

(** ** X17: from the command to the decision *)

(** What an authorized click on a pending request does. *)
Lemma handleButton_authorized cfg s b now slot r :
  isLinkButton (customId b) = true ->
  clickedRequest s b = Some (slot, r) ->
  status r = Pending ->
  hasAdmin cfg (resolverMember b) = true ->
  snd (handleButton cfg s b now) = decisionReply (decision b) r /\
  pending (fst (handleButton cfg s b now)) =
    <[slot := with_resolution r (decision b) (user_id (bc_user b)) now]> (pending s) /\
  accounts (fst (handleButton cfg s b now)) =
    (if decide (decision b = Approved) then upsertAccount (accounts s) r
     else accounts s).
Proof.
  intros LB CR ES EA. pose proof (handleButton_run cfg s b now) as R.
  destruct (handleButton cfg s b now) as [s' o]. simpl in *.
  inversion R; subst; try congruence.
  assert (slot0 = slot /\ r0 = r) as [-> ->] by (split; congruence).
  auto.
Qed.

(** The request a [/link] command has just stored is the one its two
    buttons reach, when no older request has its id. *)
Lemma clickedRequest_new cfg s c e raw b :
  commandName c = "link" ->
  opt_ign c = Some raw ->
  (forall r, In r (pending s) -> id r <> reqId (now_id e) (random_part e)) ->
  snd (parseCustomId (customId b)) = Some (reqId (now_id e) (random_part e)) ->
  exists m,
    pending (fst (handleCommand cfg s c e))
    = pending s ++ [with_messageId (newRequest c e (JS.trim raw)) m] /\
    clickedRequest (fst (handleCommand cfg s c e)) b
    = Some (length (pending s), with_messageId (newRequest c e (JS.trim raw)) m).
Proof.
  intros Hname Hign Fresh Hp.
  destruct (handleCommand_link cfg s c e raw Hname Hign) as [[m P] _].
  exists m. split; [exact P|].
  unfold clickedRequest. rewrite Hp, P. apply findRequest_Some. split.
  - apply list_lookup_middle. reflexivity.
  - split; [apply id_is_Some; reflexivity|].
    intros j y Hj Hy. rewrite lookup_app_l in Hy by exact Hj.
    destruct (id_is (Some (reqId (now_id e) (random_part e))) y) eqn:E;
      [|reflexivity].
    apply id_is_Some in E. exfalso. apply (Fresh y); [|exact E].
    apply In_lookup. exists j. exact Hy.
Qed.

(** X17.  The buttons under a request do what they say.  Take a [/link]
    command whose id no stored request has, and then a click by an
    authorized resolver on one of the two buttons posted for it.  The
    click on [link_accept_<id>] answers "Approved. <target> linked to IGN
    <name>", marks that very request approved and leaves the trimmed name
    in the entry of the target account; the click on [link_reject_<id>]
    answers "Rejected request for <target>.", marks the request rejected
    and leaves the account collection as it was before the command. *)
Theorem buttons_resolve_their_request (cfg : Config) (s : State) (c : ChatInput)
    (e : Readings) (raw : string) (b : ButtonClick) (now : Z) :
  commandName c = "link" ->
  opt_ign c = Some raw ->
  (forall r, In r (pending s) -> id r <> reqId (now_id e) (random_part e)) ->
  hasAdmin cfg (resolverMember b) = true ->
  let req := newRequest c e (JS.trim raw) in
  let res := handleButton cfg (fst (handleCommand cfg s c e)) b now in
  (customId b = "link_accept_" +:+ id req ->
   snd res = ApprovedReply (targetTag req) (JS.trim raw) /\
   (exists r', pending (fst res) !! length (pending s) = Some r' /\
               status r' = Approved /\ sameSubmission req r') /\
   (exists entry, accounts (fst res) !! linkTarget req = Some entry /\
                  In (JS.trim raw) (igns entry))) /\
  (customId b = "link_reject_" +:+ id req ->
   snd res = RejectedReply (targetTag req) /\
   (exists r', pending (fst res) !! length (pending s) = Some r' /\
               status r' = Rejected /\ sameSubmission req r') /\
   accounts (fst res) = accounts s).
Proof.
  intros Hname Hign Fresh EA req res.
  assert (Acc : accounts (fst (handleCommand cfg s c e)) = accounts s).
  { apply (handleCommand_link cfg s c e raw Hname Hign). }
  assert (Go : forall act, (act = "accept" \/ act = "reject") ->
            customId b = "link_" +:+ act +:+ "_" +:+ id req ->
            exists m,
              snd res = decisionReply (decision b) (with_messageId req m) /\
              pending (fst res) !! length (pending s)
              = Some (with_resolution (with_messageId req m) (decision b)
                        (user_id (bc_user b)) now) /\
              accounts (fst res) =
                (if decide (decision b = Approved)
                 then upsertAccount (accounts s) (with_messageId req m)
                 else accounts s) /\
              fst (parseCustomId (customId b)) = Some act).
  { intros act Hact Hc.
    assert (Hp : parseCustomId (customId b) = (Some act, Some (id req))).
    { rewrite Hc. destruct Hact as [ -> | -> ].
      - apply parse_accept, reqId_underscore_free.
      - apply parse_reject, reqId_underscore_free. }
    assert (LB : isLinkButton (customId b) = true).
    { rewrite Hc. destruct Hact as [ -> | -> ];
        [apply isLinkButton_accept|apply isLinkButton_reject]. }
    destruct (clickedRequest_new cfg s c e raw b Hname Hign Fresh) as (m & P & CR).
    { rewrite Hp. reflexivity. }
    exists m.
    destruct (handleButton_authorized cfg _ b now _ _ LB CR eq_refl EA)
      as (O & P' & A').
    split; [exact O|]. split.
    - fold res in P'. rewrite P', P.
      rewrite insert_app_r_alt by lia. rewrite Nat.sub_diag. simpl.
      apply list_lookup_middle. reflexivity.
    - fold res in A'. rewrite A', Acc. split; [reflexivity|].
      rewrite Hp. reflexivity. }
  split; intros Hc.
  - destruct (Go "accept" (or_introl eq_refl) Hc) as (m & O & P & A & D).
    assert (Dec : decision b = Approved) by (unfold decision; rewrite D; reflexivity).
    rewrite Dec in O, P, A. simpl in O. split; [exact O|]. split.
    + eexists. split; [exact P|]. split; [reflexivity|].
      repeat split; reflexivity.
    + rewrite A. destruct (decide (Approved = Approved)) as [_|N]; [|congruence].
      destruct (upsertAccount_target (accounts s) (with_messageId req m))
        as (entry & L & Hin & _).
      exists entry. split; [exact L|exact Hin].
  - destruct (Go "reject" (or_intror eq_refl) Hc) as (m & O & P & A & D).
    assert (Dec : decision b = Rejected) by (unfold decision; rewrite D; reflexivity).
    rewrite Dec in O, P, A. simpl in O. split; [exact O|]. split.
    + eexists. split; [exact P|]. split; [reflexivity|].
      repeat split; reflexivity.
    + rewrite A. destruct (decide (Rejected = Approved)) as [N|_]; [discriminate N|].
      reflexivity.
Qed.

Lemma buttons_resolve_their_request_witness :
  snd (handleButton Sample.cfg Sample.submitted
         (Sample.click "link_accept_17-5" Sample.bob Sample.moderator) 20)
  = ApprovedReply "alice#0001" "Notch" /\
  (exists entry, accounts Sample.approved !! "1" = Some entry /\
                 In "Notch" (igns entry)).
Proof.
  destruct (buttons_resolve_their_request Sample.cfg Sample.fresh
              (Sample.link Sample.alice "  Notch " None) (mkReadings 17 5 17)
              "  Notch " (Sample.click "link_accept_17-5" Sample.bob Sample.moderator)
              20 eq_refl eq_refl) as [Acc _].
  - intros r [].
  - reflexivity.
  - destruct (Acc eq_refl) as (O & _ & L). split; [exact O|exact L].
Defined.

(** ** X18: every request has a message of its own *)

(** A step that gives no request a new message id. *)
Lemma messagesOwned_keep s s' :
  messagesOwned s ->
  snowflake s' = snowflake s ->
  (forall k r', pending s' !! k = Some r' ->
     messageId r' = None \/
     exists r, pending s !! k = Some r /\ messageId r' = messageId r) ->
  messagesOwned s'.
Proof.
  intros [Hi Ha] N Old. split.
  - intros r' mid Hin Hm j Hj. apply In_lookup in Hin as [k Hk].
    destruct (Old k r' Hk) as [E|(r & Hr & E)]; [congruence|].
    rewrite N. apply (Hi r mid); [apply In_lookup; eauto|congruence|exact Hj].
  - intros i j r1 r2 mid H1 H2 M1 M2.
    destruct (Old i r1 H1) as [E|(q1 & Q1 & E1)]; [congruence|].
    destruct (Old j r2 H2) as [E|(q2 & Q2 & E2)]; [congruence|].
    apply (Ha i j q1 q2 mid); congruence.
Qed.

(** A step that gives the request of one slot the id the platform
    issues next. *)
Lemma messagesOwned_post s s' slot :
  messagesOwned s ->
  snowflake s' = snowflake s + 1 ->
  (forall k r', pending s' !! k = Some r' ->
     (k = slot /\ messageId r' = Some (JS.toString (snowflake s))) \/
     messageId r' = None \/
     exists r, pending s !! k = Some r /\ messageId r' = messageId r) ->
  messagesOwned s'.
Proof.
  intros [Hi Ha] N Old.
  assert (Hold : forall k r' mid, pending s' !! k = Some r' ->
            messageId r' = Some mid ->
            (k = slot /\ mid = JS.toString (snowflake s)) \/
            (exists r, pending s !! k = Some r /\ messageId r = Some mid /\
                       mid <> JS.toString (snowflake s))).
  { intros k r' mid Hk Hm. destruct (Old k r' Hk) as [[-> E]|[E|(r & Hr & E)]].
    - left. split; [reflexivity|congruence].
    - congruence.
    - right. exists r. split; [exact Hr|]. split; [congruence|].
      intros Eq. apply (Hi r mid) with (j := 0);
        [apply In_lookup; eauto|congruence|lia|].
      rewrite Z.add_0_r. exact Eq. }
  split.
  - intros r' mid Hin Hm j Hj. apply In_lookup in Hin as [k Hk]. rewrite N.
    destruct (Hold k r' mid Hk Hm) as [[_ ->]|(r & Hr & E & _)].
    + intros Eq. apply toString_inj in Eq. lia.
    + replace (snowflake s + 1 + j) with (snowflake s + (1 + j)) by lia.
      apply (Hi r mid); [apply In_lookup; eauto|exact E|lia].
  - intros i j r1 r2 mid H1 H2 M1 M2.
    destruct (Hold i r1 mid H1 M1) as [[-> E1]|(q1 & Q1 & E1 & N1)];
      destruct (Hold j r2 mid H2 M2) as [[-> E2]|(q2 & Q2 & E2 & N2)];
      try congruence.
    apply (Ha i j q1 q2 mid); assumption.
Qed.

Lemma restoreOne_owned cid s slot s' :
  restoreOne cid s slot = Some s' -> messagesOwned s -> messagesOwned s'.
Proof.
  unfold restoreOne. destruct (pending s !! slot) as [req|] eqn:E.
  2:{ intros [= <-]. auto. }
  match goal with |- context [match ?x with Some _ => Some s | None => _ end] =>
    destruct x end.
  { intros [= <-]. auto. }
  destruct (createEmbedForReq req Pending) as [embed|]; [|discriminate].
  destruct (send s cid _ _) as [[s1 mid]|] eqn:Es; [|discriminate].
  apply send_Some in Es as (ch & _ & _ & -> & ->). intros [= <-] Inv.
  match goal with |- context [writeJson_pending ?x] =>
    destruct (writeJson_pending_proj x) as (P & _ & _ & _ & _ & N) end.
  simpl in P, N. apply (messagesOwned_post s _ slot Inv N).
  intros k r' Hk. rewrite P in Hk.
  destruct (decide (k = slot)) as [->|Hne].
  - rewrite list_lookup_insert_eq in Hk by (eapply lookup_lt_Some; exact E).
    injection Hk as <-. left. split; reflexivity.
  - rewrite list_lookup_insert_ne in Hk by congruence.
    right. right. exists r'. split; [exact Hk|reflexivity].
Qed.

Lemma restoreAll_owned cid slots : forall s,
  messagesOwned s -> messagesOwned (restoreAll cid s slots).
Proof.
  induction slots as [|slot rest IH]; intros s Inv; simpl; [exact Inv|].
  destruct (restoreOne cid s slot) as [s1|] eqn:E; [|exact Inv].
  apply IH. exact (restoreOne_owned _ _ _ _ E Inv).
Qed.

Lemma handleCommand_owned cfg s c e :
  messagesOwned s -> messagesOwned (fst (handleCommand cfg s c e)).
Proof.
  intros Inv. destruct (String.eqb_spec (commandName c) "link") as [Hn|Hn].
  2:{ rewrite handleCommand_other by exact Hn. exact Inv. }
  unfold handleCommand. rewrite Hn. simpl String.eqb. cbn [negb].
  destruct (opt_ign c) as [raw|]; [|exact Inv].
  set (req := newRequest c e (JS.trim raw)).
  set (s1 := writeJson_pending (with_pending s (pending s ++ [req]))).
  destruct (writeJson_pending_proj (with_pending s (pending s ++ [req])))
    as (P1 & _ & _ & _ & C1 & N1). fold s1 in P1, C1, N1. simpl in P1, C1, N1.
  assert (Base : messagesOwned s1).
  { apply (messagesOwned_keep s s1 Inv N1). intros k r' Hk. rewrite P1 in Hk.
    destruct (decide (k < length (pending s))%nat) as [Hlt|Hge].
    - rewrite lookup_app_l in Hk by exact Hlt. right. eauto.
    - rewrite lookup_app_r in Hk by lia.
      destruct (k - length (pending s))%nat; simpl in Hk; [|discriminate Hk].
      injection Hk as <-. left. reflexivity. }
  destruct (ADMIN_CHANNEL_ID cfg) as [cid|]; [|exact Base].
  destruct (JS.truthy cid); cbn [negb]; [|exact Base].
  destruct (channels s1 !! cid) as [ch|] eqn:Ech; [|exact Base].
  destruct (isTextBased ch); cbn [negb]; [|exact Base].
  destruct (createEmbedForReq req Pending) as [embed|]; [|exact Base].
  destruct (send s1 cid _ _) as [[s2 mid]|] eqn:Es; [|exact Base].
  apply send_Some in Es as (ch' & _ & _ & -> & ->). cbn [fst].
  match goal with |- messagesOwned (writeJson_pending ?x) =>
    destruct (writeJson_pending_proj x) as (P3 & _ & _ & _ & _ & N3);
    set (s3 := writeJson_pending x) in * end.
  simpl in P3, N3.
  apply (messagesOwned_post s s3 (length (pending s)) Inv);
    [rewrite N3, N1; reflexivity|].
  intros k r' Hk. rewrite P3, P1 in Hk.
  rewrite insert_app_r_alt in Hk by lia. rewrite Nat.sub_diag in Hk. simpl in Hk.
  destruct (decide (k < length (pending s))%nat) as [Hlt|Hge].
  - rewrite lookup_app_l in Hk by exact Hlt. right. right. eauto.
  - rewrite lookup_app_r in Hk by lia.
    destruct (k - length (pending s))%nat eqn:Ek; simpl in Hk; [|discriminate Hk].
    injection Hk as <-. left. split; [lia|]. simpl. rewrite N1. reflexivity.
Qed.

Lemma handleButton_owned cfg s b now :
  messagesOwned s -> messagesOwned (fst (handleButton cfg s b now)).
Proof.
  intros Inv. pose proof (handleButton_run cfg s b now) as R.
  destruct (handleButton cfg s b now) as [s' o]. simpl in *.
  inversion R; subst; try exact Inv.
  match goal with N : snowflake s' = snowflake s |- _ =>
    apply (messagesOwned_keep s s' Inv N) end.
  intros k r' Hk.
  match goal with P : pending s' = _ |- _ => rewrite P in Hk end.
  match goal with C : clickedRequest s b = Some (?i, ?x) |- _ =>
    unfold clickedRequest in C; apply findRequest_Some in C as (C & _);
    destruct (decide (k = i)) as [->|Hne] end.
  - rewrite list_lookup_insert_eq in Hk by (eapply lookup_lt_Some; eassumption).
    injection Hk as <-. right. eexists. split; [eassumption|reflexivity].
  - rewrite list_lookup_insert_ne in Hk by congruence. right. eauto.
Qed.

Lemma step_owned cfg s ev : messagesOwned s -> messagesOwned (step cfg s ev).
Proof.
  intros Inv. destruct ev as [|[c e|b now|]]; simpl.
  - unfold handleReady. destruct (ADMIN_CHANNEL_ID cfg) as [cid|]; [|exact Inv].
    destruct (JS.truthy cid); cbn [negb]; [|exact Inv].
    destruct (channels s !! cid) as [ch|]; [|exact Inv].
    destruct (isTextBased ch); cbn [negb]; [|exact Inv].
    apply restoreAll_owned. exact Inv.
  - apply handleCommand_owned. exact Inv.
  - apply handleButton_owned. exact Inv.
  - exact Inv.
Qed.

(** X18.  Every request has a message of its own.  If the message ids
    the stored requests hold were issued by the platform, each to one
    request, then after any sequence of events no two stored requests
    hold the same message id, and none holds an id the platform has yet
    to issue: the edit that shows a decision never lands on the message
    of another request.  A store grown from a first start is such a
    store. *)
Theorem requests_own_their_messages (cfg : Config) (evs : list Event) (s : State) :
  messagesOwned s ->
  messagesOwned (run cfg s evs) /\
  (forall c n, messagesOwned (run cfg (emptyState c n) evs)).
Proof.
  assert (Run : forall l s0, messagesOwned s0 -> messagesOwned (run cfg s0 l)).
  { induction l as [|ev l IH]; intros s0 H; [exact H|].
    simpl. apply IH, step_owned, H. }
  intros Inv. split; [apply Run, Inv|].
  intros c n. apply Run. split.
  - intros r mid [].
  - intros i j r r' mid H. simpl in H. rewrite lookup_nil in H. discriminate H.
Qed.

Lemma requests_own_their_messages_witness :
  messagesApart (pending Sample.before_restart) /\
  idsIssued (snowflake Sample.before_restart) (pending Sample.before_restart).
Proof.
  destruct (requests_own_their_messages Sample.cfg
              [InteractionCreate
                 (ChatInputCommand (Sample.link Sample.bob "Steve" None)
                    (mkReadings 18 6 18));
               InteractionCreate
                 (ChatInputCommand (Sample.link Sample.carol "Alex" None)
                    (mkReadings 19 7 19));
               InteractionCreate
                 (ButtonInteraction
                    (Sample.click "link_accept_19-7" Sample.bob Sample.moderator) 25)]
              (fst (handleCommand Sample.cfg_no_channel Sample.fresh
                      (Sample.link Sample.alice "Notch" None) (mkReadings 17 5 17))))
    as [[I A] _].
  - split.
    + intros r mid [<-|[]] Hm. discriminate Hm.
    + intros i j r r' mid Hi Hj Hm.
      destruct i as [|i]; simpl in Hi; [|rewrite lookup_nil in Hi; discriminate Hi].
      injection Hi as <-. discriminate Hm.
  - split; [exact A|exact I].
Defined.

(** ** X19: an approval stays in the account collection *)

(** Where an approved request of the next state comes from: it was there
    already, or this step is the click that approved it. *)
Lemma step_approved_origin cfg s ev k r' :
  pending (step cfg s ev) !! k = Some r' ->
  status r' = Approved ->
  pending s !! k = Some r' \/
  exists r u t, pending s !! k = Some r /\
    r' = with_resolution r Approved u t /\
    accounts (step cfg s ev) = upsertAccount (accounts s) r.
Proof.
  intros H A. destruct ev as [|[c e|b now|]]; simpl in *.
  - destruct (handleReady_frame cfg s) as (_ & _ & _ & L & P). simpl in L.
    destruct (pending s !! k) as [r|] eqn:E.
    + destruct (P k r E) as (r'' & H'' & Hr). rewrite H in H''. injection H'' as <-.
      destruct Hr as [->|(Hs & m & ->)]; [auto|]. simpl in A. congruence.
    + apply lookup_ge_None in E. apply lookup_lt_Some in H. lia.
  - destruct (decide (k < length (pending s))%nat) as [Hlt|Hge].
    + left. destruct (handleCommand_frame cfg s c e) as (_ & _ & _ & [P|(x & P)]);
        simpl in P; rewrite P in H; [exact H|].
      rewrite lookup_app_l in H by exact Hlt. exact H.
    + destruct (step_new cfg s (InteractionCreate (ChatInputCommand c e)) k r' H)
        as (c0 & e0 & raw & m & _ & _ & _ & ->); [lia|].
      simpl in A. discriminate A.
  - destruct (resolved (snd (handleButton cfg s b now))) eqn:Res.
    + destruct (handleButton_resolved cfg s b now Res)
        as (slot & r & CR & Hs & P & Acc & _).
      unfold clickedRequest in CR. apply findRequest_Some in CR as (CR & _).
      rewrite P in H. destruct (decide (k = slot)) as [->|Hne].
      * rewrite list_lookup_insert_eq in H by (eapply lookup_lt_Some; exact CR).
        injection H as <-. simpl in A. right.
        exists r, (user_id (bc_user b)), now. rewrite A in Acc |- *.
        split; [exact CR|]. split; [reflexivity|].
        rewrite Acc. destruct (decide (Approved = Approved)); [reflexivity|congruence].
      * rewrite list_lookup_insert_ne in H by congruence. auto.
    + rewrite (handleButton_unresolved cfg s b now Res) in H. auto.
  - auto.
Qed.

Lemma step_approvalsLinked cfg s ev :
  approvalsLinked s -> approvalsLinked (step cfg s ev).
Proof.
  intros Inv r' [k H]%In_lookup A.
  destruct (step_approved_origin cfg s ev k r' H A)
    as [Old|(r & u & t & Hr & -> & Acc)].
  - destruct (Inv r') as (e & He & Hin); [apply In_lookup; eauto|exact A|].
    exact (step_keeps_links cfg s ev _ e _ He Hin).
  - rewrite Acc, linkTarget_with_resolution.
    destruct (upsertAccount_target (accounts s) r) as (e & He & Hin & _).
    exists e. split; [exact He|exact Hin].
Qed.

(** X19.  An approval stays: if every approved request has its in-game
    name in the entry of its target account, this is still so after any
    sequence of events, the approvals made on the way included.  In a
    store grown from a first start every approved request is therefore
    linked: with X4, the names linked to an account are exactly the
    names of the approved requests that target it. *)
Theorem approvals_stay_linked (cfg : Config) (evs : list Event) (s : State) :
  approvalsLinked s ->
  approvalsLinked (run cfg s evs) /\
  (forall c n, approvalsLinked (run cfg (emptyState c n) evs)).
Proof.
  assert (Run : forall l s0, approvalsLinked s0 -> approvalsLinked (run cfg s0 l)).
  { induction l as [|ev l IH]; intros s0 H; [exact H|].
    simpl. apply IH, step_approvalsLinked, H. }
  intros Inv. split; [apply Run, Inv|].
  intros c n. apply Run. intros r [].
Qed.

Lemma approvals_stay_linked_witness :
  approvalsLinked Sample.submitted_again.
Proof.
  destruct (approvals_stay_linked Sample.cfg
              [InteractionCreate
                 (ButtonInteraction
                    (Sample.click "link_accept_17-5" Sample.bob Sample.moderator) 20);
               InteractionCreate
                 (ChatInputCommand (Sample.link Sample.alice "Notch" None)
                    (mkReadings 18 6 18))]
              Sample.submitted) as [A _].
  - intros r [<-|[]] Hs. discriminate Hs.
  - exact A.
Defined.

(** ** X20: a click that resolves nothing leaves no trace *)

(** X20.  A click changes the store, the files or the channels exactly
    when it is answered with one of the two success replies: after any
    other answer the state is what it was before the click, and a
    success reply always comes with a changed request collection. *)
Theorem unresolved_click_leaves_no_trace (cfg : Config) (s : State) (b : ButtonClick)
    (now : Z) :
  (resolved (snd (handleButton cfg s b now)) = false ->
   fst (handleButton cfg s b now) = s) /\
  (resolved (snd (handleButton cfg s b now)) = true ->
   pending (fst (handleButton cfg s b now)) <> pending s).
Proof.
  split; [apply handleButton_unresolved|].
  intros Res.
  destruct (handleButton_resolved cfg s b now Res) as (slot & r & CR & Hs & P & _).
  unfold clickedRequest in CR. apply findRequest_Some in CR as (L & _).
  intros E. rewrite P in E.
  apply (f_equal (fun l => status <$> l !! slot)) in E.
  rewrite list_lookup_insert_eq in E by (eapply lookup_lt_Some; exact L).
  rewrite L in E. simpl in E. injection E as E.
  rewrite Hs in E. exact (decision_terminal b E).
Qed.

Lemma unresolved_click_leaves_no_trace_witness :
  fst (handleButton Sample.cfg Sample.submitted
         (Sample.click "link_accept_17-5" Sample.carol Sample.visitor) 20)
  = Sample.submitted /\
  pending Sample.approved <> pending Sample.submitted.
Proof.
  split.
  - apply (proj1 (unresolved_click_leaves_no_trace Sample.cfg Sample.submitted
                    (Sample.click "link_accept_17-5" Sample.carol Sample.visitor) 20)).
    reflexivity.
  - apply (proj2 (unresolved_click_leaves_no_trace Sample.cfg Sample.submitted
                    (Sample.click "link_accept_17-5" Sample.bob Sample.moderator) 20)).
    reflexivity.
Defined.
